(** * FinanceAcademy bot: the record store, the purchase ledger and the
      operator commands of [src/bot.py], as a shallow embedding.

    The Python functions are state-passing computations over a [world]: the
    two files the store touches ([USERS_PATH] and its [.tmp] staging file),
    the clock, and the trace of what the bot logged and sent.  A Python
    exception is an explicit [Raise] outcome; the state reached before the
    exception is kept, as in Python.

    Conventions of the model.
    - Text is a [string] holding the UTF-8 bytes of a Python [str].  [strip],
      [lower], [upper] and [int] work on its code points as the builtins do;
      what they look up in the Unicode database for a character outside
      ASCII (digit values, case mappings) is a parameter of the development,
      and every property holds whatever those tables are.
    - A file's text is classified by what [raw.strip()] and [json.loads] make
      of it ([content]): blank, text that [json.loads] refuses, or the text
      of a JSON value.  [json.dump] of a value writes the text of that value.
    - A write runs all its file-system steps, or ([disk_ok] false) it raises
      after [staged] of the steps that come before the replace, and is
      logged; [os.replace] is one step.
    - [int(time.time())] reads the [clock] of the world; a run of operations
      sets it to the time each operation arrives at.
    - Gateway calls succeed, except [bot.send_message] to a chat listed in
      [blocked].  Message bodies that are long localized texts are named by
      a constructor of [body] instead of being spelled out. *)

From Stdlib Require Import ZArith NArith String Ascii List Bool Lia.
From Stdlib Require PrimFloat.
From stdpp Require Import base option list gmap strings pretty.

Local Open Scope Z_scope.

(** ** Python strings *)

Module PyStr.

(** What the interpreter's Unicode database says of the characters outside
    ASCII.  These tables grow from one version of Unicode to the next, so
    the functions below take them as given, and what is proved of them holds
    for every table. *)
Class Unicode := {
  decimal : N -> option N;       (* Py_UNICODE_TODECIMAL: the value of a decimal digit *)
  to_upper : N -> list N;        (* _PyUnicode_ToUpperFull *)
  to_lower : N -> list N;        (* _PyUnicode_ToLowerFull *)
  cased : N -> bool;             (* _PyUnicode_IsCased *)
  case_ignorable : N -> bool     (* _PyUnicode_IsCaseIgnorable *)
}.

(** The payload of a continuation byte [10xxxxxx]. *)
Definition cont (b : ascii) : option N :=
  let n := N_of_ascii b in
  if (128 <=? n)%N && (n <? 192)%N then Some (n - 128)%N else None.

(** The code points of a text.  A byte that is part of no well-formed
    sequence (no [str] of Python holds one) is kept apart from every
    character, as [0x110000] plus the byte. *)
Fixpoint decode (s : string) : list N :=
  match s with
  | EmptyString => []
  | String b0 s1 =>
      let n0 := N_of_ascii b0 in
      let stray := (0x110000 + n0)%N :: decode s1 in
      if (n0 <? 128)%N then n0 :: decode s1
      else if (n0 <? 192)%N then stray
      else
        match s1 with
        | EmptyString => stray
        | String b1 s2 =>
            match cont b1 with
            | None => stray
            | Some c1 =>
                if (n0 <? 224)%N then ((n0 - 192) * 64 + c1)%N :: decode s2
                else
                  match s2 with
                  | EmptyString => stray
                  | String b2 s3 =>
                      match cont b2 with
                      | None => stray
                      | Some c2 =>
                          if (n0 <? 240)%N
                          then ((n0 - 224) * 4096 + c1 * 64 + c2)%N :: decode s3
                          else
                            match s3 with
                            | EmptyString => stray
                            | String b3 s4 =>
                                match cont b3 with
                                | None => stray
                                | Some c3 =>
                                    ((n0 - 240) * 262144 + c1 * 4096 + c2 * 64 + c3)%N
                                      :: decode s4
                                end
                            end
                      end
                  end
            end
        end
  end.

Definition byte (n : N) : ascii := ascii_of_N n.

(** The UTF-8 bytes of a code point. *)
Definition encode_char (c : N) : list ascii :=
  if (c <? 0x80)%N then [byte c]
  else if (c <? 0x800)%N then [byte (192 + c / 64); byte (128 + c mod 64)]
  else if (c <? 0x10000)%N
  then [byte (224 + c / 4096); byte (128 + (c / 64) mod 64); byte (128 + c mod 64)]
  else if (c <? 0x110000)%N
  then [byte (240 + c / 262144); byte (128 + (c / 4096) mod 64);
        byte (128 + (c / 64) mod 64); byte (128 + c mod 64)]
  else [byte (c - 0x110000)].

Definition encode (l : list N) : string :=
  string_of_list_ascii (l ≫= encode_char).

(** [Py_UNICODE_ISSPACE]: the characters [str.strip] drops. *)
Definition is_space (c : N) : bool :=
  ((9 <=? c) && (c <=? 13) || (28 <=? c) && (c <=? 32)
   || (c =? 0x85) || (c =? 0xA0) || (c =? 0x1680)
   || (0x2000 <=? c) && (c <=? 0x200A)
   || (c =? 0x2028) || (c =? 0x2029) || (c =? 0x202F) || (c =? 0x205F)
   || (c =? 0x3000))%N.

Fixpoint lstrip_by (space : N -> bool) (l : list N) : list N :=
  match l with
  | c :: l' => if space c then lstrip_by space l' else l
  | [] => []
  end.

Definition rstrip_by (space : N -> bool) (l : list N) : list N :=
  rev (lstrip_by space (rev l)).

Definition strip_by (space : N -> bool) (l : list N) : list N :=
  rstrip_by space (lstrip_by space l).

Definition lstrip (s : string) : string := encode (lstrip_by is_space (decode s)).
Definition rstrip (s : string) : string := encode (rstrip_by is_space (decode s)).

(** [s.strip()] *)
Definition strip (s : string) : string := encode (strip_by is_space (decode s)).

Definition lower_ascii (c : N) : N :=
  if ((65 <=? c) && (c <=? 90))%N then (c + 32)%N else c.

Definition upper_ascii (c : N) : N :=
  if ((97 <=? c) && (c <=? 122))%N then (c - 32)%N else c.

Fixpoint skip_ignorable `{Unicode} (l : list N) : list N :=
  match l with
  | c :: l' => if case_ignorable c then skip_ignorable l' else l
  | [] => []
  end.

(** [handle_capital_sigma]: a capital sigma is final when a cased character
    comes before it and none after it, case-ignorable characters apart. *)
Definition final_sigma `{Unicode} (before after : list N) : bool :=
  match skip_ignorable before with
  | c :: _ =>
      cased c && match skip_ignorable after with
                 | c' :: _ => negb (cased c')
                 | [] => true
                 end
  | [] => false
  end.

(** [before]: the characters already passed, the nearest first. *)
Fixpoint lower_chars `{Unicode} (before l : list N) : list N :=
  match l with
  | [] => []
  | c :: rest =>
      (if (c =? 0x3A3)%N
       then [if final_sigma before rest then 0x3C2%N else 0x3C3%N]
       else if (c <? 128)%N then [lower_ascii c]
       else to_lower c)
        ++ lower_chars (c :: before) rest
  end.

Definition upper_char `{Unicode} (c : N) : list N :=
  if (c <? 128)%N then [upper_ascii c] else to_upper c.

(** [s.lower()] and [s.upper()] *)
Definition lower `{Unicode} (s : string) : string := encode (lower_chars [] (decode s)).
Definition upper `{Unicode} (s : string) : string := encode (decode s ≫= upper_char).

(** [s.startswith(p)] *)
Definition startswith (p s : string) : bool := String.prefix p s.

(** [s.split(":", 1)[1]] for a string that holds a colon: what follows the
    first colon.  [None] is the [IndexError] of a string without one. *)
Fixpoint after_colon (s : string) : option string :=
  match s with
  | String c s' => if Ascii.eqb c ":" then Some s' else after_colon s'
  | EmptyString => None
  end.

(** [_PyUnicode_TransformDecimalAndSpaceToASCII]: what [int] makes of a
    character before it parses. *)
Definition to_ascii `{Unicode} (c : N) : N :=
  if (c <? 127)%N then c
  else if is_space c then 32%N
  else match decimal c with
       | Some d => if (d <? 10)%N then (48 + d)%N else 63%N
       | None => 63%N
       end.

(** [Py_ISSPACE]: the blanks [int] skips at both ends. *)
Definition c_space (c : N) : bool := ((9 <=? c) && (c <=? 13) || (c =? 32))%N.

Definition digit (c : N) : option Z :=
  if ((48 <=? c) && (c <=? 57))%N then Some (Z.of_N (c - 48)) else None.

(** The digits of [int(s)]: one or more decimal digits, single underscores
    allowed between two digits.  [prev] tells whether the previous
    character was a digit. *)
Fixpoint digits (acc : Z) (prev : bool) (l : list N) : option Z :=
  match l with
  | [] => if prev then Some acc else None
  | c :: l' =>
      match digit c with
      | Some d => digits (10 * acc + d) true l'
      | None =>
          if (c =? 95)%N && prev
          then match l' with
               | [] => None
               | _ => digits acc false l'
               end
          else None
      end
  end.

Fixpoint count_digits (l : list N) : Z :=
  match l with
  | c :: l' =>
      match digit c with
      | Some _ => 1 + count_digits l'
      | None => count_digits l'
      end
  | [] => 0
  end.

(** [sys.int_max_str_digits]: longer decimal texts are refused. *)
Definition int_max_str_digits : Z := 4300.

(** [int(s)]: the characters are brought to ASCII, the blanks at both ends
    are skipped, then come an optional sign and the digits.  [None] is the
    [ValueError]. *)
Definition int `{Unicode} (s : string) : option Z :=
  let l := strip_by c_space (to_ascii <$> decode s) in
  let body := match l with
              | c :: l' =>
                  if (c =? 45)%N then Z.opp <$> digits 0 false l'
                  else if (c =? 43)%N then digits 0 false l'
                  else digits 0 false l
              | [] => None
              end in
  if int_max_str_digits <? count_digits l then None else body.

(** [str(n)] for an integer.  The user ids of the program come from the
    gateway or from [int], so they stay below the length at which Python
    refuses the conversion. *)
Definition str (n : Z) : string := pretty n.

(** The first code point of each run of ten decimal digits outside ASCII,
    in Unicode 14.0. *)
Definition digit_zeros : list N :=
  [0x660; 0x6f0; 0x7c0; 0x966; 0x9e6; 0xa66; 0xae6; 0xb66; 0xbe6; 0xc66; 0xce6;
   0xd66; 0xde6; 0xe50; 0xed0; 0xf20; 0x1040; 0x1090; 0x17e0; 0x1810; 0x1946;
   0x19d0; 0x1a80; 0x1a90; 0x1b50; 0x1bb0; 0x1c40; 0x1c50; 0xa620; 0xa8d0; 0xa900;
   0xa9d0; 0xa9f0; 0xaa50; 0xabf0; 0xff10; 0x104a0; 0x10d30; 0x11066; 0x110f0;
   0x11136; 0x111d0; 0x112f0; 0x11450; 0x114d0; 0x11650; 0x116c0; 0x11730;
   0x118e0; 0x11950; 0x11c50; 0x11d50; 0x11da0; 0x16a60; 0x16ac0; 0x16b50;
   0x1d7ce; 0x1d7d8; 0x1d7e2; 0x1d7ec; 0x1d7f6; 0x1e140; 0x1e2f0; 0x1e950;
   0x1fbf0]%N.

(** The characters outside ASCII whose upper case holds an ASCII letter,
    with that upper case; and the same for the lower case. *)
Definition upper_to_ascii : list (N * list N) :=
  [(0xdf, [83; 83]); (0x131, [73]); (0x149, [0x2bc; 78]); (0x17f, [83]);
   (0x1f0, [74; 0x30c]); (0x1e96, [72; 0x331]); (0x1e97, [84; 0x308]);
   (0x1e98, [87; 0x30a]); (0x1e99, [89; 0x30a]); (0x1e9a, [65; 0x2be]);
   (0xfb00, [70; 70]); (0xfb01, [70; 73]); (0xfb02, [70; 76]);
   (0xfb03, [70; 70; 73]); (0xfb04, [70; 70; 76]); (0xfb05, [83; 84]);
   (0xfb06, [83; 84])]%N.

Definition lower_to_ascii : list (N * list N) :=
  [(0x130, [105; 0x307]); (0x212a, [107])]%N.

Definition lookup_char (table : list (N * list N)) (c : N) : list N :=
  match find (fun e => (e.1 =? c)%N) table with
  | Some e => e.2
  | None => [c]
  end.

(** An excerpt of the tables of Unicode 14.0: every decimal digit; of the
    case mappings those that touch ASCII, every other character being left
    as it is; of the cased and the case-ignorable characters those of
    ASCII. *)
Definition unicode_14_excerpt : Unicode := {|
  decimal c := (fun z => c - z)%N <$> find (fun z => (z <=? c) && (c <? z + 10))%N digit_zeros;
  to_upper := lookup_char upper_to_ascii;
  to_lower := lookup_char lower_to_ascii;
  cased c := ((65 <=? c) && (c <=? 90) || (97 <=? c) && (c <=? 122))%N;
  case_ignorable c := ((c =? 39) || (c =? 46) || (c =? 58) || (c =? 94) || (c =? 96))%N
|}.

End PyStr.


(** ** JSON values, as [json.loads] returns them *)

#[warnings="-register-all"]
Inductive json : Type :=
| JNull
| JBool (b : bool)
| JInt (n : Z)
| JFloat (f : PrimFloat.float)
| JStr (s : string)
| JList (l : list json)
| JDict (d : gmap string json).

Abbreviation dict := (gmap string json).

(** Truth value of a Python object, for [x or y]. *)
Definition truthy (v : json) : bool :=
  match v with
  | JNull => false
  | JBool b => b
  | JInt n => negb (n =? 0)
  | JFloat f => negb (PrimFloat.is_zero f)
  | JStr s => negb (String.eqb s "")
  | JList l => match l with [] => false | _ => true end
  | JDict d => negb (bool_decide (d = ∅))
  end.

(** [d.get(k)]: [None] when the key is absent. *)
Definition get (d : dict) (k : string) : json := default JNull (d !! k).

(** [d.get(k, {})] *)
Definition get_or_empty (d : dict) (k : string) : json := default (JDict ∅) (d !! k).

(** [x if isinstance(x, dict) else {}] *)
Definition as_dict (v : json) : dict :=
  match v with JDict d => d | _ => ∅ end.

(** ** The world *)

(** What a file's text is to [raw.strip()] and [json.loads]. *)
Inductive content :=
| Blank              (* empty, or whitespace only *)
| Corrupt            (* [json.loads] raises on it: a cut-off document, say *)
| Doc (v : json).    (* the text of the JSON value [v] *)

Inductive file :=
| Missing            (* [os.path.exists] is false *)
| Unreadable         (* exists, but [open] or [read] raises *)
| Holds (c : content).

Record disk := Disk {
  users_file : file;   (* USERS_PATH *)
  tmp_file : file      (* USERS_PATH + ".tmp" *)
}.

Inductive exn :=
| AttributeError | ValueError | IndexError
| OSError | JSONDecodeError | TelegramError.

(** Long localized texts, by the place that builds them. *)
Inductive body :=
| Text (s : string)                       (* a literal, spelled out *)
| ApprovedNotice (lang plan : string)     (* cmd_approve: notice to the buyer *)
| GroupLink (lang plan : string)          (* cmd_approve: the plan's group link *)
| DeniedNotice (lang : string)            (* cmd_deny: notice to the buyer *)
| PlanDetails (lang plan : string)        (* on_callback, plan: plan_details *)
| PlanChosen (uid : Z) (plan : string)    (* on_callback, plan: notice to the operator *)
| RequestSent (lang : string)             (* on_callback, paid: *)
| NewRequest (uid : Z) (plan : string)    (* on_callback, paid: notice to the operator *)
| LangSet (lang : string)                 (* on_callback, lang: *)
| MenuDash (lang : string).               (* the dash message that carries main_menu *)

Inductive event :=
| reply_text (b : body)                     (* update.message.reply_text *)
| edit_message_text (b : body)              (* query.edit_message_text *)
| send_message (chat_id : Z) (b : body)     (* bot.send_message *)
| log_warning (msg : string)
| log_error (msg : string).

Record world := World {
  files : disk;
  disk_ok : bool;         (* false: a write raises before it replaces the users file *)
  clock : Z;              (* int(time.time()) *)
  blocked : list Z;       (* chats bot.send_message cannot reach *)
  trace : list event;     (* what was logged and sent, oldest first *)
  staged : nat            (* the steps a write that raises completes first: none when
                             os.makedirs raises, one when open(tmp, "w") does, every
                             step but the last when os.replace does *)
}.

Definition with_files (d : disk) (w : world) : world :=
  World d (disk_ok w) (clock w) (blocked w) (trace w) (staged w).

Definition with_event (e : event) (w : world) : world :=
  World (files w) (disk_ok w) (clock w) (blocked w) (trace w ++ [e]) (staged w).

(** ** The monad of Python computations *)

Inductive outcome (A : Type) :=
| Ok (a : A)
| Raise (e : exn).
Arguments Ok {A} a.
Arguments Raise {A} e.

Definition Py (A : Type) : Type := world -> outcome A * world.

Definition ret {A} (a : A) : Py A := fun w => (Ok a, w).

Definition raise {A} (e : exn) : Py A := fun w => (Raise e, w).

Definition bind {A B} (m : Py A) (k : A -> Py B) : Py B :=
  fun w => match m w with
           | (Ok a, w') => k a w'
           | (Raise e, w') => (Raise e, w')
           end.

(** [try: body / except Exception as e: handler(e)] *)
Definition try_except {A} (body : Py A) (handler : exn -> Py A) : Py A :=
  fun w => match body w with
           | (Ok a, w') => (Ok a, w')
           | (Raise e, w') => handler e w'
           end.

Notation "'let*' x ':=' m 'in' k" := (bind m (fun x => k))
  (at level 10, x name, m at level 100, k at level 200).
Notation "'run' m 'then' k" := (bind m (fun _ => k))
  (at level 10, m at level 100, k at level 200).

Definition emit (e : event) : Py unit := fun w => (Ok tt, with_event e w).

Definition time_time : Py Z := fun w => (Ok (clock w), w).

(** [bot.send_message(chat_id, ...)]: raises for a chat it cannot reach. *)
Definition bot_send (chat_id : Z) (b : body) : Py unit :=
  fun w => if bool_decide (chat_id ∈ blocked w)
           then (Raise TelegramError, w)
           else (Ok tt, with_event (send_message chat_id b) w).

(** The result and the final world of a computation. *)
Definition result {A} (m : Py A) (w : world) : outcome A := fst (m w).
Definition after {A} (m : Py A) (w : world) : world := snd (m w).

Section Bot.

(** The Unicode tables of the interpreter the bot runs on. *)
Context {unicode : PyStr.Unicode}.

(** ** Configuration (module globals read from the environment) *)

Record config := Config {
  ADMIN_ID : string;          (* stripped; empty when unset *)
  GROUP_BASIC_URL : string;
  GROUP_PRO_URL : string;
  GROUP_VIP_URL : string
}.

(** [PRICES]: promo and regular price per plan. *)
Definition PRICES : list (string * (Z * Z)) :=
  [("BASIC", (99, 149)); ("PRO", (249, 349)); ("VIP", (399, 499))].

(** [plan in PRICES] *)
Definition in_PRICES (plan : string) : bool :=
  bool_decide (plan ∈ PRICES.*1).

Definition SUPPORTED_LANGS : list string := ["ru"; "tj"].
Definition DEFAULT_LANG : string := "ru".

(** [str(x)] of a stored value.  [py_repr] is Python's [repr] of a float, a
    list or a dict, which the model leaves open. *)
Definition py_str (py_repr : json -> string) (v : json) : string :=
  match v with
  | JStr s => s
  | JNull => "None"
  | JBool true => "True"
  | JBool false => "False"
  | JInt n => PyStr.str n
  | _ => py_repr v
  end.

(** ** Storage (safe JSON) *)

(** The body of the [try] in [_safe_read_json]. *)
Definition read_json_body : Py dict := fun w =>
  match users_file (files w) with
  | Missing => (Ok ∅, w)                          (* not os.path.exists(path) *)
  | Unreadable => (Raise OSError, w)              (* open / f.read() *)
  | Holds Blank => (Ok ∅, w)                      (* not raw *)
  | Holds Corrupt => (Raise JSONDecodeError, w)   (* json.loads(raw) *)
  | Holds (Doc (JDict d)) => (Ok d, w)
  | Holds (Doc _) => (Ok ∅, w)                    (* not isinstance(data, dict) *)
  end.

Definition _safe_read_json : Py dict :=
  try_except read_json_body
    (fun _ => run emit (log_warning "Failed to read JSON") then ret ∅).

(** The file-system steps of one [_safe_write_json], in program order. *)
Inductive fs_op :=
| op_makedirs                 (* os.makedirs(dirname, exist_ok=True) *)
| op_open_tmp                 (* open(tmp, "w"): creates or truncates tmp *)
| op_dump_part                (* json.dump has written part of the text *)
| op_dump_end (data : dict)   (* json.dump has written all of it; tmp closed *)
| op_replace.                 (* os.replace(tmp, path) *)

Definition fs_step (op : fs_op) (d : disk) : disk :=
  match op with
  | op_makedirs => d
  | op_open_tmp => Disk (users_file d) (Holds Blank)
  | op_dump_part => Disk (users_file d) (Holds Corrupt)
  | op_dump_end data => Disk (users_file d) (Holds (Doc (JDict data)))
  | op_replace => Disk (tmp_file d) Missing
  end.

Definition fs_run (ops : list fs_op) (d : disk) : disk :=
  fold_left (fun d op => fs_step op d) ops d.

(** [chunks]: how many partial writes [json.dump] makes before the last. *)
Definition write_ops (chunks : nat) (data : dict) : list fs_op :=
  [op_makedirs; op_open_tmp] ++ repeat op_dump_part chunks
    ++ [op_dump_end data; op_replace].

(** The steps before the replace: what a write does to the staging file. *)
Definition staging_ops (chunks : nat) (data : dict) : list fs_op :=
  [op_makedirs; op_open_tmp] ++ repeat op_dump_part chunks ++ [op_dump_end data].

(** The body of the [try] in [_safe_write_json]: the steps in order, all of
    them or, when one raises, those before it. *)
Definition write_json_body (data : dict) : Py unit := fun w =>
  if disk_ok w
  then (Ok tt, with_files (fs_run (write_ops 1 data) (files w)) w)
  else (Raise OSError,
        with_files (fs_run (take (staged w) (staging_ops 1 data)) (files w)) w).

Definition _safe_write_json (data : dict) : Py unit :=
  try_except (write_json_body data)
    (fun _ => emit (log_error "Failed to write JSON")).

Definition get_user (uid : Z) : Py dict :=
  let* users := _safe_read_json in
  let u := get_or_empty users (PyStr.str uid) in
  ret (as_dict u).

Definition upsert_user (uid : Z) (patch : dict) : Py dict :=
  let* users := _safe_read_json in
  let key := PyStr.str uid in
  let cur := as_dict (get_or_empty users key) in
  let cur := patch ∪ cur in                        (* cur.update(patch) *)
  let users := <[key := JDict cur]> users in
  run _safe_write_json users then
  ret cur.

(** ** Purchase ledger *)

Definition entry (status : string) (ts : Z) : dict :=
  <["status" := JStr status]> (<["ts" := JInt ts]> ∅).

Definition set_purchase_status (uid : Z) (plan status : string) : Py unit :=
  let* u := get_user uid in
  let purchases := as_dict (get_or_empty u "purchases") in
  let* now := time_time in
  let purchases := <[plan := JDict (entry status now)]> purchases in
  run upsert_user uid (<["purchases" := JDict purchases]> ∅) then
  ret tt.

Definition get_purchase_status (py_repr : json -> string) (uid : Z) (plan : string)
  : Py string :=
  let* u := get_user uid in
  match get_or_empty u "purchases" with
  | JDict purchases =>
      match get_or_empty purchases plan with
      | JDict p => ret (py_str py_repr (default (JStr "none") (p !! "status")))
      | _ => ret "none"
      end
  | _ => ret "none"
  end.

(** [isinstance(p, dict) and p.get("status") == "approved"], for [p = purchases.get(plan)] *)
Definition is_approved (purchases : dict) (plan : string) : bool :=
  match get purchases plan with
  | JDict p => match get p "status" with
               | JStr s => String.eqb s "approved"
               | _ => false
               end
  | _ => false
  end.

(** The [for plan in (...)] loop of [user_has_access] and [get_approved_plan]:
    the first plan of the tuple that is approved. *)
Fixpoint first_approved (purchases : dict) (plans : list string) : option string :=
  match plans with
  | [] => None
  | plan :: rest =>
      if is_approved purchases plan then Some plan
      else first_approved purchases rest
  end.

Definition user_has_access (uid : Z) : Py bool :=
  let* u := get_user uid in
  match get_or_empty u "purchases" with
  | JDict purchases =>
      match first_approved purchases ["BASIC"; "PRO"; "VIP"] with
      | Some _ => ret true
      | None => ret false
      end
  | _ => ret false
  end.

Definition get_approved_plan (uid : Z) : Py (option string) :=
  let* u := get_user uid in
  match get_or_empty u "purchases" with
  | JDict purchases => ret (first_approved purchases ["VIP"; "PRO"; "BASIC"])
  | _ => ret None
  end.

(** [(x or "").strip().lower()]: [strip] is an attribute of strings only. *)
Definition or_empty_strip_lower (v : json) : Py string :=
  match (if truthy v then v else JStr "") with
  | JStr s => ret (PyStr.lower (PyStr.strip s))
  | _ => raise AttributeError
  end.

Definition coerce_lang (lang : string) : string :=
  if bool_decide (lang ∈ SUPPORTED_LANGS) then lang else DEFAULT_LANG.

Definition get_lang (uid : Z) : Py string :=
  let* u := get_user uid in
  let* lang := or_empty_strip_lower (get u "lang") in
  ret (coerce_lang lang).

Definition set_lang (uid : Z) (lang : string) : Py unit :=
  let* lang := or_empty_strip_lower (JStr lang) in
  let lang := coerce_lang lang in
  let* now := time_time in
  run upsert_user uid (<["lang" := JStr lang]> (<["lang_ts" := JInt now]> ∅)) then
  ret tt.

(** ** Admin helpers *)

Definition is_admin (cfg : config) (uid : Z) : bool :=
  if String.eqb (ADMIN_ID cfg) "" then true          (* not ADMIN_ID *)
  else String.eqb (PyStr.str uid) (ADMIN_ID cfg).

Definition notify_admin (cfg : config) (b : body) : Py unit :=
  if String.eqb (ADMIN_ID cfg) "" then ret tt
  else
    try_except
      (match PyStr.int (ADMIN_ID cfg) with
       | Some chat_id => bot_send chat_id b
       | None => raise ValueError
       end)
      (fun _ => emit (log_warning "Failed to notify admin")).

(** ** UI helpers that read the store *)

(** [main_menu(uid)]: the keyboard is determined by the user's language. *)
Definition main_menu (uid : Z) : Py string := get_lang uid.

(** [groups_inline(uid, plan)]: the link configured for the plan, if any. *)
Definition groups_inline (cfg : config) (uid : Z) (plan : string)
  : Py (option string) :=
  let* lang := get_lang uid in
  let url :=
    if String.eqb plan "BASIC" then GROUP_BASIC_URL cfg
    else if String.eqb plan "PRO" then GROUP_PRO_URL cfg
    else if String.eqb plan "VIP" then GROUP_VIP_URL cfg
    else "" in
  ret (if String.eqb url "" then None else Some url).

(** ** Handlers *)

(** What a command handler reads of its [Update] and context. *)
Record update := Update {
  has_message : bool;             (* update.message is not None *)
  effective_user : option Z;      (* update.effective_user.id *)
  args : list string              (* context.args *)
}.

(** [not admin or not is_admin(admin.id)], negated. *)
Definition caller_is_admin (cfg : config) (upd : update) : bool :=
  match effective_user upd with
  | Some admin_id => is_admin cfg admin_id
  | None => false
  end.

Definition msg_no_access : body := Text "Нет доступа.".
Definition msg_usage_approve : body :=
  Text "Использование: /approve USER_ID PLAN (BASIC/PRO/VIP)".
Definition msg_usage_deny : body :=
  Text "Использование: /deny USER_ID PLAN (BASIC/PRO/VIP)".
Definition msg_bad_plan : body := Text "PLAN должен быть BASIC/PRO/VIP".
Definition msg_bad_uid : body := Text "USER_ID должен быть числом".

Definition cmd_approve (cfg : config) (upd : update) : Py unit :=
  if negb (has_message upd) then ret tt
  else if negb (caller_is_admin cfg upd) then emit (reply_text msg_no_access)
  else
    match args upd with
    | uid_str :: plan_arg :: _ =>
        let plan := PyStr.upper plan_arg in
        if negb (in_PRICES plan) then emit (reply_text msg_bad_plan)
        else
          match PyStr.int uid_str with
          | None => emit (reply_text msg_bad_uid)
          | Some uid =>
              run set_purchase_status uid plan "approved" then
              run emit (reply_text
                     (Text ("✅ Подтверждено: " +:+ PyStr.str uid +:+ " → " +:+ plan))) then
              let* lang := get_lang uid in
              try_except
                (let* menu := main_menu uid in
                 run bot_send uid (ApprovedNotice lang plan) then
                 let* gi := groups_inline cfg uid plan in
                 match gi with
                 | Some _ => bot_send uid (GroupLink lang plan)
                 | None => ret tt
                 end)
                (fun _ => emit (log_warning "Failed to message user"))
          end
    | _ => emit (reply_text msg_usage_approve)        (* len(context.args) < 2 *)
    end.

Definition cmd_deny (cfg : config) (upd : update) : Py unit :=
  if negb (has_message upd) then ret tt
  else if negb (caller_is_admin cfg upd) then emit (reply_text msg_no_access)
  else
    match args upd with
    | uid_str :: plan_arg :: _ =>
        let plan := PyStr.upper plan_arg in
        if negb (in_PRICES plan) then emit (reply_text msg_bad_plan)
        else
          match PyStr.int uid_str with
          | None => emit (reply_text msg_bad_uid)
          | Some uid =>
              run set_purchase_status uid plan "denied" then
              run emit (reply_text
                     (Text ("⛔ Отказано: " +:+ PyStr.str uid +:+ " → " +:+ plan))) then
              let* lang := get_lang uid in
              try_except
                (let* menu := main_menu uid in
                 bot_send uid (DeniedNotice lang))
                (fun _ => emit (log_warning "Failed to message user"))
          end
    | _ => emit (reply_text msg_usage_deny)
    end.

(** What [on_callback] reads of its [Update]. *)
Record callback := Callback {
  has_query : bool;               (* update.callback_query is not None *)
  cb_user : option Z;             (* update.effective_user.id *)
  cb_data : string                (* query.data or "" *)
}.

(** [data.split(":", 1)[1]] *)
Definition split_value (data : string) : Py string :=
  match PyStr.after_colon data with
  | Some v => ret v
  | None => raise IndexError
  end.

Definition on_callback (cfg : config) (cb : callback) : Py unit :=
  if negb (has_query cb) then ret tt
  else
    match cb_user cb with
    | None => ret tt
    | Some uid =>
        let data := cb_data cb in
        if PyStr.startswith "lang:" data then
          let* v := split_value data in
          let lang := PyStr.lower (PyStr.strip v) in
          run set_lang uid lang then
          run emit (edit_message_text
                 (LangSet (if String.eqb lang "tj" then "tj" else "ru"))) then
          let* menu := main_menu uid in
          bot_send uid (MenuDash menu)
        else if PyStr.startswith "plan:" data then
          let* v := split_value data in
          let plan := PyStr.upper v in
          if negb (in_PRICES plan) then emit (edit_message_text (Text "Ошибка тарифа."))
          else
            let* now := time_time in
            run upsert_user uid
                  (<["last_selected_plan" := JStr plan]>
                     (<["last_selected_plan_ts" := JInt now]> ∅)) then
            let* lang := get_lang uid in                       (* plan_details *)
            run emit (edit_message_text (PlanDetails lang plan)) then
            notify_admin cfg (PlanChosen uid plan)
        else if PyStr.startswith "paid:" data then
          let* v := split_value data in
          let plan := PyStr.upper v in
          if negb (in_PRICES plan) then emit (edit_message_text (Text "Ошибка тарифа."))
          else
            run set_purchase_status uid plan "requested" then
            let* lang := get_lang uid in
            run emit (edit_message_text (RequestSent lang)) then
            notify_admin cfg (NewRequest uid plan)
        else ret tt
    end.

(** The operations on the ledger: the buyer's button presses and the
    operator's two commands. *)
Inductive operation :=
| Pressed (cb : callback)
| Approve (upd : update)
| Deny (upd : update).

Definition handle (cfg : config) (op : operation) : Py unit :=
  match op with
  | Pressed cb => on_callback cfg cb
  | Approve upd => cmd_approve cfg upd
  | Deny upd => cmd_deny cfg upd
  end.

(** The status an operation writes. *)
Definition forced_status (op : operation) : string :=
  match op with
  | Pressed _ => "requested"
  | Approve _ => "approved"
  | Deny _ => "denied"
  end.

(** The world when the clock shows [now]. *)
Definition at_time (now : Z) (w : world) : world :=
  World (files w) (disk_ok w) now (blocked w) (trace w) (staged w).

(** A run of the bot: operations with the time each arrives at.  A handler
    that raises is caught by the dispatcher ([on_error] logs it); the world
    it reached stays. *)
Fixpoint handle_all (cfg : config) (ops : list (Z * operation)) (w : world) : world :=
  match ops with
  | [] => w
  | (now, op) :: rest => handle_all cfg rest (after (handle cfg op) (at_time now w))
  end.

(** ** Message handlers *)

(** [update.effective_user], as the message handlers read it. *)
Record sender := Sender {
  sender_id : Z;
  first_name : option string;
  last_name : option string;
  username : option string
}.

(** What a message handler reads of its [Update]. *)
Record message := Message {
  msg_present : bool;             (* update.message is not None *)
  msg_user : option sender;       (* update.effective_user *)
  msg_text : option string        (* update.message.text *)
}.

(** A Python [Optional[str]] as the JSON value it is stored as. *)
Definition opt_json (o : option string) : json :=
  match o with
  | Some s => JStr s
  | None => JNull
  end.

(** The texts the message handlers build, by the place that builds them.  A
    handler is given [render : page -> string] for their wording: the lookup
    in [TEXTS] with its formatting, and the text builders. *)
Inductive page :=
| Localized (key lang : string)     (* t(uid, key, ...): TEXTS[key][lang], formatted *)
| Courses (lang : string)           (* courses_text *)
| Account (lang : string) (plan : option string) (username first_name : json) (uid : Z)
                                    (* account_text *)
| Started (u : sender)              (* cmd_start: notice to the operator *)
| OpenedBuy (u : sender).           (* on_text: notice to the operator *)

(** [TEXTS[key][lang]] for the four menu keys; [lang] is a supported
    language wherever the handlers look one up. *)
Definition menu_label (key lang : string) : string :=
  if String.eqb key "menu_courses" then
    (if String.eqb lang "tj" then "📚 Дарсҳо" else "📚 Курсы")
  else if String.eqb key "menu_buy" then
    (if String.eqb lang "tj" then "💳 Хариди дастрасӣ" else "💳 Купить доступ")
  else if String.eqb key "menu_account" then
    (if String.eqb lang "tj" then "📊 Ҳисоби ман" else "📊 Мой аккаунт")
  else
    (if String.eqb lang "tj" then "👨‍💻 Дастгирӣ" else "👨‍💻 Поддержка").

(** The texts of the language shortcut button. *)
Definition lang_shortcuts : list string :=
  ["🌐 Language / Забон"; "🌐 Language"; "🌐 Забон"; "🌐 Язык"].

(** [t(uid, key, ...)] *)
Definition t (render : page -> string) (uid : Z) (key : string) : Py string :=
  let* lang := get_lang uid in
  ret (render (Localized key lang)).

Definition courses_text (render : page -> string) (uid : Z) : Py string :=
  let* lang := get_lang uid in
  ret (render (Courses lang)).

(** [x or "—"] *)
Definition or_dash (v : json) : json := if truthy v then v else JStr "—".

Definition account_text (render : page -> string) (uid : Z) : Py string :=
  let* lang := get_lang uid in
  let* u := get_user uid in
  let* plan := get_approved_plan uid in
  ret (render (Account lang plan (or_dash (get u "username"))
                 (or_dash (get u "first_name")) uid)).

(** The profile fields [cmd_start] and [on_text] store. *)
Definition profile (u : sender) : dict :=
  <["first_name" := opt_json (first_name u)]>
    (<["last_name" := opt_json (last_name u)]>
       (<["username" := opt_json (username u)]> ∅)).

Definition cmd_start (render : page -> string) (cfg : config) (m : message)
  : Py unit :=
  match msg_present m, msg_user m with
  | true, Some user =>
      let uid := sender_id user in
      let* now := time_time in
      run upsert_user uid (<["started_ts" := JInt now]> (profile user)) then
      let* welcome := t render uid "welcome" in
      run emit (reply_text (Text welcome)) then
      let* choose := t render uid "choose_lang" in
      run emit (reply_text (Text choose)) then
      let* menu := main_menu uid in
      run emit (reply_text (MenuDash menu)) then
      notify_admin cfg (Text (render (Started user)))
  | _, _ => ret tt                    (* not update.message or not user *)
  end.

(** One reply with the main menu attached: the text is built, then the menu,
    then the message is sent. *)
Definition reply_with_menu (uid : Z) (text : Py string) : Py unit :=
  let* body := text in
  let* menu := main_menu uid in
  emit (reply_text (Text body)).

Definition on_text (render : page -> string) (cfg : config) (m : message)
  : Py unit :=
  match msg_present m, msg_user m with
  | true, Some user =>
      let uid := sender_id user in
      let text := PyStr.strip (default "" (msg_text m)) in
      let* now := time_time in
      run upsert_user uid
            (<["last_message" := JStr text]>
               (<["last_message_ts" := JInt now]> (profile user))) then
      if bool_decide (text ∈ lang_shortcuts) then
        let* body := t render uid "choose_lang" in
        emit (reply_text (Text body))
      else
        let* lang := get_lang uid in
        if String.eqb text (menu_label "menu_courses" lang) then
          reply_with_menu uid (courses_text render uid)
        else if String.eqb text (menu_label "menu_buy" lang) then
          run reply_with_menu uid (t render uid "buy_title") then
          let* body := t render uid "choose_plan_below" in
          run emit (reply_text (Text body)) then
          notify_admin cfg (Text (render (OpenedBuy user)))
        else if String.eqb text (menu_label "menu_account" lang) then
          reply_with_menu uid (account_text render uid)
        else if String.eqb text (menu_label "menu_support" lang) then
          reply_with_menu uid (t render uid "support")
        else
          let* has := user_has_access uid in
          if negb has then reply_with_menu uid (t render uid "no_access")
          else reply_with_menu uid (t render uid "access_active")
  | _, _ => ret tt
  end.

(** ** Broadcast *)

(** [text.split(" ", 1)[1]]: what follows the first space, when there is one. *)
Fixpoint after_space (s : string) : option string :=
  match s with
  | String c s' => if Ascii.eqb c " " then Some s' else after_space s'
  | EmptyString => None
  end.

(** One turn of the loop of [cmd_broadcast]: the [try] block, which counts
    as sent when it completes and as failed when anything in it raises. *)
Definition broadcast_one (msg uid_str : string) : Py bool :=
  try_except
    (match PyStr.int uid_str with
     | Some uid =>
         let* menu := main_menu uid in
         run bot_send uid (Text msg) then
         ret true
     | None => raise ValueError
     end)
    (fun _ => ret false).

Fixpoint broadcast_loop (msg : string) (keys : list string) (sent failed : Z)
  : Py (Z * Z) :=
  match keys with
  | [] => ret (sent, failed)
  | uid_str :: rest =>
      let* ok := broadcast_one msg uid_str in
      if ok then broadcast_loop msg rest (sent + 1) failed
      else broadcast_loop msg rest sent (failed + 1)
  end.

Definition msg_usage_broadcast : body := Text "Использование: /broadcast ТЕКСТ".

Definition broadcast_report (sent failed : Z) : body :=
  Text ("Рассылка завершена. Отправлено: " +:+ PyStr.str sent
          +:+ ", ошибок: " +:+ PyStr.str failed).

(** The keys of a mapping, in the order the map lists them. *)
Definition keys_of (users : dict) : list string := (map_to_list users).*1.

(** [key_order users] is [users.keys()]: the keys in the order of the file,
    which the map does not keep and the model leaves open. *)
Definition cmd_broadcast (key_order : dict -> list string) (cfg : config)
  (m : message) : Py unit :=
  if negb (msg_present m) then ret tt
  else if negb (match msg_user m with
                | Some admin => is_admin cfg (sender_id admin)
                | None => false
                end)
  then emit (reply_text msg_no_access)
  else
    match after_space (default "" (msg_text m)) with
    | None => emit (reply_text msg_usage_broadcast)        (* len(parts) < 2 *)
    | Some arg =>
        if String.eqb (PyStr.strip arg) "" then emit (reply_text msg_usage_broadcast)
        else
          let msg := PyStr.strip arg in
          let* users := _safe_read_json in
          let* counts := broadcast_loop msg (key_order users) 0 0 in
          emit (reply_text (broadcast_report counts.1 counts.2))
    end.

(** ** What the files hold: pure views used to state the properties *)

(** The world with more events in its trace and nothing else changed. *)
Definition logged (l : list event) (w : world) : world :=
  World (files w) (disk_ok w) (clock w) (blocked w) (trace w ++ l) (staged w).

(** The mapping a reader gets from the users file. *)
Definition stored_users (d : disk) : dict :=
  match users_file d with
  | Holds (Doc (JDict m)) => m
  | _ => ∅
  end.

(** What a read of the users file logs. *)
Definition read_log (d : disk) : list event :=
  match users_file d with
  | Unreadable | Holds Corrupt => [log_warning "Failed to read JSON"]
  | _ => []
  end.

(** The record of a user, and the value under its ["purchases"] key. *)
Definition stored_record (d : disk) (uid : Z) : dict :=
  as_dict (get_or_empty (stored_users d) (PyStr.str uid)).

Definition stored_purchases (d : disk) (uid : Z) : dict :=
  as_dict (get_or_empty (stored_record d uid) "purchases").

(** The entry of [(uid, plan)] is an object whose status is ["approved"]. *)
Definition approved_entry (d : disk) (uid : Z) (plan : string) : Prop :=
  exists p : dict,
    stored_purchases d uid !! plan = Some (JDict p)
    /\ p !! "status" = Some (JStr "approved").

(** The closed plan set and its precedence: VIP over PRO over BASIC. *)
Definition PLANS : list string := ["BASIC"; "PRO"; "VIP"].

Definition precedence (plan : string) : nat :=
  if String.eqb plan "VIP" then 3
  else if String.eqb plan "PRO" then 2
  else if String.eqb plan "BASIC" then 1
  else 0.

(** The transition graph of the specification. *)
Definition spec_edge (from to : string) : bool :=
  (String.eqb from "none" && String.eqb to "requested")
  || (String.eqb from "requested" && String.eqb to "approved")
  || (String.eqb from "requested" && String.eqb to "denied")
  || (String.eqb from "denied" && String.eqb to "requested")
  || (String.eqb from "approved" && String.eqb to "requested").

(** The disk after a completed write of [data]. *)
Definition written (data : dict) : disk :=
  Disk (Holds (Doc (JDict data))) Missing.

(** The disk after a write of [data] that raised after [n] steps. *)
Definition left_staged (n : nat) (data : dict) (d : disk) : disk :=
  fs_run (take n (staging_ops 1 data)) d.

(** ** Vocabulary of the properties *)

(** The mapping [upsert_user] writes. *)
Definition users_with (d : disk) (uid : Z) (cur : dict) : dict :=
  <[PyStr.str uid := JDict cur]> (stored_users d).

(** The record a completed [set_purchase_status] leaves for the user. *)
Definition record_with_status (d : disk) (uid : Z) (plan status : string) (now : Z)
  : dict :=
  <["purchases" :=
      JDict (<[plan := JDict (entry status now)]> (stored_purchases d uid))]>
    (stored_record d uid).

(** The status [get_purchase_status] reports, as a view of the files. *)
Definition status_view (py_repr : json -> string) (d : disk) (uid : Z) (plan : string)
  : string :=
  match get_or_empty (stored_purchases d uid) plan with
  | JDict p => py_str py_repr (default (JStr "none") (p !! "status"))
  | _ => "none"
  end.

(** [read_only m]: whatever [m] returns, it leaves the files, the clock and
    the rest of the environment as they were; it may only add to the trace. *)
Definition read_only {A} (m : Py A) : Prop :=
  forall w, exists l, after m w = logged l w.

(** The arguments name a user and a plan: a user id [int] reads, and a plan
    of the closed set, in any letter case. *)
Definition well_formed (a : list string) (uid : Z) (plan : string) : Prop :=
  exists uid_str plan_arg rest,
    a = uid_str :: plan_arg :: rest
    /\ PyStr.int uid_str = Some uid
    /\ plan = PyStr.upper plan_arg
    /\ plan ∈ PLANS.

(** The caller is the operator: the configured id, or anybody when none is
    configured. *)
Definition operator (cfg : config) (caller : Z) : Prop :=
  ADMIN_ID cfg = "" \/ PyStr.str caller = ADMIN_ID cfg.

(** The command is one the handlers act on. *)
Definition accepted (cfg : config) (upd : update) (uid : Z) (plan : string) : Prop :=
  has_message upd = true
  /\ (exists caller, effective_user upd = Some caller /\ operator cfg caller)
  /\ well_formed (args upd) uid plan.

(** The replies of a command that is turned down. *)
Definition refusals (usage : body) : list body :=
  [msg_no_access; usage; msg_bad_plan; msg_bad_uid].

(** The operation is one its handler acts on, for the pair [(uid, plan)]: a
    press of the paid button of [plan] by [uid], or an accepted command. *)
Definition commits (cfg : config) (op : operation) (uid : Z) (plan : string) : Prop :=
  match op with
  | Pressed cb =>
      has_query cb = true /\ cb_user cb = Some uid
      /\ exists v, cb_data cb = "paid:" +:+ v /\ plan = PyStr.upper v /\ plan ∈ PLANS
  | Approve upd | Deny upd => accepted cfg upd uid plan
  end.

(** The reading of C1 as the specification words it: an operation changes a
    status only along an edge of the specification's graph. *)
Definition follows_spec_edges (cfg : config) (py_repr : json -> string) : Prop :=
  forall op w uid plan s s',
    result (get_purchase_status py_repr uid plan) w = Ok s ->
    result (get_purchase_status py_repr uid plan) (after (handle cfg op) w) = Ok s' ->
    s' <> s ->
    spec_edge s s' = true.

(** Concrete inputs for the examples below: an operator with id 42, a fresh
    store, and the operator's commands for user 7. *)
Definition demo_cfg : config := Config "42" "" "" "".

Definition demo_repr : json -> string := fun _ => "".

Definition fresh_world : world := World (Disk Missing Missing) true 1000 [] [] 0.

Definition approve_vip : update := Update true (Some 42) ["7"; "vip"].

(** A store in which user 7 holds PRO approved and VIP denied. *)
Definition pro_purchases : dict :=
  <["PRO" := JDict (entry "approved" 5)]> (<["VIP" := JDict (entry "denied" 6)]> ∅).

Definition pro_world : world :=
  World (written (<["7" := JDict (<["purchases" := JDict pro_purchases]> ∅)]> ∅))
        true 1000 [] [] 0.

(** A record whose only approved entry sits under an unknown key, with bare
    strings under two known keys. *)
Definition odd_purchases : dict :=
  <["GOLD" := JDict (entry "approved" 5)]>
    (<["VIP" := JStr "approved"]> (<["PRO" := JList [JStr "approved"]]> ∅)).

Definition odd_world : world :=
  World (written (<["7" := JDict (<["purchases" := JDict odd_purchases]> ∅)]> ∅))
        true 1000 [] [] 0.

(** The states of the backing file that are no JSON object. *)
Inductive faulty : file -> Prop :=
| faulty_missing : faulty Missing
| faulty_unreadable : faulty Unreadable
| faulty_empty : faulty (Holds Blank)
| faulty_malformed : faulty (Holds Corrupt)
| faulty_non_object v : (forall m, v <> JDict m) -> faulty (Holds (Doc v)).

(** A store whose file holds a JSON list. *)
Definition list_world : world :=
  World (Disk (Holds (Doc (JList [JInt 1]))) Missing) true 1000 [] [] 0.




(** The reading of C6 as the specification words it: an input outside the
    supported set is stored as the default. *)
Definition unsupported_is_defaulted : Prop :=
  forall uid lang w,
    disk_ok w = true ->
    lang ∉ SUPPORTED_LANGS ->
    stored_record (files (after (set_lang uid lang) w)) uid !! "lang"
    = Some (JStr DEFAULT_LANG).

(** A store whose record for user 7 holds a number under ["lang"]. *)
Definition number_lang_world : world :=
  World (written (<["7" := JDict (<["lang" := JInt 5]> ∅)]> ∅)) true 1000 [] [] 0.

(** A store holding a record for user 7 with a language and a name. *)
Definition named_world : world :=
  World (written (<["7" := JDict (<["lang" := JStr "tj"]>
                                    (<["first_name" := JStr "Ali"]> ∅))]> ∅))
        true 1000 [] [] 0.

(** A world whose directory cannot be written: [open(tmp, "w")] raises. *)
Definition read_only_disk_world : world :=
  World (files named_world) false 1000 [] [] 1.

(** A fresh store in a directory that cannot be written. *)
Definition unwritable_world : world := World (Disk Missing Missing) false 1000 [] [] 1.

(** A world in which the write is staged in full and [os.replace] raises. *)
Definition replace_raises_world : world :=
  World (files named_world) false 1000 [] [] 4.

(** From [w] to [w'] one write failed: the users file is the one of [w], the
    staging file is what the completed steps of the write made of it, and
    the error is the last thing logged. *)
Definition write_failed (w w' : world) : Prop :=
  users_file (files w') = users_file (files w)
  /\ (exists data, files w' = left_staged (staged w) data (files w))
  /\ ((staged w <= 1)%nat -> files w' = files w)
  /\ last (trace w') = Some (log_error "Failed to write JSON").

(** A run of the buyer alone: two presses of the paid button for VIP. *)
Definition two_presses : list (Z * operation) :=
  [(1, Pressed (Callback true (Some 7) "paid:VIP"));
   (2, Pressed (Callback true (Some 7) "paid:vip"))].

(** The buyer of PRO presses the paid button for PRO again. *)
Definition press_pro : callback := Callback true (Some 7) "paid:pro".

(** The group link [groups_inline] offers for a plan; empty when none is
    configured. *)
Definition group_url (cfg : config) (plan : string) : string :=
  if String.eqb plan "BASIC" then GROUP_BASIC_URL cfg
  else if String.eqb plan "PRO" then GROUP_PRO_URL cfg
  else if String.eqb plan "VIP" then GROUP_VIP_URL cfg
  else "".

(** The notices of an accepted approve, once the language is known. *)
Definition approve_notices (cfg : config) (uid : Z) (plan lang : string) (w : world)
  : list event :=
  if bool_decide (uid ∈ blocked w)
  then [log_warning "Failed to message user"]
  else send_message uid (ApprovedNotice lang plan)
       :: (if String.eqb (group_url cfg plan) "" then []
           else [send_message uid (GroupLink lang plan)]).

(** The notices of an accepted deny, once the language is known. *)
Definition deny_notices (uid : Z) (lang : string) (w : world) : list event :=
  if bool_decide (uid ∈ blocked w)
  then [log_warning "Failed to message user"]
  else [send_message uid (DeniedNotice lang)].

(** The operator's deny of VIP for user 7. *)
Definition deny_vip : update := Update true (Some 42) ["7"; "VIP"].

(** The store of [pro_world], with user 7 out of the gateway's reach. *)
Definition unreachable_world : world :=
  World (files pro_world) true 1000 [7] [] 0.

(** The characters of a text as [int] parses them. *)
Definition int_codes (s : string) : list N := PyStr.to_ascii <$> PyStr.decode s.

(** A key the broadcast reaches: it reads as a user id, the language stored
    for that user can be read, and the chat can be reached. *)
Definition deliverable (w : world) (uid_str : string) : bool :=
  match PyStr.int uid_str with
  | Some uid =>
      match result (get_lang uid) w with
      | Ok _ => negb (bool_decide (uid ∈ blocked w))
      | Raise _ => false
      end
  | None => false
  end.

(** What one turn of the loop adds to the trace. *)
Definition broadcast_events (msg : string) (w : world) (uid_str : string)
  : list event :=
  match PyStr.int uid_str with
  | Some uid =>
      read_log (files w)
        ++ (if deliverable w uid_str then [send_message uid (Text msg)] else [])
  | None => []
  end.

(** The messages [bot.send_message] delivered, oldest first. *)
Definition delivered (l : list event) : list (Z * body) :=
  omap (fun e => match e with
                 | send_message chat_id b => Some (chat_id, b)
                 | _ => None
                 end) l.

(** The replies to the message at hand, oldest first. *)
Definition replies (l : list event) : list body :=
  omap (fun e => match e with
                 | reply_text b => Some b
                 | _ => None
                 end) l.

(** The keys a broadcast reaches, and those it does not. *)
Definition reached (w : world) (keys : list string) : list string :=
  filter (fun k => deliverable w k = true) keys.

Definition missed (w : world) (keys : list string) : list string :=
  filter (fun k => deliverable w k <> true) keys.

(** Whom a broadcast of [msg] over [keys] is delivered to. *)
Definition recipients (msg : string) (w : world) (keys : list string)
  : list (Z * body) :=
  omap (fun k => (fun uid => (uid, Text msg)) <$> PyStr.int k) (reached w keys).

(** A store of five keys: two that read as user 7, a user whose stored
    language is a number, a user whose chat cannot be reached, and a key that
    is no number. *)
Definition crowd : dict :=
  <["7" := JDict ∅]>
    (<["07" := JDict ∅]>
       (<["8" := JDict (<["lang" := JInt 5]> ∅)]>
          (<["9" := JDict ∅]> (<["bob" := JDict ∅]> ∅)))).

Definition crowd_world : world :=
  World (Disk (Holds (Doc (JDict crowd))) Missing) true 1000 [9] [] 0.

Definition the_operator : sender := Sender 42 None None None.

Definition a_stranger : sender := Sender 1 None (Some "x") None.

(** The command followed by a space, a no-break space (U+00A0) and a tab. *)
Definition blank_broadcast : string :=
  "/broadcast " +:+ PyStr.encode [0xA0%N; 9%N].

(** The keys of [TEXTS] that label the four menu buttons. *)
Definition menu_keys : list string :=
  ["menu_courses"; "menu_buy"; "menu_account"; "menu_support"].

(** The keys of a record that [cmd_start] and [on_text] write. *)
Definition profile_keys : list string :=
  ["first_name"; "last_name"; "username"; "last_message"; "last_message_ts";
   "started_ts"].

(** From [w] to [w'] nothing was written but profile keys of [who]: every
    other key of every record and every record of another user read the
    same, and so do the language, the ledger and the access of everybody. *)
Definition only_profile_written (who : option Z) (w w' : world) : Prop :=
  (forall uid k, k ∉ profile_keys ->
     stored_record (files w') uid !! k = stored_record (files w) uid !! k)
  /\ (forall uid, who <> Some uid ->
        stored_record (files w') uid = stored_record (files w) uid)
  /\ (forall uid,
        result (get_lang uid) w' = result (get_lang uid) w
        /\ result (user_has_access uid) w' = result (user_has_access uid) w
        /\ result (get_approved_plan uid) w' = result (get_approved_plan uid) w
        /\ forall py_repr plan,
             result (get_purchase_status py_repr uid plan) w'
             = result (get_purchase_status py_repr uid plan) w).

(** The reply to a text that is no button of the menu. *)
Definition gate_key (d : disk) (uid : Z) : string :=
  if bool_decide (is_Some (first_approved (stored_purchases d uid)
                             ["BASIC"; "PRO"; "VIP"]))
  then "access_active" else "no_access".

(** The buyer of PRO, whose language is Russian, sends the Tajik label of
    the courses button. *)
Definition the_buyer : sender := Sender 7 (Some "Ann") None None.

(** A wording that names the page. *)
Definition demo_render (p : page) : string :=
  match p with
  | Localized key lang => key +:+ "/" +:+ lang
  | Courses lang => "courses/" +:+ lang
  | Account lang _ _ _ _ => "account/" +:+ lang
  | Started _ => "started"
  | OpenedBuy _ => "opened"
  end.

(** A sender without a user name presses the Tajik account button. *)
Definition tajik_world : world :=
  World (written (<["7" := JDict (<["lang" := JStr "tj"]>
                                    (<["username" := JStr "old_name"]> ∅))]> ∅))
        true 1000 [] [] 0.

(** * Properties *)

(** ** Equations of the storage layer *)

Lemma logged_nil w : logged [] w = w.
Proof. destruct w; unfold logged; simpl. by rewrite app_nil_r. Qed.

Lemma logged_logged l1 l2 w : logged l2 (logged l1 w) = logged (l1 ++ l2) w.
Proof. unfold logged; simpl. by rewrite app_assoc. Qed.

Lemma bind_ok {A B} (m : Py A) (k : A -> Py B) w a w' :
  m w = (Ok a, w') -> bind m k w = k a w'.
Proof. unfold bind. by intros ->. Qed.

Lemma safe_read_eq w :
  _safe_read_json w = (Ok (stored_users (files w)), logged (read_log (files w)) w).
Proof.
  unfold _safe_read_json, try_except, read_json_body, stored_users, read_log.
  destruct (users_file (files w)) as [| |[| |[]]]; simpl;
    rewrite ?logged_nil; reflexivity.
Qed.

Lemma get_user_eq uid w :
  get_user uid w = (Ok (stored_record (files w) uid), logged (read_log (files w)) w).
Proof. unfold get_user. by rewrite (bind_ok _ _ _ _ _ (safe_read_eq w)). Qed.

Lemma fs_run_write chunks data d : fs_run (write_ops chunks data) d = written data.
Proof.
  unfold write_ops, fs_run. rewrite !fold_left_app. simpl.
  reflexivity.
Qed.

(** Only [os.replace] touches the users file. *)
Lemma fs_run_staging ops : forall d,
  op_replace ∉ ops -> users_file (fs_run ops d) = users_file d.
Proof.
  induction ops as [|op rest IH]; intros d Hno; [reflexivity|].
  apply not_elem_of_cons in Hno as [Hop Hrest].
  change (fs_run (op :: rest) d) with (fs_run rest (fs_step op d)).
  rewrite IH by exact Hrest. by destruct op.
Qed.

Lemma write_ops_staging chunks data :
  write_ops chunks data = staging_ops chunks data ++ [op_replace].
Proof. unfold write_ops, staging_ops. by rewrite <- !app_assoc. Qed.

Lemma staging_has_no_replace chunks data : op_replace ∉ staging_ops chunks data.
Proof.
  unfold staging_ops. rewrite !elem_of_app, !elem_of_cons, elem_of_nil.
  intros [[?|[?|[]]]|[Hin|[?|[]]]]; try discriminate.
  apply list_elem_of_In, repeat_spec in Hin. discriminate.
Qed.

(** A write that raises leaves the users file alone: every reader finds what
    it found before. *)
Lemma users_file_left_staged n data d :
  users_file (left_staged n data d) = users_file d.
Proof.
  unfold left_staged. apply fs_run_staging. intros Hin.
  apply (staging_has_no_replace 1 data).
  by apply (subseteq_take n (staging_ops 1 data)).
Qed.

Lemma stored_users_left_staged n data d :
  stored_users (left_staged n data d) = stored_users d.
Proof. unfold stored_users. by rewrite users_file_left_staged. Qed.

Lemma read_log_left_staged n data d : read_log (left_staged n data d) = read_log d.
Proof. unfold read_log. by rewrite users_file_left_staged. Qed.

Lemma stored_record_left_staged n data d uid :
  stored_record (left_staged n data d) uid = stored_record d uid.
Proof. unfold stored_record. by rewrite stored_users_left_staged. Qed.

Lemma stored_purchases_left_staged n data d uid :
  stored_purchases (left_staged n data d) uid = stored_purchases d uid.
Proof. unfold stored_purchases. by rewrite stored_record_left_staged. Qed.

Lemma safe_write_eq data w :
  _safe_write_json data w =
  (Ok tt, if disk_ok w then with_files (written data) w
          else with_files (left_staged (staged w) data (files w))
                 (logged [log_error "Failed to write JSON"] w)).
Proof.
  unfold _safe_write_json, try_except, write_json_body.
  rewrite fs_run_write. by destruct (disk_ok w).
Qed.

Lemma upsert_user_eq uid patch w :
  upsert_user uid patch w =
  (Ok (patch ∪ stored_record (files w) uid),
   if disk_ok w
   then with_files
          (written (users_with (files w) uid (patch ∪ stored_record (files w) uid)))
          (logged (read_log (files w)) w)
   else with_files
          (left_staged (staged w)
             (users_with (files w) uid (patch ∪ stored_record (files w) uid))
             (files w))
          (logged (read_log (files w) ++ [log_error "Failed to write JSON"]) w)).
Proof.
  unfold upsert_user, users_with.
  rewrite (bind_ok _ _ _ _ _ (safe_read_eq w)).
  unfold bind. rewrite safe_write_eq. simpl.
  destruct (disk_ok w); [reflexivity|]. unfold with_files, logged. simpl.
  by rewrite <- app_assoc.
Qed.

Lemma insert_union_empty (k : string) (v : json) (m : dict) :
  <[k := v]> ∅ ∪ m = <[k := v]> m.
Proof. by rewrite <- insert_union_l, (left_id_L ∅ (∪)). Qed.

Lemma set_purchase_status_eq uid plan status w :
  result (set_purchase_status uid plan status) w = Ok tt
  /\ files (after (set_purchase_status uid plan status) w)
     = if disk_ok w
       then written (users_with (files w) uid
                       (record_with_status (files w) uid plan status (clock w)))
       else left_staged (staged w)
              (users_with (files w) uid
                 (record_with_status (files w) uid plan status (clock w)))
              (files w).
Proof.
  unfold result, after, set_purchase_status.
  rewrite (bind_ok _ _ _ _ _ (get_user_eq uid w)).
  unfold bind at 1. unfold time_time. simpl.
  unfold bind. rewrite !upsert_user_eq. simpl.
  rewrite insert_union_empty.
  by destruct (disk_ok w).
Qed.

(** ** What a completed write leaves in the views *)

Lemma stored_users_written data : stored_users (written data) = data.
Proof. reflexivity. Qed.

Lemma str_inj (a b : Z) : PyStr.str a = PyStr.str b -> a = b.
Proof. unfold PyStr.str. apply pretty_Z_inj. Qed.

Lemma stored_record_written_same d uid cur :
  stored_record (written (users_with d uid cur)) uid = cur.
Proof.
  unfold stored_record, users_with, get_or_empty.
  rewrite stored_users_written, lookup_insert_eq. reflexivity.
Qed.

Lemma stored_record_written_other d uid cur uid' :
  uid' <> uid ->
  stored_record (written (users_with d uid cur)) uid' = stored_record d uid'.
Proof.
  intros Hne. unfold stored_record, users_with, get_or_empty.
  rewrite stored_users_written, lookup_insert_ne; [reflexivity|].
  intros Heq. apply Hne. symmetry. by apply str_inj.
Qed.

Lemma stored_purchases_status d uid plan status now :
  stored_purchases
    (written (users_with d uid (record_with_status d uid plan status now))) uid
  = <[plan := JDict (entry status now)]> (stored_purchases d uid).
Proof.
  unfold stored_purchases at 1. rewrite stored_record_written_same.
  unfold record_with_status, get_or_empty. by rewrite lookup_insert_eq.
Qed.

Lemma stored_purchases_other d uid cur uid' :
  uid' <> uid ->
  stored_purchases (written (users_with d uid cur)) uid' = stored_purchases d uid'.
Proof.
  intros Hne. unfold stored_purchases. by rewrite stored_record_written_other.
Qed.

(** A patch without a ["purchases"] key leaves every user's purchases. *)
Lemma stored_purchases_patch d uid (patch : dict) uid' :
  patch !! "purchases" = None ->
  stored_purchases (written (users_with d uid (patch ∪ stored_record d uid))) uid'
  = stored_purchases d uid'.
Proof.
  intros Hp. destruct (decide (uid' = uid)) as [->|Hne].
  - unfold stored_purchases at 1. rewrite stored_record_written_same.
    unfold stored_purchases, get_or_empty. by rewrite lookup_union_r.
  - by apply stored_purchases_other.
Qed.

(** ** Equations of the readers *)

Lemma is_approved_spec (purchases : dict) plan :
  is_approved purchases plan = true <->
  exists p : dict, purchases !! plan = Some (JDict p)
                   /\ p !! "status" = Some (JStr "approved").
Proof.
  unfold is_approved, get. split.
  - destruct (purchases !! plan) as [[| | | | | |p]|] eqn:E; simpl; try discriminate.
    destruct (p !! "status") as [[| | | |s| |]|] eqn:Es; simpl; try discriminate.
    intros Hs. apply String.eqb_eq in Hs as ->. eauto.
  - intros (p & -> & Hs). simpl. rewrite Hs. reflexivity.
Qed.

Lemma first_approved_None purchases plans :
  first_approved purchases plans = None <->
  forall plan, plan ∈ plans -> is_approved purchases plan = false.
Proof.
  induction plans as [|q rest IH]; simpl.
  - split; [|reflexivity]. intros _ plan Hin. by apply elem_of_nil in Hin.
  - destruct (is_approved purchases q) eqn:Eq.
    + split; [discriminate|]. intros H. specialize (H q (list_elem_of_here _ _)).
      congruence.
    + rewrite IH. split.
      * intros H plan Hin. apply elem_of_cons in Hin as [->|Hin]; auto.
      * intros H plan Hin. apply H. by apply list_elem_of_further.
Qed.

Lemma first_approved_Some purchases plans plan :
  first_approved purchases plans = Some plan ->
  plan ∈ plans /\ is_approved purchases plan = true.
Proof.
  induction plans as [|q rest IH]; simpl; [discriminate|].
  destruct (is_approved purchases q) eqn:Eq.
  - intros [= <-]. split; [apply list_elem_of_here | exact Eq].
  - intros H. destruct (IH H) as [Hin Ha]. split; [by apply list_elem_of_further | exact Ha].
Qed.

Lemma user_has_access_eq uid w :
  user_has_access uid w =
  (Ok (bool_decide
         (is_Some (first_approved (stored_purchases (files w) uid)
                     ["BASIC"; "PRO"; "VIP"]))),
   logged (read_log (files w)) w).
Proof.
  unfold user_has_access. rewrite (bind_ok _ _ _ _ _ (get_user_eq uid w)).
  unfold stored_purchases.
  destruct (get_or_empty (stored_record (files w) uid) "purchases")
    as [| | | | | |p]; try reflexivity.
  unfold as_dict.
  destruct (first_approved p ["BASIC"; "PRO"; "VIP"]); reflexivity.
Qed.

Lemma get_approved_plan_eq uid w :
  get_approved_plan uid w =
  (Ok (first_approved (stored_purchases (files w) uid) ["VIP"; "PRO"; "BASIC"]),
   logged (read_log (files w)) w).
Proof.
  unfold get_approved_plan. rewrite (bind_ok _ _ _ _ _ (get_user_eq uid w)).
  unfold stored_purchases.
  destruct (get_or_empty (stored_record (files w) uid) "purchases")
    as [| | | | | |p]; reflexivity.
Qed.

Lemma get_purchase_status_eq py_repr uid plan w :
  get_purchase_status py_repr uid plan w =
  (Ok (status_view py_repr (files w) uid plan), logged (read_log (files w)) w).
Proof.
  unfold get_purchase_status. rewrite (bind_ok _ _ _ _ _ (get_user_eq uid w)).
  unfold status_view, stored_purchases.
  destruct (get_or_empty (stored_record (files w) uid) "purchases")
    as [| | | | | |p]; try reflexivity.
  unfold as_dict.
  destruct (get_or_empty p plan) as [| | | | | |e]; reflexivity.
Qed.

(** ** Computations that only read and report *)

Lemma after_bind {A B} (m : Py A) (k : A -> Py B) w :
  after (bind m k) w =
  match result m w with
  | Ok a => after (k a) (after m w)
  | Raise _ => after m w
  end.
Proof. unfold after, result, bind. by destruct (m w) as [[a|e] w']. Qed.

Lemma read_only_ret {A} (a : A) : read_only (ret a).
Proof. intros w. exists []. by rewrite logged_nil. Qed.

Lemma read_only_raise {A} e : read_only (@raise A e).
Proof. intros w. exists []. by rewrite logged_nil. Qed.

Lemma read_only_emit e : read_only (emit e).
Proof. intros w. by exists [e]. Qed.

Lemma read_only_time : read_only time_time.
Proof. intros w. exists []. by rewrite logged_nil. Qed.

Lemma read_only_bot_send chat_id b : read_only (bot_send chat_id b).
Proof.
  intros w. unfold after, bot_send. destruct (bool_decide _).
  - exists []. by rewrite logged_nil.
  - by exists [send_message chat_id b].
Qed.

Lemma read_only_bind {A B} (m : Py A) (k : A -> Py B) :
  read_only m -> (forall a, read_only (k a)) -> read_only (bind m k).
Proof.
  intros Hm Hk w. rewrite after_bind. destruct (Hm w) as [l Hl].
  destruct (result m w) as [a|e].
  - destruct (Hk a (after m w)) as [l' Hl']. exists (l ++ l').
    by rewrite Hl', Hl, logged_logged.
  - by exists l.
Qed.

Lemma read_only_try {A} (m : Py A) (h : exn -> Py A) :
  read_only m -> (forall e, read_only (h e)) -> read_only (try_except m h).
Proof.
  intros Hm Hh w. destruct (Hm w) as [l Hl]. unfold after, try_except in *.
  destruct (m w) as [[a|e] w']; simpl in *.
  - by exists l.
  - destruct (Hh e w') as [l' Hl']. exists (l ++ l').
    unfold after in Hl'. by rewrite Hl', Hl, logged_logged.
Qed.

Lemma read_only_safe_read : read_only _safe_read_json.
Proof. intros w. unfold after. rewrite safe_read_eq. by eexists. Qed.

Lemma read_only_get_user uid : read_only (get_user uid).
Proof. intros w. unfold after. rewrite get_user_eq. by eexists. Qed.

Lemma read_only_strip_lower v : read_only (or_empty_strip_lower v).
Proof.
  unfold or_empty_strip_lower.
  destruct (if truthy v then v else JStr ""); auto using read_only_ret, read_only_raise.
Qed.

Lemma read_only_get_lang uid : read_only (get_lang uid).
Proof.
  unfold get_lang. apply read_only_bind; [apply read_only_get_user|].
  intros u. apply read_only_bind; [apply read_only_strip_lower|].
  intros lang. apply read_only_ret.
Qed.

Lemma read_only_groups_inline cfg uid plan : read_only (groups_inline cfg uid plan).
Proof.
  unfold groups_inline. apply read_only_bind; [apply read_only_get_lang|].
  intros lang. apply read_only_ret.
Qed.

Lemma read_only_notify_admin cfg b : read_only (notify_admin cfg b).
Proof.
  unfold notify_admin. destruct (String.eqb _ _); [apply read_only_ret|].
  apply read_only_try; [|intros; apply read_only_emit].
  destruct (PyStr.int _); [apply read_only_bot_send | apply read_only_raise].
Qed.

Create HintDb readers.
#[local] Hint Resolve read_only_ret read_only_raise read_only_emit read_only_time
  read_only_bot_send read_only_safe_read read_only_get_user read_only_strip_lower
  read_only_get_lang read_only_groups_inline read_only_notify_admin : readers.

(** Closes [read_only m] for a computation built from the readers above. *)
Ltac readers :=
  repeat first
    [ progress (eauto with readers)
    | apply read_only_bind; [|intros ?]
    | apply read_only_try; [|intros ?]
    | match goal with
      | |- read_only (match ?x with _ => _ end) => destruct x
      | |- read_only (main_menu _) => unfold main_menu
      end ].

(** [m] followed by readers: the final world is the one [m] leaves, with
    more in its trace. *)
Lemma after_bind_readers {A B} (m : Py A) (k : A -> Py B) w :
  (forall a, read_only (k a)) ->
  exists l, after (bind m k) w = logged l (after m w).
Proof.
  intros Hk. rewrite after_bind. destruct (result m w) as [a|e].
  - apply Hk.
  - exists []. by rewrite logged_nil.
Qed.

(** ** What the handlers do to the world *)

Lemma is_admin_spec cfg caller : is_admin cfg caller = true <-> operator cfg caller.
Proof.
  unfold is_admin, operator. destruct (String.eqb (ADMIN_ID cfg) "") eqn:E.
  - apply String.eqb_eq in E. tauto.
  - apply String.eqb_neq in E. rewrite String.eqb_eq. tauto.
Qed.

Lemma in_PRICES_spec plan : in_PRICES plan = true <-> plan ∈ PLANS.
Proof. unfold in_PRICES. rewrite bool_decide_eq_true. reflexivity. Qed.

(** A refusal: one reply, and no user and plan the command is accepted for. *)
Ltac refuse b :=
  left; exists [reply_text b]; split; [reflexivity|]; split;
  [ right; split; [reflexivity|]; exists b; split; [set_solver|reflexivity]
  | intros ? ? (_ & (? & ? & ?%is_admin_spec) & (? & ? & ? & ? & ? & ? & ?%in_PRICES_spec));
    simplify_eq; congruence ].

Lemma cmd_approve_cases cfg upd w :
  (exists l, after (cmd_approve cfg upd) w = logged l w
             /\ (has_message upd = false /\ l = []
                 \/ has_message upd = true
                    /\ exists b, b ∈ refusals msg_usage_approve /\ l = [reply_text b])
             /\ forall uid plan, ~ accepted cfg upd uid plan)
  \/ (exists uid plan l,
        accepted cfg upd uid plan
        /\ after (cmd_approve cfg upd) w
           = logged l (after (set_purchase_status uid plan "approved") w)).
Proof.
  unfold cmd_approve, caller_is_admin, accepted, well_formed, refusals.
  destruct upd as [msg user a]; cbn [has_message effective_user args].
  destruct msg; cbn [negb].
  2: { left. exists []. rewrite logged_nil. split; [reflexivity|].
       split; [by left|]. by intros ? ? (? & _). }
  destruct user as [caller|]; [destruct (is_admin cfg caller) eqn:Hadm|];
    cbn [negb]; [|refuse msg_no_access..].
  destruct a as [|us [|ps rest]]; [refuse msg_usage_approve..|].
  destruct (in_PRICES (PyStr.upper ps)) eqn:Hplan; cbn [negb];
    [|refuse msg_bad_plan].
  destruct (PyStr.int us) as [uid|] eqn:Hint; [|refuse msg_bad_uid].
  right.
  match goal with
  | |- context [after (bind ?m ?k) w] =>
      destruct (after_bind_readers m k w) as [l Hl]; [intros; readers|]
  end.
  exists uid, (PyStr.upper ps), l. split; [|exact Hl].
  split; [reflexivity|]. split.
  - exists caller. split; [reflexivity|]. by apply is_admin_spec.
  - exists us, ps, rest. repeat split; try done. by apply in_PRICES_spec.
Qed.

Lemma cmd_deny_cases cfg upd w :
  (exists l, after (cmd_deny cfg upd) w = logged l w
             /\ (has_message upd = false /\ l = []
                 \/ has_message upd = true
                    /\ exists b, b ∈ refusals msg_usage_deny /\ l = [reply_text b])
             /\ forall uid plan, ~ accepted cfg upd uid plan)
  \/ (exists uid plan l,
        accepted cfg upd uid plan
        /\ after (cmd_deny cfg upd) w
           = logged l (after (set_purchase_status uid plan "denied") w)).
Proof.
  unfold cmd_deny, caller_is_admin, accepted, well_formed, refusals.
  destruct upd as [msg user a]; cbn [has_message effective_user args].
  destruct msg; cbn [negb].
  2: { left. exists []. rewrite logged_nil. split; [reflexivity|].
       split; [by left|]. by intros ? ? (? & _). }
  destruct user as [caller|]; [destruct (is_admin cfg caller) eqn:Hadm|];
    cbn [negb]; [|refuse msg_no_access..].
  destruct a as [|us [|ps rest]]; [refuse msg_usage_deny..|].
  destruct (in_PRICES (PyStr.upper ps)) eqn:Hplan; cbn [negb];
    [|refuse msg_bad_plan].
  destruct (PyStr.int us) as [uid|] eqn:Hint; [|refuse msg_bad_uid].
  right.
  match goal with
  | |- context [after (bind ?m ?k) w] =>
      destruct (after_bind_readers m k w) as [l Hl]; [intros; readers|]
  end.
  exists uid, (PyStr.upper ps), l. split; [|exact Hl].
  split; [reflexivity|]. split.
  - exists caller. split; [reflexivity|]. by apply is_admin_spec.
  - exists us, ps, rest. repeat split; try done. by apply in_PRICES_spec.
Qed.

Lemma set_lang_eq uid lang w :
  set_lang uid lang w =
  (Ok tt,
   after (upsert_user uid
            (<["lang" := JStr (coerce_lang (PyStr.lower (PyStr.strip lang)))]>
               (<["lang_ts" := JInt (clock w)]> ∅))) w).
Proof.
  unfold set_lang, or_empty_strip_lower, after. cbn [truthy].
  destruct (String.eqb lang "") eqn:E; cbn [negb].
  - apply String.eqb_eq in E as ->.
    unfold bind, ret, time_time. by destruct (upsert_user _ _ w) as [[?|?] ?] eqn:Eu;
      rewrite upsert_user_eq in Eu; simplify_eq.
  - unfold bind, ret, time_time. by destruct (upsert_user _ _ w) as [[?|?] ?] eqn:Eu;
      rewrite upsert_user_eq in Eu; simplify_eq.
Qed.

Lemma after_ret_bind {A B} (a : A) (k : A -> Py B) w :
  after (bind (ret a) k) w = after (k a) w.
Proof. reflexivity. Qed.

Lemma after_time_bind {B} (k : Z -> Py B) w :
  after (bind time_time k) w = after (k (clock w)) w.
Proof. reflexivity. Qed.

Lemma after_set_lang uid lang w :
  after (set_lang uid lang) w =
  after (upsert_user uid
           (<["lang" := JStr (coerce_lang (PyStr.lower (PyStr.strip lang)))]>
              (<["lang_ts" := JInt (clock w)]> ∅))) w.
Proof. unfold after at 1. by rewrite set_lang_eq. Qed.

Lemma on_callback_cases cfg cb w :
  (exists l, after (on_callback cfg cb) w = logged l w)
  \/ (exists uid patch l,
        patch !! "purchases" = None
        /\ after (on_callback cfg cb) w = logged l (after (upsert_user uid patch) w))
  \/ (exists uid plan l,
        cb_user cb = Some uid /\ plan ∈ PLANS
        /\ after (on_callback cfg cb) w
           = logged l (after (set_purchase_status uid plan "requested") w)).
Proof.
  unfold on_callback.
  destruct cb as [q user data]; cbn [has_query cb_user cb_data].
  destruct q; cbn [negb]; [|left; exists []; by rewrite logged_nil].
  destruct user as [uid|]; [|left; exists []; by rewrite logged_nil].
  unfold split_value.
  destruct (PyStr.after_colon data) as [v|];
    [|left; exists []; rewrite logged_nil;
      by repeat destruct (PyStr.startswith _ data)].
  destruct (PyStr.startswith "lang:" data).
  { right; left. rewrite after_ret_bind.
    match goal with
    | |- context [after (bind ?m ?k) w] =>
        destruct (after_bind_readers m k w) as [l Hl]; [intros; readers|]
    end.
    rewrite after_set_lang in Hl. eexists uid, _, l. split; [|exact Hl].
    reflexivity. }
  destruct (PyStr.startswith "plan:" data).
  { rewrite after_ret_bind.
    destruct (in_PRICES (PyStr.upper v)); cbn [negb];
      [|left; by exists [edit_message_text (Text "Ошибка тарифа.")]].
    right; left. rewrite after_time_bind.
    match goal with
    | |- context [after (bind ?m ?k) w] =>
        destruct (after_bind_readers m k w) as [l Hl]; [intros; readers|]
    end.
    eexists uid, _, l. split; [|exact Hl]. reflexivity. }
  destruct (PyStr.startswith "paid:" data);
    [|left; exists []; by rewrite logged_nil].
  rewrite after_ret_bind.
  destruct (in_PRICES (PyStr.upper v)) eqn:Hplan; cbn [negb];
    [|left; by exists [edit_message_text (Text "Ошибка тарифа.")]].
  right; right.
  match goal with
  | |- context [after (bind ?m ?k) w] =>
      destruct (after_bind_readers m k w) as [l Hl]; [intros; readers|]
  end.
  exists uid, (PyStr.upper v), l. split; [reflexivity|].
  split; [by apply in_PRICES_spec | exact Hl].
Qed.

(** ** The files after an operation *)

Lemma files_after_upsert uid patch w :
  files (after (upsert_user uid patch) w)
  = if disk_ok w
    then written (users_with (files w) uid (patch ∪ stored_record (files w) uid))
    else left_staged (staged w)
           (users_with (files w) uid (patch ∪ stored_record (files w) uid))
           (files w).
Proof. unfold after. rewrite upsert_user_eq. by destruct (disk_ok w). Qed.

Lemma files_after_status uid plan status w :
  files (after (set_purchase_status uid plan status) w)
  = if disk_ok w
    then written (users_with (files w) uid
                    (record_with_status (files w) uid plan status (clock w)))
    else left_staged (staged w)
           (users_with (files w) uid
              (record_with_status (files w) uid plan status (clock w)))
           (files w).
Proof. apply set_purchase_status_eq. Qed.

(** What the readers find depends on the users file alone. *)
Lemma stored_record_users_file d d' uid :
  users_file d' = users_file d -> stored_record d' uid = stored_record d uid.
Proof. unfold stored_record, stored_users. by intros ->. Qed.

Lemma stored_purchases_users_file d d' uid :
  users_file d' = users_file d -> stored_purchases d' uid = stored_purchases d uid.
Proof. unfold stored_purchases. intros H. by rewrite (stored_record_users_file d d'). Qed.

(** An operation leaves the users file alone, patches a record outside its
    purchases, or writes one ledger entry with the status it forces. *)
Lemma handle_files cfg op w :
  users_file (files (after (handle cfg op) w)) = users_file (files w)
  \/ (exists uid patch,
        patch !! "purchases" = None
        /\ files (after (handle cfg op) w)
           = written (users_with (files w) uid (patch ∪ stored_record (files w) uid)))
  \/ (exists uid plan,
        files (after (handle cfg op) w)
        = written (users_with (files w) uid
                     (record_with_status (files w) uid plan (forced_status op) (clock w)))).
Proof.
  destruct op as [cb|upd|upd]; cbn [handle forced_status].
  - destruct (on_callback_cases cfg cb w)
      as [[l ->]|[(uid & patch & l & Hp & ->)|(uid & plan & l & _ & _ & ->)]];
      cbn [logged files]; [by left|..].
    + rewrite files_after_upsert.
      destruct (disk_ok w); [|left; apply users_file_left_staged].
      right; left. by exists uid, patch.
    + rewrite files_after_status.
      destruct (disk_ok w); [|left; apply users_file_left_staged].
      right; right. by exists uid, plan.
  - destruct (cmd_approve_cases cfg upd w)
      as [(l & -> & _)|(uid & plan & l & _ & ->)]; cbn [logged files]; [by left|].
    rewrite files_after_status.
    destruct (disk_ok w); [|left; apply users_file_left_staged].
    right; right. by exists uid, plan.
  - destruct (cmd_deny_cases cfg upd w)
      as [(l & -> & _)|(uid & plan & l & _ & ->)]; cbn [logged files]; [by left|].
    rewrite files_after_status.
    destruct (disk_ok w); [|left; apply users_file_left_staged].
    right; right. by exists uid, plan.
Qed.

(** ** The ledger entry of a pair, before and after *)

Lemma entry_status_lookup status now : entry status now !! "status" = Some (JStr status).
Proof. unfold entry. by rewrite lookup_insert_eq. Qed.

Lemma status_view_entry py_repr d d' uid plan :
  stored_purchases d' uid !! plan = stored_purchases d uid !! plan ->
  status_view py_repr d' uid plan = status_view py_repr d uid plan.
Proof. unfold status_view, get_or_empty. by intros ->. Qed.

Lemma status_view_forced py_repr d uid plan status now :
  stored_purchases d uid !! plan = Some (JDict (entry status now)) ->
  status_view py_repr d uid plan = status.
Proof.
  unfold status_view, get_or_empty. intros ->. cbn [from_option id].
  by rewrite entry_status_lookup.
Qed.

(** One operation: the entry of every pair stays, or becomes the entry the
    operation forces, stamped with the clock. *)
Lemma entry_step cfg op w uid plan :
  stored_purchases (files (after (handle cfg op) w)) uid !! plan
  = stored_purchases (files w) uid !! plan
  \/ stored_purchases (files (after (handle cfg op) w)) uid !! plan
     = Some (JDict (entry (forced_status op) (clock w))).
Proof.
  destruct (handle_files cfg op w) as [Hsame|[(u & patch & Hp & ->)|(u & p & ->)]].
  - left. by rewrite (stored_purchases_users_file _ _ uid Hsame).
  - left. by rewrite stored_purchases_patch.
  - destruct (decide (uid = u)) as [->|Hne].
    + rewrite stored_purchases_status.
      destruct (decide (plan = p)) as [->|Hp].
      * right. by rewrite lookup_insert_eq.
      * left. by rewrite lookup_insert_ne.
    + left. by rewrite stored_purchases_other.
Qed.

Lemma entry_run cfg ops : forall w uid plan,
  stored_purchases (files (handle_all cfg ops w)) uid !! plan
  = stored_purchases (files w) uid !! plan
  \/ exists now op,
       (now, op) ∈ ops
       /\ stored_purchases (files (handle_all cfg ops w)) uid !! plan
          = Some (JDict (entry (forced_status op) now)).
Proof.
  induction ops as [|[now op] rest IH]; intros w uid plan; cbn [handle_all].
  - by left.
  - destruct (IH (after (handle cfg op) (at_time now w)) uid plan)
      as [Hsame|(now' & op' & Hin & Hforced)].
    + rewrite Hsame.
      destruct (entry_step cfg op (at_time now w) uid plan) as [Hstep|Hstep].
      * left. exact Hstep.
      * right. exists now, op. split; [apply list_elem_of_here | exact Hstep].
    + right. exists now', op'. split; [by apply list_elem_of_further | exact Hforced].
Qed.

Lemma result_get_purchase_status py_repr uid plan w :
  result (get_purchase_status py_repr uid plan) w
  = Ok (status_view py_repr (files w) uid plan).
Proof. unfold result. by rewrite get_purchase_status_eq. Qed.

(** ** Approved entries *)

Lemma approved_entry_iff d uid plan :
  approved_entry d uid plan <-> is_approved (stored_purchases d uid) plan = true.
Proof. unfold approved_entry. by rewrite is_approved_spec. Qed.

Lemma is_approved_insert (purchases : dict) plan status now :
  is_approved (<[plan := JDict (entry status now)]> purchases) plan
  = String.eqb status "approved".
Proof.
  unfold is_approved, get. rewrite lookup_insert_eq. cbn [from_option id].
  by rewrite entry_status_lookup.
Qed.

Lemma is_approved_insert_ne (purchases : dict) plan v other :
  other <> plan ->
  is_approved (<[plan := v]> purchases) other = is_approved purchases other.
Proof. intros Hne. unfold is_approved, get. by rewrite lookup_insert_ne. Qed.

Lemma elem_of_PLANS plan :
  plan ∈ PLANS <-> plan = "BASIC" \/ plan = "PRO" \/ plan = "VIP".
Proof. unfold PLANS. rewrite !elem_of_cons, elem_of_nil. tauto. Qed.

(** The loop of [get_approved_plan] returns a plan no approved plan outranks. *)
Lemma first_by_precedence purchases best :
  first_approved purchases ["VIP"; "PRO"; "BASIC"] = Some best ->
  best ∈ PLANS /\ is_approved purchases best = true
  /\ forall other, other ∈ PLANS -> is_approved purchases other = true ->
                   (precedence other <= precedence best)%nat.
Proof.
  cbn [first_approved].
  destruct (is_approved purchases "VIP") eqn:Hv;
    [|destruct (is_approved purchases "PRO") eqn:Hp;
      [|destruct (is_approved purchases "BASIC") eqn:Hb]];
    intros [= <-]; (split; [apply elem_of_PLANS; tauto|]); (split; [done|]);
    intros other Hin%elem_of_PLANS Ho; destruct Hin as [-> | [-> | ->]];
    cbn; try lia; congruence.
Qed.

Lemma first_approved_is_Some purchases plans :
  is_Some (first_approved purchases plans) <->
  exists plan, plan ∈ plans /\ is_approved purchases plan = true.
Proof.
  split.
  - intros [plan H]. exists plan. by apply first_approved_Some.
  - intros (plan & Hin & Ha).
    destruct (first_approved purchases plans) eqn:E; [by eexists|].
    rewrite first_approved_None in E. specialize (E plan Hin). congruence.
Qed.

Lemma accepted_inj cfg upd uid plan uid' plan' :
  accepted cfg upd uid plan -> accepted cfg upd uid' plan' ->
  uid' = uid /\ plan' = plan.
Proof.
  intros (_ & _ & (a & b & r & Ha & Hi & Hp & _))
         (_ & _ & (a' & b' & r' & Ha' & Hi' & Hp' & _)).
  rewrite Ha in Ha'. simplify_eq. done.
Qed.

Lemma files_after_approve cfg upd w uid plan :
  accepted cfg upd uid plan -> disk_ok w = true ->
  files (after (cmd_approve cfg upd) w)
  = written (users_with (files w) uid
               (record_with_status (files w) uid plan "approved" (clock w))).
Proof.
  intros Hacc Hok.
  destruct (cmd_approve_cases cfg upd w)
    as [(l & _ & _ & Hno)|(uid' & plan' & l & Hacc' & ->)].
  - by destruct (Hno uid plan).
  - destruct (accepted_inj _ _ _ _ _ _ Hacc Hacc') as [-> ->].
    cbn [logged files]. by rewrite files_after_status, Hok.
Qed.

Lemma files_after_deny cfg upd w uid plan :
  accepted cfg upd uid plan -> disk_ok w = true ->
  files (after (cmd_deny cfg upd) w)
  = written (users_with (files w) uid
               (record_with_status (files w) uid plan "denied" (clock w))).
Proof.
  intros Hacc Hok.
  destruct (cmd_deny_cases cfg upd w)
    as [(l & _ & _ & Hno)|(uid' & plan' & l & Hacc' & ->)].
  - by destruct (Hno uid plan).
  - destruct (accepted_inj _ _ _ _ _ _ Hacc Hacc') as [-> ->].
    cbn [logged files]. by rewrite files_after_status, Hok.
Qed.

Lemma result_get_approved_plan uid w :
  result (get_approved_plan uid) w
  = Ok (first_approved (stored_purchases (files w) uid) ["VIP"; "PRO"; "BASIC"]).
Proof. unfold result. by rewrite get_approved_plan_eq. Qed.

Lemma result_user_has_access uid w :
  result (user_has_access uid) w
  = Ok (bool_decide (is_Some (first_approved (stored_purchases (files w) uid)
                                ["BASIC"; "PRO"; "VIP"]))).
Proof. unfold result. by rewrite user_has_access_eq. Qed.

(** C2: after an accepted approve of [plan] for [uid] (the write going
    through) [get_approved_plan uid] returns an approved plan [best] that no
    approved plan outranks: it is [plan] itself or a plan that was approved
    before and ranks at least as high, the ranks being BASIC < PRO < VIP.
    After an accepted deny of [plan], [user_has_access uid] is true exactly
    when another plan of the closed set has an approved entry, and those
    other entries are the ones from before the command. *)
Theorem approve_then_plan_and_deny_then_access cfg upd w uid plan :
  accepted cfg upd uid plan ->
  disk_ok w = true ->
  (exists best,
     result (get_approved_plan uid) (after (cmd_approve cfg upd) w) = Ok (Some best)
     /\ (precedence plan <= precedence best)%nat
     /\ (best = plan \/ approved_entry (files w) uid best)
     /\ forall other, other ∈ PLANS -> approved_entry (files w) uid other ->
                      (precedence other <= precedence best)%nat)
  /\ (exists b,
        result (user_has_access uid) (after (cmd_deny cfg upd) w) = Ok b
        /\ (b = true <->
            exists other, other ∈ PLANS /\ other <> plan
                          /\ approved_entry (files (after (cmd_deny cfg upd) w)) uid other)
        /\ forall other, other <> plan ->
             (approved_entry (files (after (cmd_deny cfg upd) w)) uid other
              <-> approved_entry (files w) uid other))
  /\ (precedence "BASIC" < precedence "PRO" < precedence "VIP")%nat.
Proof.
  intros Hacc Hok.
  assert (plan ∈ PLANS) as Hplan.
  { destruct Hacc as (_ & _ & (? & ? & ? & _ & _ & _ & H)). exact H. }
  split; [|split; [|cbn; lia]].
  - rewrite result_get_approved_plan, (files_after_approve _ _ _ _ _ Hacc Hok).
    rewrite stored_purchases_status.
    set (new := <[plan := JDict (entry "approved" (clock w))]> _).
    assert (is_approved new plan = true) as Hnew by apply is_approved_insert.
    destruct (first_approved new ["VIP"; "PRO"; "BASIC"]) as [best|] eqn:E.
    2: { rewrite first_approved_None in E.
         rewrite E in Hnew; [discriminate|].
         apply elem_of_PLANS in Hplan. rewrite !elem_of_cons. tauto. }
    apply first_by_precedence in E as (Hin & Hbest & Hmax).
    exists best. split; [reflexivity|]. split; [by apply Hmax|]. split.
    + destruct (decide (best = plan)) as [|Hne]; [by left|right].
      apply approved_entry_iff. subst new.
      by rewrite is_approved_insert_ne in Hbest.
    + intros other Hother Ha. apply approved_entry_iff in Ha.
      destruct (decide (other = plan)) as [->|Hne]; [by apply Hmax|].
      apply Hmax; [done|]. subst new. by rewrite is_approved_insert_ne.
  - rewrite result_user_has_access, (files_after_deny _ _ _ _ _ Hacc Hok).
    eexists. split; [reflexivity|].
    rewrite stored_purchases_status.
    set (new := <[plan := JDict (entry "denied" (clock w))]> _).
    assert (is_approved new plan = false) as Hnew by apply is_approved_insert.
    split.
    + rewrite bool_decide_eq_true, first_approved_is_Some. split.
      * intros (other & Hin & Ha). exists other. split; [exact Hin|].
        split; [congruence|]. apply approved_entry_iff.
        by rewrite stored_purchases_status.
      * intros (other & Hin & Hne & Ha). exists other. split; [exact Hin|].
        apply approved_entry_iff in Ha. by rewrite stored_purchases_status in Ha.
    + intros other Hne. rewrite !approved_entry_iff, stored_purchases_status.
      by rewrite is_approved_insert_ne.
Qed.

Lemma approve_vip_accepted : accepted demo_cfg approve_vip 7 "VIP".
Proof.
  split; [reflexivity|]. split.
  - exists 42. split; [reflexivity|]. right. reflexivity.
  - exists "7", "vip", []. repeat split. apply elem_of_PLANS. tauto.
Defined.

(** C3: in every state of the store [user_has_access uid] returns a boolean,
    true exactly when some plan of the closed set has an entry with status
    approved in the user's record, and exactly when [get_approved_plan uid]
    returns a plan. *)
Theorem has_access_iff_approved uid w :
  exists b,
    result (user_has_access uid) w = Ok b
    /\ (b = true <-> exists plan, plan ∈ PLANS /\ approved_entry (files w) uid plan)
    /\ (b = true <-> exists plan, result (get_approved_plan uid) w = Ok (Some plan)).
Proof.
  rewrite result_user_has_access, result_get_approved_plan.
  eexists. split; [reflexivity|].
  rewrite bool_decide_eq_true, first_approved_is_Some. split.
  - split; intros (plan & Hin & Ha); exists plan; (split; [exact Hin|]);
      by apply approved_entry_iff.
  - split.
    + intros (plan & Hin & Ha).
      destruct (first_approved _ ["VIP"; "PRO"; "BASIC"]) as [best|] eqn:E;
        [by exists best|].
      rewrite first_approved_None in E. rewrite E in Ha; [discriminate|].
      apply elem_of_PLANS in Hin. rewrite !elem_of_cons. tauto.
    + intros (plan & [= E]). apply first_by_precedence in E as (Hin & Ha & _).
      by exists plan.
Qed.

(** C10: if no plan of the closed set has an object-valued entry with status
    approved, then [user_has_access] is false and [get_approved_plan] returns
    no plan, whatever the record holds under other keys and whatever
    non-object values it holds under BASIC, PRO and VIP. *)
Theorem only_known_object_entries_count uid w :
  (forall plan p, plan ∈ PLANS ->
                  stored_purchases (files w) uid !! plan = Some (JDict p) ->
                  p !! "status" <> Some (JStr "approved")) ->
  result (user_has_access uid) w = Ok false
  /\ result (get_approved_plan uid) w = Ok None.
Proof.
  intros Hno.
  assert (forall plan, plan ∈ PLANS ->
                       is_approved (stored_purchases (files w) uid) plan = false) as Hfalse.
  { intros plan Hin. apply not_true_is_false. intros Ha.
    apply is_approved_spec in Ha as (p & Hp & Hs). by apply (Hno plan p). }
  rewrite result_user_has_access, result_get_approved_plan. split; f_equal.
  - apply bool_decide_eq_false. rewrite first_approved_is_Some.
    intros (plan & Hin & Ha). rewrite Hfalse in Ha; done.
  - apply first_approved_None. intros plan Hin. apply Hfalse.
    apply elem_of_PLANS. rewrite !elem_of_cons, elem_of_nil in Hin. tauto.
Qed.

(** C8: [get_purchase_status] always returns a string (it never raises), and
    the string is ["none"] whenever the user's record is absent or not an
    object, its purchases field is absent or not a mapping, or the entry of
    the plan is absent or not an object. *)
Theorem get_status_none_when_absent_or_malformed py_repr uid plan w :
  exists s,
    result (get_purchase_status py_repr uid plan) w = Ok s
    /\ ((forall r, stored_users (files w) !! PyStr.str uid <> Some (JDict r)) ->
        s = "none")
    /\ ((forall p, stored_record (files w) uid !! "purchases" <> Some (JDict p)) ->
        s = "none")
    /\ ((forall e, stored_purchases (files w) uid !! plan <> Some (JDict e)) ->
        s = "none").
Proof.
  rewrite result_get_purchase_status. eexists. split; [reflexivity|].
  assert ((forall e, stored_purchases (files w) uid !! plan <> Some (JDict e)) ->
          status_view py_repr (files w) uid plan = "none") as Hentry.
  { intros He. unfold status_view, get_or_empty.
    destruct (stored_purchases (files w) uid !! plan) as [[| | | | | |e]|] eqn:E;
      try reflexivity.
    by destruct (He e). }
  assert ((forall p, stored_record (files w) uid !! "purchases" <> Some (JDict p)) ->
          status_view py_repr (files w) uid plan = "none") as Hpurchases.
  { intros Hp. apply Hentry. intros e. unfold stored_purchases, get_or_empty.
    destruct (stored_record (files w) uid !! "purchases") as [[| | | | | |p]|] eqn:E;
      cbn; rewrite ?lookup_empty; try discriminate.
    by destruct (Hp p). }
  split; [|split; [exact Hpurchases | exact Hentry]].
  intros Hr. apply Hpurchases. intros p. unfold stored_record, get_or_empty.
  destruct (stored_users (files w) !! PyStr.str uid) as [[| | | | | |r]|] eqn:E;
    cbn; rewrite ?lookup_empty; try discriminate.
  by destruct (Hr r).
Qed.

(** C9: [get_user] never fails - it returns the stored record, or the empty
    record when what is stored under the id is no object - and it leaves both
    files as they are; for a user with no stored record it returns the empty
    record. *)
Theorem get_user_reads_without_writing uid w :
  result (get_user uid) w = Ok (stored_record (files w) uid)
  /\ files (after (get_user uid) w) = files w
  /\ (stored_users (files w) !! PyStr.str uid = None ->
      result (get_user uid) w = Ok ∅).
Proof.
  unfold result, after. rewrite get_user_eq. cbn [fst snd logged files].
  split; [reflexivity|]. split; [reflexivity|].
  intros Hnone. unfold stored_record, get_or_empty. by rewrite Hnone.
Qed.

(** C7: [_safe_read_json] never raises and changes nothing but the trace, to
    which it adds at most warnings; on a missing, unreadable, empty or
    malformed file, and on JSON that is no object, it returns the empty
    mapping. *)
Theorem safe_read_tolerates_faults w :
  (exists m, result _safe_read_json w = Ok m)
  /\ (exists l, after _safe_read_json w = logged l w
                /\ forall e, e ∈ l -> e = log_warning "Failed to read JSON")
  /\ (faulty (users_file (files w)) -> result _safe_read_json w = Ok ∅).
Proof.
  unfold result, after. rewrite safe_read_eq. cbn [fst snd].
  split; [by eexists|]. split.
  - exists (read_log (files w)). split; [reflexivity|].
    unfold read_log. intros e.
    destruct (users_file (files w)) as [| |[| |v]];
      rewrite ?list_elem_of_singleton, ?elem_of_nil; tauto.
  - intros Hf. unfold stored_users. inversion Hf as [| | | |v Hv Heq]; try reflexivity.
    destruct v; try reflexivity. by destruct (Hv d).
Qed.

(** ** Atomic replace *)

Lemma crash_keeps_users_file chunks data d n :
  users_file (fs_run (take n (write_ops chunks data)) d)
  = if decide (n < length (write_ops chunks data))%nat
    then users_file d
    else Holds (Doc (JDict data)).
Proof.
  case_decide as Hn.
  - rewrite write_ops_staging in *. rewrite length_app in Hn.
    change (length [op_replace]) with 1%nat in Hn.
    rewrite take_app_le by lia. apply fs_run_staging.
    intros Hin. apply (staging_has_no_replace chunks data).
    by apply (subseteq_take n (staging_ops chunks data)).
  - rewrite take_ge by lia. by rewrite fs_run_write.
Qed.

(** C4: [_safe_write_json] runs the steps of [write_ops] in order; when one
    of them raises it stops there, before the replace, and the users file
    is what it was.  Stopped after any number [n] of those steps - by a
    crash, or looked at by a reader between two steps - the users file is
    the old file while a step is still to come and the complete new document
    after the last one (the replace); so a read at any such point returns
    what it returned before the write, or the new mapping. *)
Theorem write_is_staged_then_swapped chunks data w n :
  let crashed := with_files (fs_run (take n (write_ops chunks data)) (files w)) w in
  users_file (files crashed)
  = (if decide (n < length (write_ops chunks data))%nat
     then users_file (files w)
     else Holds (Doc (JDict data)))
  /\ (result _safe_read_json crashed = result _safe_read_json w
      \/ result _safe_read_json crashed = Ok data)
  /\ files (after (_safe_write_json data) w)
     = fs_run (if disk_ok w then write_ops 1 data
               else take (staged w) (staging_ops 1 data)) (files w)
  /\ users_file (files (after (_safe_write_json data) w))
     = if disk_ok w then Holds (Doc (JDict data)) else users_file (files w).
Proof.
  intros crashed.
  assert (users_file (files crashed)
          = if decide (n < length (write_ops chunks data))%nat
            then users_file (files w)
            else Holds (Doc (JDict data))) as Hfile
    by apply crash_keeps_users_file.
  split; [exact Hfile|]. split.
  - unfold result. rewrite !safe_read_eq. cbn [fst]. unfold stored_users.
    rewrite Hfile. case_decide; [by left | by right].
  - unfold after. rewrite safe_write_eq.
    destruct (disk_ok w); cbn [snd with_files logged files]; split;
      [by rewrite fs_run_write | reflexivity | reflexivity
      | apply users_file_left_staged].
Qed.

(** ** Operator commands *)







(** ** Locale *)

Lemma elem_of_SUPPORTED lang : lang ∈ SUPPORTED_LANGS <-> lang = "ru" \/ lang = "tj".
Proof. unfold SUPPORTED_LANGS. rewrite !elem_of_cons, elem_of_nil. tauto. Qed.

Lemma coerce_lang_supported lang : coerce_lang lang ∈ SUPPORTED_LANGS.
Proof.
  unfold coerce_lang. case_bool_decide as H; [exact H|].
  apply elem_of_SUPPORTED. by left.
Qed.

Lemma coerce_lang_default lang : lang ∉ SUPPORTED_LANGS -> coerce_lang lang = DEFAULT_LANG.
Proof. intros H. unfold coerce_lang. by rewrite bool_decide_eq_false_2. Qed.

Lemma coerce_lang_keeps lang : lang ∈ SUPPORTED_LANGS -> coerce_lang lang = lang.
Proof. intros H. unfold coerce_lang. by rewrite bool_decide_eq_true_2. Qed.

(** A supported locale is non-empty and already trimmed and lower-case. *)
Lemma supported_is_normal lang :
  lang ∈ SUPPORTED_LANGS ->
  truthy (JStr lang) = true /\ PyStr.lower (PyStr.strip lang) = lang.
Proof. intros [-> | ->]%elem_of_SUPPORTED; by split. Qed.

Lemma result_get_lang uid w :
  result (get_lang uid) w =
  match (let v := get (stored_record (files w) uid) "lang" in
         if truthy v then v else JStr "") with
  | JStr s => Ok (coerce_lang (PyStr.lower (PyStr.strip s)))
  | _ => Raise AttributeError
  end.
Proof.
  unfold result, get_lang. rewrite (bind_ok _ _ _ _ _ (get_user_eq uid w)).
  unfold or_empty_strip_lower, bind, ret, raise. cbn zeta.
  by destruct (if truthy _ then _ else _).
Qed.

Lemma files_after_set_lang uid lang w :
  disk_ok w = true ->
  files (after (set_lang uid lang) w)
  = written (users_with (files w) uid
      (<["lang" := JStr (coerce_lang (PyStr.lower (PyStr.strip lang)))]>
         (<["lang_ts" := JInt (clock w)]> ∅) ∪ stored_record (files w) uid)).
Proof. intros Hok. by rewrite after_set_lang, files_after_upsert, Hok. Qed.

(** C6, amended: [set_lang] never rejects; it trims and lower-cases its
    input and stores the result when that is a supported locale, the default
    otherwise, always under an explicit ["lang"] key (the write going
    through), and [get_lang] then returns what was stored.  [get_lang]
    returns the default when the stored locale is absent or any empty value,
    and for a stored string the trimmed, lower-cased string when that is
    supported, the default otherwise: a member of the supported set in each
    of these cases. *)
Theorem locale_is_normalised_then_validated uid lang w :
  let norm := PyStr.lower (PyStr.strip lang) in
  let w' := after (set_lang uid lang) w in
  result (set_lang uid lang) w = Ok tt
  /\ DEFAULT_LANG ∈ SUPPORTED_LANGS
  /\ coerce_lang norm ∈ SUPPORTED_LANGS
  /\ (norm ∈ SUPPORTED_LANGS -> coerce_lang norm = norm)
  /\ (norm ∉ SUPPORTED_LANGS -> coerce_lang norm = DEFAULT_LANG)
  /\ (disk_ok w = true ->
      stored_record (files w') uid !! "lang" = Some (JStr (coerce_lang norm))
      /\ result (get_lang uid) w' = Ok (coerce_lang norm))
  /\ (truthy (get (stored_record (files w) uid) "lang") = false ->
      result (get_lang uid) w = Ok DEFAULT_LANG)
  /\ (forall s, stored_record (files w) uid !! "lang" = Some (JStr s) ->
                result (get_lang uid) w = Ok (coerce_lang (PyStr.lower (PyStr.strip s)))).
Proof.
  intros norm w'.
  split; [unfold result; by rewrite set_lang_eq|].
  split; [apply elem_of_SUPPORTED; by left|].
  split; [apply coerce_lang_supported|].
  split; [apply coerce_lang_keeps|].
  split; [apply coerce_lang_default|].
  split; [|split].
  - intros Hok.
    assert (stored_record (files w') uid !! "lang" = Some (JStr (coerce_lang norm)))
      as Hstored.
    { subst w'. rewrite (files_after_set_lang _ _ _ Hok), stored_record_written_same.
      apply lookup_union_Some_l. by rewrite lookup_insert_eq. }
    split; [exact Hstored|].
    rewrite result_get_lang. unfold get. rewrite Hstored. cbn [from_option id].
    destruct (supported_is_normal _ (coerce_lang_supported norm)) as [-> ->].
    by rewrite coerce_lang_keeps by apply coerce_lang_supported.
  - intros Hfalsy. rewrite result_get_lang. cbn zeta. by rewrite Hfalsy.
  - intros s Hs. rewrite result_get_lang. unfold get. rewrite Hs. cbn [from_option id].
    cbn [truthy]. destruct (String.eqb s "") eqn:E; cbn [negb]; [|reflexivity].
    by apply String.eqb_eq in E as ->.
Qed.

(** [get_lang] raises on a stored locale that is a non-empty value other
    than a string: [strip] is looked up on it. *)
Lemma get_lang_raises_on_number :
  result (get_lang 7) number_lang_world = Raise AttributeError.
Proof. reflexivity. Qed.

(** ** The ledger under a run of operations *)

Lemma split_value_paid v : split_value ("paid:" +:+ v) = ret v.
Proof. reflexivity. Qed.

Lemma startswith_paid v : PyStr.startswith "paid:" ("paid:" +:+ v) = true.
Proof. unfold PyStr.startswith. cbn. by destruct v. Qed.

Lemma after_paid_press cfg uid v w :
  in_PRICES (PyStr.upper v) = true ->
  exists l,
    after (on_callback cfg (Callback true (Some uid) ("paid:" +:+ v))) w
    = logged l (after (set_purchase_status uid (PyStr.upper v) "requested") w).
Proof.
  intros Hplan. unfold on_callback. cbn [has_query cb_user cb_data negb].
  change (PyStr.startswith "lang:" ("paid:" +:+ v)) with false.
  change (PyStr.startswith "plan:" ("paid:" +:+ v)) with false.
  rewrite startswith_paid.
  rewrite !split_value_paid. cbn iota. rewrite after_ret_bind, Hplan. cbn [negb].
  match goal with
  | |- context [after (bind ?m ?k) w] =>
      destruct (after_bind_readers m k w) as [l Hl]; [intros; readers|]
  end.
  by exists l.
Qed.

Lemma commits_files cfg op uid plan w :
  commits cfg op uid plan -> disk_ok w = true ->
  files (after (handle cfg op) w)
  = written (users_with (files w) uid
               (record_with_status (files w) uid plan (forced_status op) (clock w))).
Proof.
  intros Hc Hok. destruct op as [cb|upd|upd]; cbn [handle forced_status commits] in *.
  - destruct cb as [q user data]. cbn [has_query cb_user cb_data] in Hc.
    destruct Hc as (-> & -> & v & -> & -> & Hin).
    apply in_PRICES_spec in Hin.
    destruct (after_paid_press cfg uid v w Hin) as [l ->].
    cbn [logged files]. by rewrite files_after_status, Hok.
  - by apply files_after_approve.
  - by apply files_after_deny.
Qed.

(** C1, amended: under every sequence of operations the stored status of a
    pair [(uid, plan)] is read without failure before and after, and it is
    either the one the run started from, with the entry untouched, or the
    status forced by one of the operations of the run (requested by a press
    of the paid button, approved by approve, denied by deny), the entry then
    carrying the time that operation arrived at.  And an operation its
    handler acts on does force its status, whatever the status was before
    (the write going through): none to approved and none to denied included. *)
Theorem ledger_status_is_forced cfg py_repr ops w uid plan :
  (exists s s',
     result (get_purchase_status py_repr uid plan) w = Ok s
     /\ result (get_purchase_status py_repr uid plan) (handle_all cfg ops w) = Ok s'
     /\ ((s' = s
          /\ stored_purchases (files (handle_all cfg ops w)) uid !! plan
             = stored_purchases (files w) uid !! plan)
         \/ exists now op,
              (now, op) ∈ ops
              /\ s' = forced_status op
              /\ stored_purchases (files (handle_all cfg ops w)) uid !! plan
                 = Some (JDict (entry (forced_status op) now))))
  /\ (forall now op,
        commits cfg op uid plan -> disk_ok w = true ->
        result (get_purchase_status py_repr uid plan) (handle_all cfg [(now, op)] w)
        = Ok (forced_status op)
        /\ stored_purchases (files (handle_all cfg [(now, op)] w)) uid !! plan
           = Some (JDict (entry (forced_status op) now))).
Proof.
  split.
  - rewrite !result_get_purchase_status. do 2 eexists.
    split; [reflexivity|]. split; [reflexivity|].
    destruct (entry_run cfg ops w uid plan) as [Hsame|(now & op & Hin & Hforced)].
    + left. split; [by apply status_view_entry | exact Hsame].
    + right. exists now, op. split; [exact Hin|].
      split; [by eapply status_view_forced | exact Hforced].
  - intros now op Hc Hok. cbn [handle_all].
    assert (stored_purchases (files (after (handle cfg op) (at_time now w))) uid !! plan
            = Some (JDict (entry (forced_status op) now))) as Hentry.
    { rewrite (commits_files cfg op uid plan (at_time now w) Hc Hok).
      rewrite stored_purchases_status. apply lookup_insert_eq. }
    split; [|exact Hentry].
    rewrite result_get_purchase_status. f_equal. by eapply status_view_forced.
Qed.

(** ** Scenarios of the specification, run on the model *)

(** Re-request after denial: user 7 requests BASIC, the operator denies,
    the user presses paid again.  The status ends as requested, and the
    user has no access at any point. *)
Example re_request_after_denial :
  let paid := Pressed (Callback true (Some 7) "paid:BASIC") in
  let deny := Deny (Update true (Some 42) ["7"; "BASIC"]) in
  let w1 := handle_all demo_cfg [(1, paid)] fresh_world in
  let w2 := handle_all demo_cfg [(2, deny)] w1 in
  let w3 := handle_all demo_cfg [(3, paid)] w2 in
  map (result (get_purchase_status demo_repr 7 "BASIC")) [fresh_world; w1; w2; w3]
  = [Ok "none"; Ok "requested"; Ok "denied"; Ok "requested"]
  /\ map (result (user_has_access 7)) [fresh_world; w1; w2; w3]
     = [Ok false; Ok false; Ok false; Ok false].
Proof. split; reflexivity. Qed.

(** Multi-plan precedence: with PRO approved and VIP denied the approved plan
    is PRO; once VIP is approved as well it is VIP. *)
Example multi_plan_precedence :
  result (get_approved_plan 7) pro_world = Ok (Some "PRO")
  /\ result (get_approved_plan 7) (after (cmd_approve demo_cfg approve_vip) pro_world)
     = Ok (Some "VIP").
Proof. split; reflexivity. Qed.

(** A write that fails is logged and leaves the store as it was. *)
Example failed_write_is_logged :
  let w := World (Disk Missing Missing) false 1000 [] [] 1 in
  files (after (set_lang 7 "tj") w) = files w
  /\ trace (after (set_lang 7 "tj") w) = [log_error "Failed to write JSON"].
Proof. split; reflexivity. Qed.

(** * Further properties of the code *)

(** ** The record store under [upsert_user] *)

Lemma result_get_user uid w : result (get_user uid) w = Ok (stored_record (files w) uid).
Proof. unfold result. by rewrite get_user_eq. Qed.

Lemma result_upsert_user uid patch w :
  result (upsert_user uid patch) w = Ok (patch ∪ stored_record (files w) uid).
Proof. unfold result. by rewrite upsert_user_eq. Qed.

(** [upsert_user] is a shallow merge that is read back: when the write goes
    through, [get_user] returns the record [upsert_user] returned, every key
    of the patch holds the patch's value, every other key of the record is
    kept, and the record of every other user is what it was. *)
Theorem upsert_user_merges uid patch w :
  disk_ok w = true ->
  result (upsert_user uid patch) w = Ok (patch ∪ stored_record (files w) uid)
  /\ result (get_user uid) (after (upsert_user uid patch) w)
     = result (upsert_user uid patch) w
  /\ (forall k v, patch !! k = Some v ->
        stored_record (files (after (upsert_user uid patch) w)) uid !! k = Some v)
  /\ (forall k, patch !! k = None ->
        stored_record (files (after (upsert_user uid patch) w)) uid !! k
        = stored_record (files w) uid !! k)
  /\ (forall uid', uid' <> uid ->
        stored_record (files (after (upsert_user uid patch) w)) uid'
        = stored_record (files w) uid').
Proof.
  intros Hok. rewrite result_get_user, result_upsert_user, files_after_upsert, Hok.
  rewrite stored_record_written_same.
  split; [reflexivity|]. split; [reflexivity|]. split; [|split].
  - intros k v Hk. by apply lookup_union_Some_l.
  - intros k Hk. by apply lookup_union_r.
  - intros uid' Hne. by apply stored_record_written_other.
Qed.

(** A write after a read that found no JSON object replaces the file: on a
    missing, unreadable, empty or malformed users file, and on JSON that is
    no object, [upsert_user] leaves a file that holds the one record it
    wrote, the patch alone.  The same happens to a record that is no object:
    it is replaced by the patch. *)
Theorem upsert_user_replaces_what_it_cannot_read uid (patch : dict) w :
  disk_ok w = true ->
  (faulty (users_file (files w)) ->
   files (after (upsert_user uid patch) w)
   = written (<[PyStr.str uid := JDict patch]> ∅))
  /\ ((forall r, stored_users (files w) !! PyStr.str uid <> Some (JDict r)) ->
      stored_record (files (after (upsert_user uid patch) w)) uid = patch).
Proof.
  intros Hok. rewrite files_after_upsert, Hok. split.
  - intros Hf. unfold users_with, stored_record, get_or_empty, stored_users.
    inversion Hf as [| | | |v Hv Heq]; rewrite ?lookup_empty; cbn;
      rewrite ?(right_id_L ∅ (∪)); try reflexivity.
    destruct v; rewrite ?lookup_empty; cbn; rewrite ?(right_id_L ∅ (∪));
      try reflexivity.
    by destruct (Hv d).
  - intros Hr. rewrite stored_record_written_same.
    unfold stored_record, get_or_empty.
    destruct (stored_users (files w) !! PyStr.str uid) as [[| | | | | |r]|] eqn:E;
      cbn; rewrite ?(right_id_L ∅ (∪)); try reflexivity.
    by destruct (Hr r).
Qed.

(** A failed write is silent for the caller, whichever step of it raises:
    [upsert_user] still returns the merged record, [set_purchase_status] and
    [set_lang] still return normally, the users file is what it was, so that
    every reader finds what it found before, and the last thing in the trace
    is the logged error.  The staging file is left as the completed steps
    made it: it too is what it was when [os.makedirs] or [open] raised. *)
Theorem failed_write_is_silent uid patch plan status lang w :
  disk_ok w = false ->
  (result (upsert_user uid patch) w = Ok (patch ∪ stored_record (files w) uid)
   /\ write_failed w (after (upsert_user uid patch) w))
  /\ (result (set_purchase_status uid plan status) w = Ok tt
      /\ write_failed w (after (set_purchase_status uid plan status) w))
  /\ (result (set_lang uid lang) w = Ok tt
      /\ write_failed w (after (set_lang uid lang) w)).
Proof.
  intros Hok.
  assert (forall u p, write_failed w (after (upsert_user u p) w)) as Hup.
  { intros u p. unfold write_failed, after. rewrite upsert_user_eq, Hok.
    cbn [snd with_files logged files trace].
    split; [apply users_file_left_staged|]. split; [by eexists|].
    split; [|by rewrite app_assoc, last_snoc].
    intros Hs. unfold left_staged.
    destruct (staged w) as [|[|n]]; [reflexivity | reflexivity | lia]. }
  split; [|split].
  - split; [apply result_upsert_user | apply Hup].
  - split; [apply set_purchase_status_eq|].
    unfold after, set_purchase_status.
    rewrite (bind_ok _ _ _ _ _ (get_user_eq uid w)).
    unfold bind at 1. unfold time_time. cbn [fst snd].
    unfold bind. rewrite upsert_user_eq. cbn [logged disk_ok files clock staged].
    rewrite Hok. unfold write_failed. cbn [snd with_files logged files trace ret].
    split; [apply users_file_left_staged|]. split; [by eexists|].
    split; [|by rewrite !app_assoc, last_snoc].
    intros Hs. unfold left_staged.
    destruct (staged w) as [|[|n]]; [reflexivity | reflexivity | lia].
  - unfold result. rewrite after_set_lang, set_lang_eq. split; [reflexivity | apply Hup].
Qed.

(** ** The ledger under [set_purchase_status] *)

(** [set_purchase_status] is read back by [get_purchase_status], for any
    plan string and any status string, when the write goes through; the
    entries of the user's other plans, the other keys of the user's record
    and the records of all other users stay as they were. *)
Theorem set_status_then_get_status py_repr uid plan status w :
  disk_ok w = true ->
  result (get_purchase_status py_repr uid plan)
    (after (set_purchase_status uid plan status) w) = Ok status
  /\ (forall other, other <> plan ->
        stored_purchases (files (after (set_purchase_status uid plan status) w)) uid
          !! other
        = stored_purchases (files w) uid !! other)
  /\ (forall k, k <> "purchases" ->
        stored_record (files (after (set_purchase_status uid plan status) w)) uid !! k
        = stored_record (files w) uid !! k)
  /\ (forall uid', uid' <> uid ->
        stored_record (files (after (set_purchase_status uid plan status) w)) uid'
        = stored_record (files w) uid').
Proof.
  intros Hok. rewrite result_get_purchase_status, files_after_status, Hok.
  split; [|split; [|split]].
  - f_equal. eapply status_view_forced.
    rewrite stored_purchases_status. apply lookup_insert_eq.
  - intros other Hne. rewrite stored_purchases_status. by apply lookup_insert_ne.
  - intros k Hk. rewrite stored_record_written_same. unfold record_with_status.
    by apply lookup_insert_ne.
  - intros uid' Hne. by apply stored_record_written_other.
Qed.

(** ** The language under [get_lang] *)

(** [get_lang] reads only, and has two outcomes: it raises [AttributeError],
    exactly when the value stored under ["lang"] is non-empty and no string,
    or it returns a member of the supported set. *)
Theorem get_lang_supported_or_attribute_error uid w :
  files (after (get_lang uid) w) = files w
  /\ ((result (get_lang uid) w = Raise AttributeError
       /\ truthy (get (stored_record (files w) uid) "lang") = true
       /\ forall s, get (stored_record (files w) uid) "lang" <> JStr s)
      \/ (exists lang,
            result (get_lang uid) w = Ok lang
            /\ lang ∈ SUPPORTED_LANGS
            /\ (truthy (get (stored_record (files w) uid) "lang") = false
                \/ exists s, get (stored_record (files w) uid) "lang" = JStr s))).
Proof.
  split.
  - destruct (read_only_get_lang uid w) as [l ->]. reflexivity.
  - rewrite result_get_lang. cbn zeta.
    destruct (truthy (get (stored_record (files w) uid) "lang")) eqn:Ht.
    + destruct (get (stored_record (files w) uid) "lang") as [| | | |s| |] eqn:Ev;
        try (left; split; [reflexivity|]; split; [reflexivity|]; discriminate).
      right. eexists. split; [reflexivity|]. split; [apply coerce_lang_supported|].
      right. by exists s.
    + right. eexists. split; [reflexivity|]. split; [apply coerce_lang_supported|].
      by left.
Qed.

(** ** Access along a run *)

Lemma Ok_inj {A} (a b : A) : Ok a = Ok b -> a = b.
Proof. by intros [= ->]. Qed.

Lemma is_approved_lookup (p q : dict) plan :
  p !! plan = q !! plan -> is_approved p plan = is_approved q plan.
Proof. unfold is_approved, get. by intros ->. Qed.

Lemma is_approved_entry (p : dict) plan status now :
  p !! plan = Some (JDict (entry status now)) ->
  is_approved p plan = String.eqb status "approved".
Proof.
  intros H. unfold is_approved, get. rewrite H. cbn [from_option id].
  by rewrite entry_status_lookup.
Qed.

(** Access is granted by approve alone: along a run that holds no approve,
    whatever else the buyer presses and the operator denies, every approved
    entry at the end was approved at the start, and a user who had no access
    has none. *)
Theorem access_needs_approve cfg ops w uid :
  (forall now op, (now, op) ∈ ops -> forced_status op <> "approved") ->
  (forall plan, approved_entry (files (handle_all cfg ops w)) uid plan ->
                approved_entry (files w) uid plan)
  /\ (result (user_has_access uid) w = Ok false ->
      result (user_has_access uid) (handle_all cfg ops w) = Ok false).
Proof.
  intros Hno.
  assert (forall plan, approved_entry (files (handle_all cfg ops w)) uid plan ->
                       approved_entry (files w) uid plan) as Hkeep.
  { intros plan. rewrite !approved_entry_iff.
    destruct (entry_run cfg ops w uid plan) as [Hsame|(now & op & Hin & Hforced)].
    - by rewrite (is_approved_lookup _ _ _ Hsame).
    - rewrite (is_approved_entry _ _ _ _ Hforced). intros He.
      apply String.eqb_eq in He. by destruct (Hno now op Hin). }
  split; [exact Hkeep|].
  rewrite !result_user_has_access. intros Hbefore%Ok_inj. f_equal.
  apply bool_decide_eq_false in Hbefore. apply bool_decide_eq_false.
  rewrite first_approved_is_Some in *.
  intros (plan & Hin & Ha). apply Hbefore. exists plan. split; [exact Hin|].
  apply approved_entry_iff, Hkeep, approved_entry_iff, Ha.
Qed.

(** A press of the paid button takes access to that plan away: after a press
    its handler acts on (the write going through) the entry of the plan is
    requested, not approved, whatever it was, and the user has access exactly
    when another plan of the closed set is approved. *)
Theorem paid_press_revokes cfg cb w uid plan :
  commits cfg (Pressed cb) uid plan ->
  disk_ok w = true ->
  ~ approved_entry (files (after (on_callback cfg cb) w)) uid plan
  /\ exists b,
       result (user_has_access uid) (after (on_callback cfg cb) w) = Ok b
       /\ (b = true <->
           exists other, other ∈ PLANS /\ other <> plan
                         /\ approved_entry (files w) uid other).
Proof.
  intros Hc Hok.
  pose proof (commits_files cfg (Pressed cb) uid plan w Hc Hok) as Hfiles.
  cbn [handle forced_status] in Hfiles.
  rewrite result_user_has_access, Hfiles, stored_purchases_status.
  set (new := <[plan := JDict (entry "requested" (clock w))]> _).
  assert (is_approved new plan = false) as Hnew by apply is_approved_insert.
  split.
  - rewrite approved_entry_iff, stored_purchases_status. fold new. by rewrite Hnew.
  - eexists. split; [reflexivity|].
    rewrite bool_decide_eq_true, first_approved_is_Some. split.
    + intros (other & Hin & Ha). exists other. split; [exact Hin|].
      assert (other <> plan) as Hne by congruence. split; [exact Hne|].
      apply approved_entry_iff. subst new.
      by rewrite is_approved_insert_ne in Ha.
    + intros (other & Hin & Hne & Ha). exists other. split; [exact Hin|].
      subst new. rewrite is_approved_insert_ne by exact Hne.
      by apply approved_entry_iff.
Qed.

Lemma press_pro_commits : commits demo_cfg (Pressed press_pro) 7 "PRO".
Proof.
  split; [reflexivity|]. split; [reflexivity|].
  exists "pro". repeat split. apply elem_of_PLANS. tauto.
Defined.

(** ** Who the operator is *)

(** With no operator id configured every caller is the operator.  With one
    configured at most one user id is: the one whose decimal text is the
    configured string; and nobody is when the configured string is the
    decimal text of no integer (a name, or a number with leading zeros). *)
Theorem one_configured_operator cfg :
  (ADMIN_ID cfg = "" -> forall a, is_admin cfg a = true)
  /\ (ADMIN_ID cfg <> "" ->
      forall a b, is_admin cfg a = true -> is_admin cfg b = true -> a = b)
  /\ (ADMIN_ID cfg <> "" -> (forall n, PyStr.str n <> ADMIN_ID cfg) ->
      forall a, is_admin cfg a = false).
Proof.
  split; [|split].
  - intros Hopen a. apply is_admin_spec. by left.
  - intros Hset a b [Ha|Ha]%is_admin_spec [Hb|Hb]%is_admin_spec; try done.
    apply str_inj. congruence.
  - intros Hset Hno a. apply not_true_is_false.
    intros [Ha|Ha]%is_admin_spec; [done|]. by apply (Hno a).
Qed.

(** [notify_admin] is best effort: it returns normally and leaves the files
    alone in every case.  It does nothing with no operator id configured;
    otherwise it sends to the chat [int(ADMIN_ID)] when that parses and the
    chat is reachable, and logs a warning when not. *)
Theorem notify_admin_is_best_effort cfg b w :
  result (notify_admin cfg b) w = Ok tt
  /\ files (after (notify_admin cfg b) w) = files w
  /\ (ADMIN_ID cfg = "" -> after (notify_admin cfg b) w = w)
  /\ (ADMIN_ID cfg <> "" ->
      after (notify_admin cfg b) w
      = logged [match PyStr.int (ADMIN_ID cfg) with
                | Some chat_id =>
                    if bool_decide (chat_id ∈ blocked w)
                    then log_warning "Failed to notify admin"
                    else send_message chat_id b
                | None => log_warning "Failed to notify admin"
                end] w).
Proof.
  unfold result, after, notify_admin.
  destruct (String.eqb (ADMIN_ID cfg) "") eqn:E.
  - apply String.eqb_eq in E. cbn.
    split; [reflexivity|]. split; [reflexivity|]. split; [reflexivity|]. done.
  - apply String.eqb_neq in E. unfold try_except.
    destruct (PyStr.int (ADMIN_ID cfg)) as [chat_id|]; cbn.
    + unfold bot_send. destruct (bool_decide (chat_id ∈ blocked w)); cbn;
        (split; [reflexivity|]); (split; [reflexivity|]); (split; [done|]);
        reflexivity.
    + split; [reflexivity|]. split; [reflexivity|]. split; [done|]. reflexivity.
Qed.

(** ** Button presses *)

Lemma startswith_app p v : PyStr.startswith p (p +:+ v) = true.
Proof.
  unfold PyStr.startswith. induction p as [|c p IH].
  - by destruct v.
  - change (String c p +:+ v) with (String c (p +:+ v)). simpl.
    destruct (ascii_dec c c); [exact IH | done].
Qed.

Lemma split_value_plan v : split_value ("plan:" +:+ v) = ret v.
Proof. reflexivity. Qed.

(** The branches of [on_callback], with who is written and under which
    prefix: no write; a patch of the presser's record outside the purchases,
    under a prefix other than [paid:]; or the presser's entry of a plan of
    the closed set set to requested, under [paid:]. *)
Lemma on_callback_branches cfg cb w :
  (exists l, after (on_callback cfg cb) w = logged l w)
  \/ (exists uid patch l,
        cb_user cb = Some uid
        /\ patch !! "purchases" = None
        /\ after (on_callback cfg cb) w = logged l (after (upsert_user uid patch) w))
  \/ (exists uid plan l,
        cb_user cb = Some uid /\ plan ∈ PLANS
        /\ PyStr.startswith "paid:" (cb_data cb) = true
        /\ after (on_callback cfg cb) w
           = logged l (after (set_purchase_status uid plan "requested") w)).
Proof.
  unfold on_callback.
  destruct cb as [q user data]; cbn [has_query cb_user cb_data].
  destruct q; cbn [negb]; [|left; exists []; by rewrite logged_nil].
  destruct user as [uid|]; [|left; exists []; by rewrite logged_nil].
  unfold split_value.
  destruct (PyStr.after_colon data) as [v|];
    [|left; exists []; rewrite logged_nil;
      by repeat destruct (PyStr.startswith _ data)].
  destruct (PyStr.startswith "lang:" data).
  { right; left. rewrite after_ret_bind.
    match goal with
    | |- context [after (bind ?m ?k) w] =>
        destruct (after_bind_readers m k w) as [l Hl]; [intros; readers|]
    end.
    rewrite after_set_lang in Hl. eexists uid, _, l.
    split; [reflexivity|]. split; [|exact Hl]. reflexivity. }
  destruct (PyStr.startswith "plan:" data).
  { rewrite after_ret_bind.
    destruct (in_PRICES (PyStr.upper v)); cbn [negb];
      [|left; by exists [edit_message_text (Text "Ошибка тарифа.")]].
    right; left. rewrite after_time_bind.
    match goal with
    | |- context [after (bind ?m ?k) w] =>
        destruct (after_bind_readers m k w) as [l Hl]; [intros; readers|]
    end.
    eexists uid, _, l. split; [reflexivity|]. split; [|exact Hl]. reflexivity. }
  destruct (PyStr.startswith "paid:" data) eqn:Hpaid;
    [|left; exists []; by rewrite logged_nil].
  rewrite after_ret_bind.
  destruct (in_PRICES (PyStr.upper v)) eqn:Hplan; cbn [negb];
    [|left; by exists [edit_message_text (Text "Ошибка тарифа.")]].
  right; right.
  match goal with
  | |- context [after (bind ?m ?k) w] =>
      destruct (after_bind_readers m k w) as [l Hl]; [intros; readers|]
  end.
  exists uid, (PyStr.upper v), l. split; [reflexivity|].
  split; [by apply in_PRICES_spec|]. split; [reflexivity | exact Hl].
Qed.

(** A button press writes nobody's record but the presser's: the record of
    every other user reads the same after it.  And it changes a ledger entry
    only under the [paid:] prefix: a press that chooses a language or a plan
    leaves every entry of every user as it was. *)
Theorem press_writes_only_the_presser cfg cb w :
  (forall uid, cb_user cb <> Some uid ->
     stored_record (files (after (on_callback cfg cb) w)) uid
     = stored_record (files w) uid)
  /\ (PyStr.startswith "paid:" (cb_data cb) = false ->
      forall uid, stored_purchases (files (after (on_callback cfg cb) w)) uid
                  = stored_purchases (files w) uid).
Proof.
  destruct (on_callback_branches cfg cb w)
    as [[l ->]|[(u & patch & l & Hu & Hp & ->)|(u & plan & l & Hu & _ & Hpaid & ->)]];
    cbn [logged files].
  - by split.
  - rewrite files_after_upsert.
    destruct (disk_ok w);
      [|by split; intros; rewrite ?stored_record_left_staged,
                            ?stored_purchases_left_staged].
    split.
    + intros uid Hne. apply stored_record_written_other. congruence.
    + intros _ uid. by apply stored_purchases_patch.
  - rewrite files_after_status.
    destruct (disk_ok w);
      [|by split; intros; rewrite ?stored_record_left_staged,
                            ?stored_purchases_left_staged].
    split.
    + intros uid Hne. apply stored_record_written_other. congruence.
    + congruence.
Qed.

(** A press that names no plan of the closed set, under [plan:] or under
    [paid:], is answered with the error text and nothing else happens. *)
Theorem unknown_plan_is_refused cfg uid v w :
  PyStr.upper v ∉ PLANS ->
  on_callback cfg (Callback true (Some uid) ("plan:" +:+ v)) w
  = (Ok tt, logged [edit_message_text (Text "Ошибка тарифа.")] w)
  /\ on_callback cfg (Callback true (Some uid) ("paid:" +:+ v)) w
     = (Ok tt, logged [edit_message_text (Text "Ошибка тарифа.")] w).
Proof.
  intros Hno.
  assert (in_PRICES (PyStr.upper v) = false) as Hplan.
  { apply not_true_is_false. by intros ?%in_PRICES_spec. }
  unfold on_callback. cbn [has_query cb_user cb_data negb].
  change (PyStr.startswith "lang:" ("plan:" +:+ v)) with false.
  change (PyStr.startswith "lang:" ("paid:" +:+ v)) with false.
  change (PyStr.startswith "plan:" ("paid:" +:+ v)) with false.
  rewrite !startswith_app. cbn iota.
  rewrite split_value_plan, split_value_paid. unfold bind, ret.
  by rewrite Hplan.
Qed.

(** ** Accepted commands, in full *)

Lemma read_log_written data : read_log (written data) = [].
Proof. reflexivity. Qed.

Lemma get_lang_eq uid w :
  get_lang uid w = (result (get_lang uid) w, logged (read_log (files w)) w).
Proof.
  unfold result, get_lang. rewrite (bind_ok _ _ _ _ _ (get_user_eq uid w)).
  unfold or_empty_strip_lower, bind, ret, raise.
  by destruct (if truthy _ then _ else _).
Qed.

Lemma set_purchase_status_world uid plan status w :
  disk_ok w = true ->
  set_purchase_status uid plan status w
  = (Ok tt,
     with_files
       (written (users_with (files w) uid
                   (record_with_status (files w) uid plan status (clock w))))
       (logged (read_log (files w) ++ read_log (files w)) w)).
Proof.
  intros Hok. unfold set_purchase_status.
  rewrite (bind_ok _ _ _ _ _ (get_user_eq uid w)).
  unfold bind at 1. unfold time_time. simpl.
  unfold bind. rewrite !upsert_user_eq. simpl. rewrite Hok.
  rewrite insert_union_empty. unfold ret. by rewrite logged_logged.
Qed.

Lemma result_get_lang_files uid w w' :
  files w' = files w -> result (get_lang uid) w' = result (get_lang uid) w.
Proof. intros H. by rewrite !result_get_lang, H. Qed.

Lemma result_get_lang_status d uid plan status now w w' :
  files w = d ->
  files w' = written (users_with d uid (record_with_status d uid plan status now)) ->
  result (get_lang uid) w' = result (get_lang uid) w.
Proof.
  intros <- H. rewrite !result_get_lang, H, stored_record_written_same.
  unfold record_with_status, get. by rewrite lookup_insert_ne.
Qed.


Lemma get_lang_quiet uid w lang :
  read_log (files w) = [] -> result (get_lang uid) w = Ok lang ->
  get_lang uid w = (Ok lang, w).
Proof. intros Hq Hr. by rewrite get_lang_eq, Hq, Hr, logged_nil. Qed.


Lemma bind_raise {A B} (m : Py A) (k : A -> Py B) w e w' :
  m w = (Raise e, w') -> bind m k w = (Raise e, w').
Proof. unfold bind. by intros ->. Qed.

Lemma bot_send_eq chat_id b w :
  bot_send chat_id b w
  = if bool_decide (chat_id ∈ blocked w) then (Raise TelegramError, w)
    else (Ok tt, logged [send_message chat_id b] w).
Proof. reflexivity. Qed.

Lemma groups_inline_quiet cfg uid plan lang w :
  read_log (files w) = [] -> result (get_lang uid) w = Ok lang ->
  groups_inline cfg uid plan w
  = (Ok (if String.eqb (group_url cfg plan) "" then None else Some (group_url cfg plan)),
     w).
Proof.
  intros Hq Hr. unfold groups_inline.
  by rewrite (bind_ok _ _ _ _ _ (get_lang_quiet uid w lang Hq Hr)).
Qed.

Lemma approve_tail_eq cfg uid plan lang w :
  read_log (files w) = [] -> result (get_lang uid) w = Ok lang ->
  try_except
    (let* menu := main_menu uid in
     run bot_send uid (ApprovedNotice lang plan) then
     let* gi := groups_inline cfg uid plan in
     match gi with
     | Some _ => bot_send uid (GroupLink lang plan)
     | None => ret tt
     end)
    (fun _ => emit (log_warning "Failed to message user")) w
  = (Ok tt, logged (approve_notices cfg uid plan lang w) w).
Proof.
  intros Hq Hr. unfold try_except, main_menu, approve_notices.
  rewrite (bind_ok _ _ _ _ _ (get_lang_quiet uid w lang Hq Hr)).
  destruct (bool_decide (uid ∈ blocked w)) eqn:Hb.
  - erewrite bind_raise; [reflexivity|]. by rewrite bot_send_eq, Hb.
  - erewrite bind_ok; [|by rewrite bot_send_eq, Hb].
    set (w1 := logged _ w).
    erewrite bind_ok;
      [|apply (groups_inline_quiet cfg uid plan lang w1 Hq);
        by rewrite (result_get_lang_files uid w w1)].
    destruct (String.eqb (group_url cfg plan) "").
    + unfold ret. reflexivity.
    + rewrite bot_send_eq. change (blocked w1) with (blocked w). rewrite Hb.
      subst w1. by rewrite logged_logged.
Qed.

Lemma cmd_approve_accepted_eq cfg upd w uid plan :
  accepted cfg upd uid plan ->
  disk_ok w = true ->
  cmd_approve cfg upd w
  = let w2 :=
      logged [reply_text
                (Text ("✅ Подтверждено: " +:+ PyStr.str uid +:+ " → " +:+ plan))]
        (with_files
           (written (users_with (files w) uid
                       (record_with_status (files w) uid plan "approved" (clock w))))
           (logged (read_log (files w) ++ read_log (files w)) w)) in
    match result (get_lang uid) w with
    | Ok lang => (Ok tt, logged (approve_notices cfg uid plan lang w) w2)
    | Raise e => (Raise e, w2)
    end.
Proof.
  intros (Hm & (caller & Hc & Hop) & (us & ps & rest & Ha & Hi & -> & Hin)) Hok.
  apply is_admin_spec in Hop. apply in_PRICES_spec in Hin.
  destruct upd as [m u a]; cbn [has_message effective_user args] in *; subst.
  unfold cmd_approve, caller_is_admin.
  cbn [has_message effective_user args negb]. rewrite Hop, Hin, Hi. cbn [negb].
  erewrite bind_ok; [|by apply set_purchase_status_world].
  erewrite bind_ok; [|reflexivity].
  cbv zeta. set (w2 := with_event _ _).
  assert (result (get_lang uid) w2 = result (get_lang uid) w) as Hsame.
  { by eapply result_get_lang_status. }
  assert (get_lang uid w2 = (result (get_lang uid) w, w2)) as Hl.
  { rewrite get_lang_eq, Hsame. change (read_log (files w2)) with (@nil event).
    by rewrite logged_nil. }
  destruct (result (get_lang uid) w) as [lang|e] eqn:Hr.
  - erewrite bind_ok; [|exact Hl].
    by rewrite (approve_tail_eq cfg uid (PyStr.upper ps) lang w2 eq_refl Hsame).
  - by erewrite bind_raise; [|exact Hl].
Qed.

(** An accepted approve commits before it notifies (the write and the reply
    to the operator going through).  In every case the files hold the
    approved entry, stamped with the clock, when the handler ends, and the
    operator has the receipt.  If the buyer's stored language is unusable
    ([get_lang] raises) the handler then raises and the buyer is not
    notified.  Otherwise the handler returns normally whether or not the
    buyer can be reached: a buyer who can be gets the notice, and the group
    link when one is configured for the plan; for one who cannot, a warning
    is logged. *)
Theorem approve_commits_then_notifies cfg upd w uid plan :
  accepted cfg upd uid plan ->
  disk_ok w = true ->
  exists tail,
    trace (after (cmd_approve cfg upd) w)
    = trace w ++ read_log (files w) ++ read_log (files w)
      ++ reply_text (Text ("✅ Подтверждено: " +:+ PyStr.str uid +:+ " → " +:+ plan))
         :: tail
    /\ files (after (cmd_approve cfg upd) w)
       = written (users_with (files w) uid
                    (record_with_status (files w) uid plan "approved" (clock w)))
    /\ match result (get_lang uid) w with
       | Raise e => result (cmd_approve cfg upd) w = Raise e /\ tail = []
       | Ok lang =>
           result (cmd_approve cfg upd) w = Ok tt
           /\ tail = approve_notices cfg uid plan lang w
       end.
Proof.
  intros Hacc Hok.
  pose proof (cmd_approve_accepted_eq cfg upd w uid plan Hacc Hok) as Heq.
  cbv zeta in Heq.
  destruct (result (get_lang uid) w) as [lang|e]; eexists;
    (split; [unfold after; rewrite Heq; cbn [snd logged trace with_files]
            |split; [by apply files_after_approve
                    |split; [unfold result; by rewrite Heq | reflexivity]]]).
  - rewrite <- !app_assoc. reflexivity.
  - rewrite <- !app_assoc. reflexivity.
Qed.

Lemma deny_tail_eq uid lang w :
  read_log (files w) = [] -> result (get_lang uid) w = Ok lang ->
  try_except
    (let* menu := main_menu uid in
     bot_send uid (DeniedNotice lang))
    (fun _ => emit (log_warning "Failed to message user")) w
  = (Ok tt, logged (deny_notices uid lang w) w).
Proof.
  intros Hq Hr. unfold try_except, main_menu, deny_notices.
  rewrite (bind_ok _ _ _ _ _ (get_lang_quiet uid w lang Hq Hr)).
  rewrite bot_send_eq. by destruct (bool_decide (uid ∈ blocked w)).
Qed.

Lemma cmd_deny_accepted_eq cfg upd w uid plan :
  accepted cfg upd uid plan ->
  disk_ok w = true ->
  cmd_deny cfg upd w
  = let w2 :=
      logged [reply_text
                (Text ("⛔ Отказано: " +:+ PyStr.str uid +:+ " → " +:+ plan))]
        (with_files
           (written (users_with (files w) uid
                       (record_with_status (files w) uid plan "denied" (clock w))))
           (logged (read_log (files w) ++ read_log (files w)) w)) in
    match result (get_lang uid) w with
    | Ok lang => (Ok tt, logged (deny_notices uid lang w) w2)
    | Raise e => (Raise e, w2)
    end.
Proof.
  intros (Hm & (caller & Hc & Hop) & (us & ps & rest & Ha & Hi & -> & Hin)) Hok.
  apply is_admin_spec in Hop. apply in_PRICES_spec in Hin.
  destruct upd as [m u a]; cbn [has_message effective_user args] in *; subst.
  unfold cmd_deny, caller_is_admin.
  cbn [has_message effective_user args negb]. rewrite Hop, Hin, Hi. cbn [negb].
  erewrite bind_ok; [|by apply set_purchase_status_world].
  erewrite bind_ok; [|reflexivity].
  cbv zeta. set (w2 := with_event _ _).
  assert (result (get_lang uid) w2 = result (get_lang uid) w) as Hsame.
  { by eapply result_get_lang_status. }
  assert (get_lang uid w2 = (result (get_lang uid) w, w2)) as Hl.
  { rewrite get_lang_eq, Hsame. change (read_log (files w2)) with (@nil event).
    by rewrite logged_nil. }
  destruct (result (get_lang uid) w) as [lang|e] eqn:Hr.
  - erewrite bind_ok; [|exact Hl].
    by rewrite (deny_tail_eq uid lang w2 eq_refl Hsame).
  - by erewrite bind_raise; [|exact Hl].
Qed.

(** An accepted deny commits before it notifies, like approve (the write and
    the reply to the operator going through): in every case the files hold
    the denied entry, stamped with the clock, when the handler ends, and the
    operator has the receipt; then the handler raises if the buyer's stored
    language is unusable, and otherwise returns normally, with the notice
    sent to a buyer who can be reached and a warning logged for one who
    cannot. *)
Theorem deny_commits_then_notifies cfg upd w uid plan :
  accepted cfg upd uid plan ->
  disk_ok w = true ->
  exists tail,
    trace (after (cmd_deny cfg upd) w)
    = trace w ++ read_log (files w) ++ read_log (files w)
      ++ reply_text (Text ("⛔ Отказано: " +:+ PyStr.str uid +:+ " → " +:+ plan))
         :: tail
    /\ files (after (cmd_deny cfg upd) w)
       = written (users_with (files w) uid
                    (record_with_status (files w) uid plan "denied" (clock w)))
    /\ match result (get_lang uid) w with
       | Raise e => result (cmd_deny cfg upd) w = Raise e /\ tail = []
       | Ok lang =>
           result (cmd_deny cfg upd) w = Ok tt
           /\ tail = deny_notices uid lang w
       end.
Proof.
  intros Hacc Hok.
  pose proof (cmd_deny_accepted_eq cfg upd w uid plan Hacc Hok) as Heq.
  cbv zeta in Heq.
  destruct (result (get_lang uid) w) as [lang|e]; eexists;
    (split; [unfold after; rewrite Heq; cbn [snd logged trace with_files]
            |split; [by apply files_after_deny
                    |split; [unfold result; by rewrite Heq | reflexivity]]]).
  - rewrite <- !app_assoc. reflexivity.
  - rewrite <- !app_assoc. reflexivity.
Qed.

Lemma startswith_lang v : PyStr.startswith "lang:" ("lang:" +:+ v) = true.
Proof. apply startswith_app. Qed.

Lemma split_value_lang v : split_value ("lang:" +:+ v) = ret v.
Proof. reflexivity. Qed.

Lemma coerce_lang_tj lang :
  (if String.eqb lang "tj" then "tj" else "ru") = coerce_lang lang.
Proof.
  unfold coerce_lang. destruct (String.eqb lang "tj") eqn:E.
  - apply String.eqb_eq in E as ->. reflexivity.
  - apply String.eqb_neq in E. case_bool_decide as H; [|reflexivity].
    apply elem_of_SUPPORTED in H as [-> | ->]; done.
Qed.

Lemma coerce_lang_is_tj lang : coerce_lang lang = "tj" -> lang = "tj".
Proof. unfold coerce_lang. case_bool_decide; [done | discriminate]. Qed.

(** A press of a language button confirms the language of its value and
    stores the language of that value passed to [set_lang].  The handler
    trims and lower-cases the value and names in the confirmation the
    language it then reads ([said]); [set_lang] trims and lower-cases once
    more before it validates, and what it makes of the value ([kept]) is
    stored in the presser's record (the write going through) and is what the
    menu that follows is built for.  A confirmation of Tajik always has Tajik
    stored, and the two languages are the same whenever the second pass
    leaves the value as the first made it.  The menu message is sent outside
    any [try]: for a presser the gateway cannot reach the handler raises,
    after the language is stored. *)
Theorem language_confirmed_is_language_stored cfg uid v w :
  disk_ok w = true ->
  let cb := Callback true (Some uid) ("lang:" +:+ v) in
  let once := PyStr.lower (PyStr.strip v) in
  let said := coerce_lang once in
  let kept := coerce_lang (PyStr.lower (PyStr.strip once)) in
  stored_record (files (after (on_callback cfg cb) w)) uid !! "lang" = Some (JStr kept)
  /\ trace (after (on_callback cfg cb) w)
     = trace w ++ read_log (files w)
       ++ edit_message_text (LangSet said)
          :: (if bool_decide (uid ∈ blocked w) then []
              else [send_message uid (MenuDash kept)])
  /\ result (on_callback cfg cb) w
     = (if bool_decide (uid ∈ blocked w) then Raise TelegramError else Ok tt)
  /\ (said = "tj" -> kept = "tj")
  /\ (PyStr.lower (PyStr.strip once) = once -> kept = said).
Proof.
  intros Hok cb once said kept.
  assert (on_callback cfg cb w
          = let w2 := logged [edit_message_text (LangSet said)]
                        (after (set_lang uid once) w) in
            if bool_decide (uid ∈ blocked w) then (Raise TelegramError, w2)
            else (Ok tt, logged [send_message uid (MenuDash kept)] w2)) as Heq.
  { unfold on_callback, cb. cbn [has_query cb_user cb_data negb].
    rewrite startswith_lang, split_value_lang.
    erewrite bind_ok; [|reflexivity].
    erewrite bind_ok; [|apply set_lang_eq].
    erewrite bind_ok; [|reflexivity].
    rewrite coerce_lang_tj, after_set_lang. fold once said kept.
    unfold after. rewrite upsert_user_eq, Hok. cbn [snd]. cbv zeta.
    set (w2 := with_event _ _).
    assert (get_lang uid w2 = (Ok kept, w2)) as Hl.
    { apply get_lang_quiet; [reflexivity|].
      rewrite result_get_lang. subst w2. cbn [with_event with_files files].
      rewrite stored_record_written_same. unfold get.
      erewrite lookup_union_Some_l; [|apply lookup_insert_eq]. cbn [from_option id].
      destruct (supported_is_normal kept (coerce_lang_supported _)) as [-> ->].
      by rewrite coerce_lang_keeps by apply coerce_lang_supported. }
    unfold main_menu. erewrite bind_ok; [|exact Hl].
    rewrite bot_send_eq. reflexivity. }
  cbv zeta in Heq. split; [|split; [|split; [|split]]].
  - unfold after at 1. rewrite Heq.
    destruct (bool_decide (uid ∈ blocked w)); cbn [snd logged files];
      rewrite (files_after_set_lang _ _ _ Hok), stored_record_written_same;
      (erewrite lookup_union_Some_l; [reflexivity | apply lookup_insert_eq]).
  - unfold after at 1. rewrite Heq, after_set_lang. unfold after.
    rewrite upsert_user_eq, Hok.
    destruct (bool_decide (uid ∈ blocked w)); cbn [snd logged trace with_files];
      rewrite <- ?app_assoc; reflexivity.
  - unfold result. rewrite Heq. by destruct (bool_decide (uid ∈ blocked w)).
  - intros Htj%coerce_lang_is_tj. subst kept. rewrite Htj. reflexivity.
  - intros Hnorm. subst said kept. by rewrite Hnorm.
Qed.

Lemma deny_vip_accepted : accepted demo_cfg deny_vip 7 "VIP".
Proof.
  split; [reflexivity|]. split.
  - exists 42. split; [reflexivity|]. right. reflexivity.
  - exists "7", "VIP", []. repeat split. apply elem_of_PLANS. tauto.
Defined.

(** ** Decimal text of user ids *)

Lemma strip_by_id space l :
  Forall (fun c => space c = false) l -> PyStr.strip_by space l = l.
Proof.
  assert (forall l', Forall (fun c => space c = false) l' -> PyStr.lstrip_by space l' = l')
    as Hl.
  { intros [|c l'] H; [done|]. cbn. by rewrite (Forall_inv H). }
  intros H. unfold PyStr.strip_by, PyStr.rstrip_by.
  rewrite (Hl l H), Hl; [apply rev_involutive|].
  by apply Forall_rev.
Qed.

Lemma int_codes_digit d s :
  (d < 10)%N -> int_codes (String (pretty_N_char d) s) = (48 + d)%N :: int_codes s.
Proof.
  intros Hd.
  assert (d = 0 \/ d = 1 \/ d = 2 \/ d = 3 \/ d = 4 \/ d = 5 \/ d = 6 \/ d = 7
          \/ d = 8 \/ d = 9)%N as H by lia.
  destruct H as [->|[->|[->|[->|[->|[->|[->|[->|[->| ->]]]]]]]]]; reflexivity.
Qed.

Lemma digit_code d : (d < 10)%N -> PyStr.digit (48 + d) = Some (Z.of_N d).
Proof.
  intros Hd. unfold PyStr.digit.
  replace ((48 <=? 48 + d)%N && (48 + d <=? 57)%N) with true.
  - by replace (48 + d - 48)%N with d by lia.
  - symmetry. apply andb_true_iff. split; apply N.leb_le; lia.
Qed.

Lemma c_space_code d : (d < 10)%N -> PyStr.c_space (48 + d) = false.
Proof.
  intros Hd. unfold PyStr.c_space.
  apply orb_false_iff. split; [apply andb_false_iff; right; apply N.leb_gt; lia|].
  apply N.eqb_neq. lia.
Qed.

Lemma digits_pretty_go x : forall s prev,
  (0 < x)%N ->
  PyStr.digits 0 prev (int_codes (pretty_N_go x s))
  = PyStr.digits (Z.of_N x) true (int_codes s).
Proof.
  induction (N.lt_wf_0 x) as [x _ IH]; intros s prev Hx.
  rewrite pretty_N_go_step by exact Hx.
  assert (x `mod` 10 < 10)%N as Hd by (apply N.mod_lt; lia).
  assert (Z.of_N x = 10 * Z.of_N (x `div` 10) + Z.of_N (x `mod` 10)) as Hx10.
  { rewrite (N.div_mod x 10) at 1 by lia. lia. }
  destruct (decide (x `div` 10 = 0)%N) as [H0|H0].
  - rewrite H0, pretty_N_go_0, (int_codes_digit _ _ Hd). cbn [PyStr.digits].
    rewrite (digit_code _ Hd). rewrite Hx10, H0. reflexivity.
  - rewrite IH; [|apply N.div_lt; lia|lia].
    rewrite (int_codes_digit _ _ Hd). cbn [PyStr.digits].
    rewrite (digit_code _ Hd). by rewrite Hx10.
Qed.

Lemma no_blank_pretty_go x : forall s,
  Forall (fun c => PyStr.c_space c = false) (int_codes s) ->
  Forall (fun c => PyStr.c_space c = false) (int_codes (pretty_N_go x s)).
Proof.
  induction (N.lt_wf_0 x) as [x _ IH]; intros s Hs.
  destruct (decide (x = 0)%N) as [->|Hx]; [by rewrite pretty_N_go_0|].
  rewrite pretty_N_go_step by lia. apply IH; [apply N.div_lt; lia|].
  assert (x `mod` 10 < 10)%N as Hd by (apply N.mod_lt; lia).
  rewrite (int_codes_digit _ _ Hd). constructor; [by apply c_space_code | exact Hs].
Qed.

Lemma count_digits_pretty_go (k : nat) : forall x s,
  (x < 10 ^ N.of_nat k)%N ->
  PyStr.count_digits (int_codes (pretty_N_go x s))
  <= PyStr.count_digits (int_codes s) + Z.of_nat k.
Proof.
  induction k as [|k IH]; intros x s Hx.
  - assert (x = 0)%N as -> by (cbn in Hx; lia). rewrite pretty_N_go_0. lia.
  - destruct (decide (x = 0)%N) as [->|Hx0]; [rewrite pretty_N_go_0; lia|].
    rewrite pretty_N_go_step by lia.
    assert (x `div` 10 < 10 ^ N.of_nat k)%N as Hdiv.
    { apply N.Div0.div_lt_upper_bound.
      rewrite Nat2N.inj_succ, N.pow_succ_r' in Hx. exact Hx. }
    etrans; [apply (IH _ _ Hdiv)|].
    assert (x `mod` 10 < 10)%N as Hd by (apply N.mod_lt; lia).
    rewrite (int_codes_digit _ _ Hd). cbn [PyStr.count_digits].
    rewrite (digit_code _ Hd). lia.
Qed.

Lemma count_digits_pretty x :
  (x < 10 ^ 4300)%N ->
  PyStr.count_digits (int_codes (pretty_N_go x "")) <= PyStr.int_max_str_digits.
Proof.
  intros Hx.
  pose proof (count_digits_pretty_go (N.to_nat 4300) x "") as H.
  rewrite N2Nat.id, N_nat_Z in H. specialize (H Hx). clear Hx.
  etrans; [exact H|]. by intros [=].
Qed.

Lemma int_unsigned s z :
  Forall (fun c => PyStr.c_space c = false) (int_codes s) ->
  PyStr.digits 0 false (int_codes s) = Some z ->
  PyStr.count_digits (int_codes s) <= PyStr.int_max_str_digits ->
  PyStr.int s = Some z.
Proof.
  intros Hs Hd Hc. unfold PyStr.int. fold (int_codes s).
  rewrite (strip_by_id _ _ Hs).
  destruct (PyStr.int_max_str_digits <? PyStr.count_digits (int_codes s)) eqn:E;
    [apply Z.ltb_lt in E; lia|].
  destruct (int_codes s) as [|c l]; [discriminate Hd|].
  cbn [PyStr.digits] in Hd. unfold PyStr.digit in Hd.
  destruct ((48 <=? c)%N && (c <=? 57)%N) eqn:Ec.
  - pose proof Ec as Eb. apply andb_true_iff in Eb as [Eb _]. apply N.leb_le in Eb.
    replace (c =? 45)%N with false by (symmetry; apply N.eqb_neq; lia).
    replace (c =? 43)%N with false by (symmetry; apply N.eqb_neq; lia).
    cbn [PyStr.digits]. unfold PyStr.digit. by rewrite Ec.
  - rewrite andb_false_r in Hd. discriminate Hd.
Qed.

Lemma int_negative s z :
  Forall (fun c => PyStr.c_space c = false) (int_codes s) ->
  PyStr.digits 0 false (int_codes s) = Some z ->
  PyStr.count_digits (int_codes s) <= PyStr.int_max_str_digits ->
  PyStr.int ("-" +:+ s) = Some (- z).
Proof.
  intros Hs Hd Hc. unfold PyStr.int.
  change (PyStr.to_ascii <$> PyStr.decode ("-" +:+ s)) with (45%N :: int_codes s).
  rewrite strip_by_id by (constructor; [reflexivity | exact Hs]).
  change (PyStr.count_digits (45%N :: int_codes s))
    with (PyStr.count_digits (int_codes s)).
  destruct (PyStr.int_max_str_digits <? PyStr.count_digits (int_codes s)) eqn:E;
    [apply Z.ltb_lt in E; lia|].
  cbv zeta. change (45 =? 45)%N with true. cbv iota. by rewrite Hd.
Qed.

Lemma pretty_positive_go p : pretty (Z.pos p) = pretty_N_go (N.pos p) "".
Proof. reflexivity. Qed.

Lemma pretty_negative_go p : pretty (Z.neg p) = "-" +:+ pretty_N_go (N.pos p) "".
Proof. reflexivity. Qed.

(** [int] reads back what [str] prints: for every integer of at most 4300
    digits, [int(str(n))] is [n]. *)
Lemma int_of_str n :
  Z.abs n < 10 ^ 4300 -> PyStr.int (PyStr.str n) = Some n.
Proof.
  intros Hn. unfold PyStr.str.
  destruct n as [|p|p]; [reflexivity|..].
  - assert (N.pos p < 10 ^ 4300)%N as Hp.
    { apply N2Z.inj_lt. rewrite N2Z.inj_pow. exact Hn. }
    clear Hn. rewrite pretty_positive_go. apply int_unsigned.
    + apply no_blank_pretty_go. constructor.
    + by rewrite digits_pretty_go.
    + by apply count_digits_pretty.
  - assert (N.pos p < 10 ^ 4300)%N as Hp.
    { apply N2Z.inj_lt. rewrite N2Z.inj_pow. exact Hn. }
    clear Hn. rewrite pretty_negative_go.
    change (Z.neg p) with (- Z.pos p). apply int_negative.
    + apply no_blank_pretty_go. constructor.
    + by rewrite digits_pretty_go.
    + by apply count_digits_pretty.
Qed.

Lemma upper_PLANS plan : plan ∈ PLANS -> PyStr.upper plan = plan.
Proof. intros [-> | [-> | ->]]%elem_of_PLANS; reflexivity. Qed.

(** The commands the bot prints for the operator work as printed: with the
    user id in the decimal text [str] gives it (at most 4300 digits) and a
    plan of the closed set, approve and deny from the operator are accepted
    for that very user and plan, and (the write going through) leave the
    entry approved, respectively denied. *)
Theorem printed_command_is_accepted cfg py_repr caller uid plan rest w :
  operator cfg caller ->
  plan ∈ PLANS ->
  Z.abs uid < 10 ^ 4300 ->
  let upd := Update true (Some caller) (PyStr.str uid :: plan :: rest) in
  accepted cfg upd uid plan
  /\ (disk_ok w = true ->
      result (get_purchase_status py_repr uid plan) (after (cmd_approve cfg upd) w)
      = Ok "approved"
      /\ result (get_purchase_status py_repr uid plan) (after (cmd_deny cfg upd) w)
         = Ok "denied").
Proof.
  intros Hop Hplan Hsize upd.
  assert (accepted cfg upd uid plan) as Hacc.
  { split; [reflexivity|]. split; [by exists caller|].
    exists (PyStr.str uid), plan, rest. split; [reflexivity|].
    split; [by apply int_of_str|]. split; [by rewrite upper_PLANS | exact Hplan]. }
  split; [exact Hacc|]. intros Hok. rewrite !result_get_purchase_status.
  rewrite (files_after_approve _ _ _ _ _ Hacc Hok), (files_after_deny _ _ _ _ _ Hacc Hok).
  split; f_equal; eapply status_view_forced;
    rewrite stored_purchases_status; apply lookup_insert_eq.
Qed.

(** ** Broadcast *)

Lemma broadcast_one_eq msg k w :
  broadcast_one msg k w = (Ok (deliverable w k), logged (broadcast_events msg w k) w).
Proof.
  unfold broadcast_one, try_except, broadcast_events, deliverable, main_menu.
  destruct (PyStr.int k) as [uid|]; [|by rewrite logged_nil].
  unfold bind at 1. rewrite get_lang_eq.
  destruct (result (get_lang uid) w) as [lang|e].
  - unfold bind. rewrite bot_send_eq. cbn [blocked logged].
    destruct (bool_decide (uid ∈ blocked w)); cbn [negb].
    + unfold ret. by rewrite app_nil_r.
    + unfold ret. by rewrite logged_logged.
  - unfold ret. by rewrite app_nil_r.
Qed.

Lemma deliverable_logged l w k : deliverable (logged l w) k = deliverable w k.
Proof.
  unfold deliverable. destruct (PyStr.int k) as [uid|]; [|done].
  by rewrite (result_get_lang_files uid w (logged l w)).
Qed.

Lemma broadcast_events_logged msg l w k :
  broadcast_events msg (logged l w) k = broadcast_events msg w k.
Proof. unfold broadcast_events. by rewrite deliverable_logged. Qed.

Lemma reached_logged l w keys : reached (logged l w) keys = reached w keys.
Proof. apply list_filter_iff. intros k. by rewrite deliverable_logged. Qed.

Lemma missed_logged l w keys : missed (logged l w) keys = missed w keys.
Proof. apply list_filter_iff. intros k. by rewrite deliverable_logged. Qed.

Lemma broadcast_trace_logged msg l w (keys : list string) :
  broadcast_events msg (logged l w) <$> keys = broadcast_events msg w <$> keys.
Proof. apply list_fmap_ext. intros ? k _. apply broadcast_events_logged. Qed.

Lemma broadcast_loop_eq msg keys : forall sent failed w,
  broadcast_loop msg keys sent failed w
  = (Ok (sent + Z.of_nat (length (reached w keys)),
         failed + Z.of_nat (length (missed w keys))),
     logged (concat (broadcast_events msg w <$> keys)) w).
Proof.
  induction keys as [|k keys IH]; intros sent failed w.
  - cbn. by rewrite !Z.add_0_r, logged_nil.
  - cbn [broadcast_loop]. unfold bind. rewrite broadcast_one_eq.
    unfold reached, missed. rewrite fmap_cons, !filter_cons. cbn [concat].
    fold (reached w keys) (missed w keys).
    destruct (deliverable w k) eqn:Hd.
    + rewrite IH, logged_logged, reached_logged, missed_logged, broadcast_trace_logged.
      rewrite decide_True by done. rewrite decide_False by (intros H; by apply H).
      cbn [length]. rewrite Nat2Z.inj_succ. do 3 f_equal. lia.
    + rewrite IH, logged_logged, reached_logged, missed_logged, broadcast_trace_logged.
      rewrite decide_False by done. rewrite decide_True by done.
      cbn [length]. rewrite Nat2Z.inj_succ. do 3 f_equal. lia.
Qed.

Lemma reached_missed w keys :
  (length (reached w keys) + length (missed w keys))%nat = length keys.
Proof.
  unfold reached, missed. induction keys as [|k keys IH]; [done|].
  rewrite !filter_cons. destruct (deliverable w k).
  - rewrite decide_True by done. rewrite decide_False by (intros H; by apply H).
    cbn [length]. lia.
  - rewrite decide_False by done. rewrite decide_True by done.
    cbn [length]. lia.
Qed.

Lemma cmd_broadcast_eq key_order cfg admin text arg w :
  operator cfg (sender_id admin) ->
  after_space text = Some arg -> PyStr.strip arg <> "" ->
  cmd_broadcast key_order cfg (Message true (Some admin) (Some text)) w
  = let keys := key_order (stored_users (files w)) in
    (Ok tt,
     logged (read_log (files w)
               ++ concat (broadcast_events (PyStr.strip arg) w <$> keys)
               ++ [reply_text (broadcast_report (Z.of_nat (length (reached w keys)))
                                 (Z.of_nat (length (missed w keys))))]) w).
Proof.
  intros Hop%is_admin_spec Harg Hne%String.eqb_neq.
  unfold cmd_broadcast. cbn [msg_present msg_user msg_text negb default from_option id].
  rewrite Hop, Harg, Hne. cbn [negb].
  rewrite (bind_ok _ _ _ _ _ (safe_read_eq w)).
  unfold bind. rewrite broadcast_loop_eq.
  rewrite reached_logged, missed_logged, broadcast_trace_logged.
  cbn [fst snd]. unfold emit. cbv zeta. f_equal.
  rewrite !Z.add_0_l.
  change (with_event ?e ?w) with (logged [e] w).
  by rewrite !logged_logged, <- ?app_assoc.
Qed.

Lemma delivered_app l1 l2 : delivered (l1 ++ l2) = delivered l1 ++ delivered l2.
Proof. apply omap_app. Qed.

Lemma replies_app l1 l2 : replies (l1 ++ l2) = replies l1 ++ replies l2.
Proof. apply omap_app. Qed.

Lemma delivered_read_log d : delivered (read_log d) = [].
Proof. unfold read_log. by destruct (users_file d) as [| |[| |]]. Qed.

Lemma replies_read_log d : replies (read_log d) = [].
Proof. unfold read_log. by destruct (users_file d) as [| |[| |]]. Qed.

Lemma delivered_broadcast msg w keys :
  delivered (concat (broadcast_events msg w <$> keys)) = recipients msg w keys.
Proof.
  unfold recipients, reached. induction keys as [|k keys IH]; [done|].
  rewrite fmap_cons, filter_cons. cbn [concat]. rewrite delivered_app, IH.
  unfold broadcast_events at 1.
  destruct (PyStr.int k) as [uid|] eqn:Hint.
  - rewrite delivered_app, delivered_read_log. destruct (deliverable w k) eqn:Hd.
    + rewrite decide_True by done. cbn [omap list_omap]. rewrite Hint. reflexivity.
    + by rewrite decide_False by done.
  - unfold deliverable. rewrite Hint. by rewrite decide_False by done.
Qed.

Lemma length_keys_of (users : dict) : length (keys_of users) = size users.
Proof. unfold keys_of. by rewrite length_fmap, length_map_to_list. Qed.

(** The operator's broadcast of a text always completes and never writes (the
    reply to the operator going through): the handler returns normally
    whatever the store holds and whichever chats cannot be reached, the files
    are as before, and its last word is the report.  The report counts as sent the keys of the store that read as a
    user id, have a readable language and a reachable chat, and as failed
    all the others; the two counts add up to the number of keys.  The order
    in which the keys are listed does not matter. *)
Theorem broadcast_reports_its_counts key_order cfg admin text arg w :
  (forall users, key_order users ≡ₚ keys_of users) ->
  operator cfg (sender_id admin) ->
  after_space text = Some arg -> PyStr.strip arg <> "" ->
  let m := Message true (Some admin) (Some text) in
  let keys := keys_of (stored_users (files w)) in
  let sent := length (reached w keys) in
  let failed := length (missed w keys) in
  result (cmd_broadcast key_order cfg m) w = Ok tt
  /\ files (after (cmd_broadcast key_order cfg m) w) = files w
  /\ last (trace (after (cmd_broadcast key_order cfg m) w))
     = Some (reply_text (broadcast_report (Z.of_nat sent) (Z.of_nat failed)))
  /\ (sent + failed)%nat = size (stored_users (files w)).
Proof.
  intros Hperm Hop Harg Hne m keys sent failed. subst m.
  pose proof (cmd_broadcast_eq key_order cfg admin text arg w Hop Harg Hne) as Heq.
  cbv zeta in Heq. unfold result, after. rewrite Heq. cbn [fst snd logged files trace].
  split; [reflexivity|]. split; [reflexivity|]. split.
  - rewrite !app_assoc, last_snoc. do 3 f_equal.
    + subst sent keys. unfold reached. by rewrite (Hperm (stored_users (files w))).
    + subst failed keys. unfold missed. by rewrite (Hperm (stored_users (files w))).
  - subst sent failed keys. by rewrite reached_missed, length_keys_of.
Qed.

(** A broadcast delivers the text once for every key of the store that reads
    as a user id, has a readable language and a reachable chat, and to nobody
    else, in whatever order the keys are listed: two keys that read as the
    same id ([7] and [07], say) make two deliveries to that user. *)
Theorem broadcast_delivers_once_per_key key_order cfg admin text arg w :
  (forall users, key_order users ≡ₚ keys_of users) ->
  operator cfg (sender_id admin) ->
  after_space text = Some arg -> PyStr.strip arg <> "" ->
  let m := Message true (Some admin) (Some text) in
  exists new,
    trace (after (cmd_broadcast key_order cfg m) w) = trace w ++ new
    /\ delivered new
       ≡ₚ recipients (PyStr.strip arg) w (keys_of (stored_users (files w))).
Proof.
  intros Hperm Hop Harg Hne m. subst m.
  pose proof (cmd_broadcast_eq key_order cfg admin text arg w Hop Harg Hne) as Heq.
  cbv zeta in Heq. unfold after. rewrite Heq. cbn [snd logged trace].
  eexists. split; [reflexivity|].
  rewrite !delivered_app, delivered_read_log, delivered_broadcast.
  cbn [delivered omap list_omap app]. rewrite app_nil_r.
  unfold recipients, reached. by rewrite (Hperm (stored_users (files w))).
Qed.

(** A broadcast is refused with one reply, before the store is read, and
    each reply has its cause: a caller who is not the operator (or is
    unknown) is told there is no access, whatever the text; the operator is
    shown the usage line when nothing follows the first space of the message
    or only blanks do. *)
Theorem broadcast_is_guarded key_order cfg m w :
  msg_present m = true ->
  ((forall a, msg_user m = Some a -> ~ operator cfg (sender_id a)) ->
   cmd_broadcast key_order cfg m w = (Ok tt, logged [reply_text msg_no_access] w))
  /\ ((exists a, msg_user m = Some a /\ operator cfg (sender_id a)) ->
      (forall arg, after_space (default "" (msg_text m)) = Some arg ->
                   PyStr.strip arg = "") ->
      cmd_broadcast key_order cfg m w
      = (Ok tt, logged [reply_text msg_usage_broadcast] w)).
Proof.
  intros Hm. unfold cmd_broadcast. rewrite Hm. cbn [negb]. split.
  - intros Hno. destruct (msg_user m) as [a|]; [|reflexivity].
    destruct (is_admin cfg (sender_id a)) eqn:Hadm; [|reflexivity].
    destruct (Hno a eq_refl). by apply is_admin_spec.
  - intros (a & -> & Hop%is_admin_spec) Hblank. rewrite Hop. cbn [negb].
    destruct (after_space _) as [arg|] eqn:Harg; [|reflexivity].
    by rewrite (Hblank arg eq_refl).
Qed.

(** ** Messages *)

Lemma read_only_user_has_access uid : read_only (user_has_access uid).
Proof. intros w. unfold after. rewrite user_has_access_eq. by eexists. Qed.

Lemma read_only_get_approved_plan uid : read_only (get_approved_plan uid).
Proof. intros w. unfold after. rewrite get_approved_plan_eq. by eexists. Qed.

Lemma read_only_t render uid key : read_only (t render uid key).
Proof.
  unfold t. apply read_only_bind; [apply read_only_get_lang|].
  intros. apply read_only_ret.
Qed.

Lemma read_only_courses_text render uid : read_only (courses_text render uid).
Proof.
  unfold courses_text. apply read_only_bind; [apply read_only_get_lang|].
  intros. apply read_only_ret.
Qed.

Lemma read_only_account_text render uid : read_only (account_text render uid).
Proof.
  unfold account_text. apply read_only_bind; [apply read_only_get_lang|].
  intros. apply read_only_bind; [apply read_only_get_user|].
  intros. apply read_only_bind; [apply read_only_get_approved_plan|].
  intros. apply read_only_ret.
Qed.

Lemma read_only_reply_with_menu uid text :
  read_only text -> read_only (reply_with_menu uid text).
Proof.
  intros Ht. unfold reply_with_menu, main_menu.
  apply read_only_bind; [exact Ht|].
  intros. apply read_only_bind; [apply read_only_get_lang|].
  intros. apply read_only_emit.
Qed.

Lemma only_profile_written_users_file who w w' :
  users_file (files w') = users_file (files w) -> only_profile_written who w w'.
Proof.
  intros Hsame.
  assert (forall uid, stored_record (files w') uid = stored_record (files w) uid)
    as Hrec by (intros; by apply stored_record_users_file).
  assert (forall uid, stored_purchases (files w') uid = stored_purchases (files w) uid)
    as Hpur by (intros; by apply stored_purchases_users_file).
  split; [by intros; rewrite Hrec|]. split; [by intros; rewrite Hrec|].
  intros uid. rewrite !result_get_lang, !result_user_has_access,
    !result_get_approved_plan, Hrec, Hpur.
  split; [done|]. split; [done|]. split; [done|].
  intros py_repr plan. rewrite !result_get_purchase_status.
  unfold status_view. by rewrite Hpur.
Qed.

Lemma only_profile_written_logged who l w : only_profile_written who w (logged l w).
Proof. by apply only_profile_written_users_file. Qed.

Lemma only_profile_written_upsert uid (patch : dict) l w :
  (forall k, k ∉ profile_keys -> patch !! k = None) ->
  only_profile_written (Some uid) w (logged l (after (upsert_user uid patch) w)).
Proof.
  intros Hp.
  assert (("lang" ∉ profile_keys) /\ ("purchases" ∉ profile_keys)) as [Hl Hu].
  { split; apply (bool_decide_unpack _); vm_compute; exact I. }
  destruct (disk_ok w) eqn:Hok.
  2: { apply only_profile_written_users_file. cbn [logged files].
       rewrite files_after_upsert, Hok. apply users_file_left_staged. }
  assert (forall uid' k, k ∉ profile_keys ->
            stored_record (files (logged l (after (upsert_user uid patch) w))) uid' !! k
            = stored_record (files w) uid' !! k) as Hkeys.
  { intros uid' k Hk. cbn [logged files]. rewrite files_after_upsert, Hok.
    destruct (decide (uid' = uid)) as [->|Hne].
    - rewrite stored_record_written_same. by rewrite lookup_union_r by auto.
    - by rewrite stored_record_written_other. }
  assert (forall uid',
            stored_purchases (files (logged l (after (upsert_user uid patch) w))) uid'
            = stored_purchases (files w) uid') as Hpur.
  { intros uid'. unfold stored_purchases, get_or_empty. by rewrite Hkeys. }
  split; [exact Hkeys|]. split.
  - intros uid' Hne. cbn [logged files]. rewrite files_after_upsert, Hok.
    apply stored_record_written_other. congruence.
  - intros uid'. split; [|split; [|split]].
    + rewrite !result_get_lang. unfold get. by rewrite Hkeys.
    + by rewrite !result_user_has_access, Hpur.
    + by rewrite !result_get_approved_plan, Hpur.
    + intros py_repr plan. rewrite !result_get_purchase_status.
      unfold status_view. by rewrite Hpur.
Qed.

Lemma profile_lookup u k :
  k ∉ profile_keys -> profile u !! k = None.
Proof.
  unfold profile_keys, profile. rewrite !elem_of_cons, elem_of_nil. intros Hk.
  rewrite !lookup_insert_ne by (intros <-; tauto). apply lookup_empty.
Qed.

Lemma on_text_patch_lookup u text now k :
  k ∉ profile_keys ->
  (<["last_message" := JStr text]> (<["last_message_ts" := JInt now]> (profile u)) : dict)
    !! k = None.
Proof.
  intros Hk. pose proof (profile_lookup u k Hk) as Hu. revert Hk.
  unfold profile_keys. rewrite !elem_of_cons, elem_of_nil. intros Hk.
  by rewrite !lookup_insert_ne by (intros <-; tauto).
Qed.

Lemma cmd_start_patch_lookup u now k :
  k ∉ profile_keys ->
  (<["started_ts" := JInt now]> (profile u) : dict) !! k = None.
Proof.
  intros Hk. pose proof (profile_lookup u k Hk) as Hu. revert Hk.
  unfold profile_keys. rewrite !elem_of_cons, elem_of_nil. intros Hk.
  by rewrite !lookup_insert_ne by (intros <-; tauto).
Qed.

(** A text message and [/start] write nothing but the sender's profile:
    every other key of the sender's record and every record of another user
    reads as before, and so do everybody's language, ledger entries and
    access.  This holds whatever the message says, whatever the files hold
    and whether or not the write goes through or the handler raises. *)
Theorem messages_write_only_the_profile render cfg m w :
  only_profile_written (sender_id <$> msg_user m) w (after (on_text render cfg m) w)
  /\ only_profile_written (sender_id <$> msg_user m) w
       (after (cmd_start render cfg m) w).
Proof.
  assert (forall who, only_profile_written who w w) as Hsame.
  { intros who. rewrite <- (logged_nil w) at 2. apply only_profile_written_logged. }
  destruct m as [present [user|] text]; cbn [msg_user fmap option_fmap option_map];
    unfold on_text, cmd_start; cbn [msg_present msg_user msg_text];
    destruct present; try (split; apply Hsame).
  split.
  - rewrite after_time_bind.
    match goal with
    | |- context [after (bind ?m ?k) w] =>
        destruct (after_bind_readers m k w) as [l ->]
    end.
    2: { apply only_profile_written_upsert. apply on_text_patch_lookup. }
    intros _. destruct (bool_decide _).
    { apply read_only_bind; [apply read_only_t|]. intros. apply read_only_emit. }
    apply read_only_bind; [apply read_only_get_lang|]. intros lang.
    repeat match goal with
           | |- read_only (if ?c then _ else _) => destruct c
           end;
      repeat first
        [ apply read_only_reply_with_menu
        | apply read_only_t | apply read_only_courses_text
        | apply read_only_account_text | apply read_only_emit
        | apply read_only_notify_admin | apply read_only_user_has_access
        | apply read_only_bind; [|intros ?]
        | match goal with
          | |- read_only (if ?c then _ else _) => destruct c
          end ].
  - rewrite after_time_bind.
    match goal with
    | |- context [after (bind ?m ?k) w] =>
        destruct (after_bind_readers m k w) as [l ->]
    end.
    2: { apply only_profile_written_upsert. apply cmd_start_patch_lookup. }
    intros _. unfold main_menu.
    repeat first
      [ apply read_only_t | apply read_only_emit | apply read_only_get_lang
      | apply read_only_notify_admin
      | apply read_only_bind; [|intros ?] ].
Qed.

Lemma get_lang_ok uid w lang :
  result (get_lang uid) w = Ok lang ->
  get_lang uid w = (Ok lang, logged (read_log (files w)) w).
Proof. intros Hr. by rewrite get_lang_eq, Hr. Qed.

Lemma get_lang_raise uid w e :
  result (get_lang uid) w = Raise e ->
  get_lang uid w = (Raise e, logged (read_log (files w)) w).
Proof. intros Hr. by rewrite get_lang_eq, Hr. Qed.

Lemma t_ok render uid key w lang :
  result (get_lang uid) w = Ok lang ->
  t render uid key w = (Ok (render (Localized key lang)), logged (read_log (files w)) w).
Proof. intros Hr. unfold t. by rewrite (bind_ok _ _ _ _ _ (get_lang_ok uid w lang Hr)). Qed.

Lemma t_raise render uid key w e :
  result (get_lang uid) w = Raise e ->
  t render uid key w = (Raise e, logged (read_log (files w)) w).
Proof. intros Hr. unfold t. by rewrite (bind_raise _ _ _ _ _ (get_lang_raise uid w e Hr)). Qed.

Lemma reply_with_menu_t render uid key w lang :
  result (get_lang uid) w = Ok lang ->
  reply_with_menu uid (t render uid key) w
  = (Ok tt,
     logged (read_log (files w) ++ read_log (files w)
               ++ [reply_text (Text (render (Localized key lang)))]) w).
Proof.
  intros Hr. unfold reply_with_menu, main_menu.
  rewrite (bind_ok _ _ _ _ _ (t_ok render uid key w lang Hr)).
  erewrite bind_ok; [|apply get_lang_ok; by rewrite (result_get_lang_files uid w)].
  unfold emit. change (with_event ?e ?w) with (logged [e] w).
  cbn [logged files]. by rewrite !logged_logged, <- ?app_assoc.
Qed.

Lemma upsert_user_run uid patch w :
  upsert_user uid patch w
  = (Ok (patch ∪ stored_record (files w) uid), after (upsert_user uid patch) w).
Proof. unfold after. by rewrite upsert_user_eq. Qed.

(** What [upsert_user] adds to the trace: log lines only. *)
Lemma upsert_user_trace uid patch w :
  exists l, trace (after (upsert_user uid patch) w) = trace w ++ l
            /\ replies l = [] /\ delivered l = [].
Proof.
  unfold after. rewrite upsert_user_eq. cbn [snd].
  destruct (disk_ok w); eexists; (split; [reflexivity|]).
  - by rewrite replies_read_log, delivered_read_log.
  - by rewrite replies_app, delivered_app, replies_read_log, delivered_read_log.
Qed.

Lemma notify_admin_run cfg b w :
  exists l, notify_admin cfg b w = (Ok tt, logged l w) /\ replies l = [].
Proof.
  unfold notify_admin. destruct (String.eqb _ _).
  { exists []. by rewrite logged_nil. }
  unfold try_except. destruct (PyStr.int _) as [chat_id|].
  - rewrite bot_send_eq. destruct (bool_decide _); by eexists.
  - by eexists.
Qed.

Lemma on_text_free_eq render cfg user text w lang :
  result (get_lang (sender_id user)) w = Ok lang ->
  PyStr.strip text ∉ lang_shortcuts ->
  (forall key, key ∈ menu_keys -> PyStr.strip text <> menu_label key lang) ->
  exists w1 l,
    on_text render cfg (Message true (Some user) (Some text)) w
    = (Ok tt,
       logged (l ++ [reply_text (Text (render (Localized
                                     (gate_key (files w) (sender_id user)) lang)))])
         w1)
    /\ replies l = [] /\ delivered l = []
    /\ exists l1, trace w1 = trace w ++ l1 /\ replies l1 = [] /\ delivered l1 = [].
Proof.
  intros Hlang Hshort Hmenu.
  set (uid := sender_id user) in *.
  set (patch := <["last_message" := JStr (PyStr.strip text)]>
                  (<["last_message_ts" := JInt (clock w)]> (profile user)) : dict).
  set (w1 := after (upsert_user uid patch) w).
  pose proof (only_profile_written_upsert uid patch [] w
                (on_text_patch_lookup user _ _)) as (_ & _ & Hkeep).
  rewrite logged_nil in Hkeep. fold w1 in Hkeep.
  destruct (Hkeep uid) as (Hl1 & Ha1 & _).
  rewrite Hlang in Hl1.
  set (rl := read_log (files w1)).
  exists w1, (rl ++ rl ++ rl ++ rl). split; [|split; [|split]].
  - unfold on_text. cbn [msg_present msg_user msg_text default from_option id].
    fold uid. unfold bind at 1. unfold time_time at 1. cbv iota beta.
    fold patch. rewrite (bind_ok _ _ _ _ _ (upsert_user_run uid patch w)).
    fold w1. rewrite bool_decide_eq_false_2 by exact Hshort.
    rewrite (bind_ok _ _ _ _ _ (get_lang_ok uid w1 lang Hl1)). fold rl.
    assert (forall key, key ∈ menu_keys ->
              String.eqb (PyStr.strip text) (menu_label key lang) = false) as Hneq.
    { intros key Hin. apply String.eqb_neq. by apply Hmenu. }
    rewrite !Hneq by (unfold menu_keys; rewrite !elem_of_cons; tauto).
    rewrite (bind_ok _ _ _ _ _ (user_has_access_eq uid (logged rl w1))).
    cbn [logged files]. fold rl.
    assert (stored_purchases (files w1) uid = stored_purchases (files w) uid) as Hp.
    { rewrite !result_user_has_access in Ha1.
      pose proof (only_profile_written_upsert uid patch [] w
                    (on_text_patch_lookup user _ _)) as (Hk & _ & _).
      rewrite logged_nil in Hk. fold w1 in Hk.
      unfold stored_purchases, get_or_empty. rewrite Hk; [done|].
      apply (bool_decide_unpack _). vm_compute. exact I. }
    rewrite Hp. unfold gate_key.
    assert (result (get_lang uid) (logged rl (logged rl w1)) = Ok lang) as Hl2.
    { by rewrite !(result_get_lang_files uid w1). }
    destruct (bool_decide _); cbn [negb];
      rewrite (reply_with_menu_t render uid _ _ lang Hl2);
      cbn [logged files]; fold rl;
      by rewrite !logged_logged, <- ?app_assoc.
  - subst rl. by rewrite !replies_app, !replies_read_log.
  - subst rl. by rewrite !delivered_app, !delivered_read_log.
  - apply upsert_user_trace.
Qed.

Lemma gate_key_spec d uid :
  gate_key d uid = "access_active"
  /\ (exists plan, plan ∈ PLANS /\ approved_entry d uid plan)
  \/ gate_key d uid = "no_access"
     /\ (forall plan, plan ∈ PLANS -> ~ approved_entry d uid plan).
Proof.
  unfold gate_key. case_bool_decide as H; rewrite first_approved_is_Some in H.
  - left. split; [reflexivity|]. destruct H as (plan & Hin & Ha).
    exists plan. split; [exact Hin|]. by apply approved_entry_iff.
  - right. split; [reflexivity|]. intros plan Hin Ha. apply H.
    exists plan. split; [exact Hin|]. by apply approved_entry_iff.
Qed.

(** A text that is no button is answered by the access gate.  For a sender
    whose language can be read, a text that is not a language shortcut and
    not one of the four menu labels of that language (a label of the other
    language is such a text) gets exactly one reply and nothing is sent to
    anybody: the access-active text when an entry of a plan of the closed
    set is approved for the sender, and the no-access text when none is. *)
Theorem free_text_is_gated render cfg user text w lang :
  result (get_lang (sender_id user)) w = Ok lang ->
  PyStr.strip text ∉ lang_shortcuts ->
  (forall key, key ∈ menu_keys -> PyStr.strip text <> menu_label key lang) ->
  let m := Message true (Some user) (Some text) in
  exists new key,
    result (on_text render cfg m) w = Ok tt
    /\ trace (after (on_text render cfg m) w) = trace w ++ new
    /\ replies new = [Text (render (Localized key lang))]
    /\ delivered new = []
    /\ (key = "access_active"
        /\ (exists plan, plan ∈ PLANS /\ approved_entry (files w) (sender_id user) plan)
        \/ key = "no_access"
           /\ (forall plan, plan ∈ PLANS ->
                 ~ approved_entry (files w) (sender_id user) plan)).
Proof.
  intros Hlang Hshort Hmenu m. subst m.
  destruct (on_text_free_eq render cfg user text w lang Hlang Hshort Hmenu)
    as (w1 & l & Heq & Hr & Hd & l1 & Ht & Hr1 & Hd1).
  exists (l1 ++ l ++ [reply_text (Text (render (Localized
                                   (gate_key (files w) (sender_id user)) lang)))]),
         (gate_key (files w) (sender_id user)).
  unfold result, after. rewrite Heq. cbn [fst snd logged trace].
  split; [reflexivity|]. split; [by rewrite Ht, <- !app_assoc|].
  split; [by rewrite !replies_app, Hr, Hr1|].
  split; [by rewrite !delivered_app, Hd, Hd1|].
  apply gate_key_spec.
Qed.

(** [/start] stores the profile, then greets in the language the store holds
    for the sender.  The write going through, the record keeps its other
    keys and gets the three name fields as the gateway gives them (a missing
    one as [null]) and the time of this [/start] as [started_ts], replacing
    those of an earlier one.
    With a readable language the replies are the welcome text, the language
    prompt and the dash that carries the menu; with an unreadable one the
    handler raises after the write and replies with nothing. *)
Theorem start_stores_then_greets render cfg user text w :
  exists new,
    trace (after (cmd_start render cfg (Message true (Some user) text)) w)
    = trace w ++ new
    /\ match result (get_lang (sender_id user)) w with
       | Ok lang =>
           result (cmd_start render cfg (Message true (Some user) text)) w = Ok tt
           /\ replies new = [Text (render (Localized "welcome" lang));
                             Text (render (Localized "choose_lang" lang));
                             MenuDash lang]
       | Raise e =>
           result (cmd_start render cfg (Message true (Some user) text)) w = Raise e
           /\ replies new = [] /\ delivered new = []
       end
    /\ (disk_ok w = true ->
        stored_record
          (files (after (cmd_start render cfg (Message true (Some user) text)) w))
          (sender_id user)
        = <["started_ts" := JInt (clock w)]> (profile user)
            ∪ stored_record (files w) (sender_id user)).
Proof.
  set (uid := sender_id user).
  set (patch := <["started_ts" := JInt (clock w)]> (profile user) : dict).
  set (w1 := after (upsert_user uid patch) w).
  pose proof (only_profile_written_upsert uid patch [] w
                (cmd_start_patch_lookup user _)) as (_ & _ & Hkeep).
  rewrite logged_nil in Hkeep. fold w1 in Hkeep.
  destruct (Hkeep uid) as (Hl1 & _).
  destruct (upsert_user_trace uid patch w) as (l1 & Ht & Hr1 & Hd1). fold w1 in Ht.
  set (rl := read_log (files w1)).
  assert (cmd_start render cfg (Message true (Some user) text) w
          = bind (t render uid "welcome") (fun welcome =>
              run emit (reply_text (Text welcome)) then
              let* choose := t render uid "choose_lang" in
              run emit (reply_text (Text choose)) then
              let* menu := main_menu uid in
              run emit (reply_text (MenuDash menu)) then
              notify_admin cfg (Text (render (Started user)))) w1) as Hrun.
  { unfold cmd_start. cbn [msg_present msg_user]. fold uid.
    unfold bind at 1. unfold time_time at 1. cbv iota beta. fold patch.
    by rewrite (bind_ok _ _ _ _ _ (upsert_user_run uid patch w)). }
  assert (disk_ok w = true ->
          stored_record (files w1) uid = patch ∪ stored_record (files w) uid) as Hrec.
  { intros Hok. subst w1. rewrite files_after_upsert, Hok.
    apply stored_record_written_same. }
  destruct (result (get_lang uid) w) as [lang|e] eqn:Hlang.
  - set (w2 := logged (rl ++ [reply_text (Text (render (Localized "welcome" lang)))]
                        ++ rl ++ [reply_text (Text (render (Localized "choose_lang" lang)))]
                        ++ rl ++ [reply_text (MenuDash lang)]) w1).
    destruct (notify_admin_run cfg (Text (render (Started user))) w2)
      as (ln & Hn & Hrn).
    assert (cmd_start render cfg (Message true (Some user) text) w
            = (Ok tt, logged ln w2)) as Heq.
    { rewrite Hrun.
      rewrite (bind_ok _ _ _ _ _ (t_ok render uid "welcome" w1 lang Hl1)). fold rl.
      erewrite bind_ok; [|reflexivity].
      change (with_event ?e ?w) with (logged [e] w). rewrite logged_logged.
      erewrite bind_ok;
        [|apply (t_ok render uid "choose_lang" _ lang);
          by rewrite (result_get_lang_files uid w1)].
      cbn [logged files]. fold rl. rewrite logged_logged.
      erewrite bind_ok; [|reflexivity].
      change (with_event ?e ?w) with (logged [e] w). rewrite logged_logged.
      unfold main_menu.
      erewrite bind_ok;
        [|apply (get_lang_ok uid _ lang); by rewrite (result_get_lang_files uid w1)].
      cbn [logged files]. fold rl. rewrite logged_logged.
      erewrite bind_ok; [|reflexivity].
      change (with_event ?e ?w) with (logged [e] w). rewrite logged_logged.
      rewrite <- Hn. subst w2. by rewrite <- !app_assoc. }
    eexists. unfold result, after. rewrite Heq. cbn [fst snd].
    split; [|split; [split; [reflexivity|]|]].
    + subst w2. cbn [logged trace]. rewrite Ht, <- !app_assoc. reflexivity.
    + subst rl. rewrite !replies_app, Hr1, Hrn, !replies_read_log. reflexivity.
    + intros Hok. subst w2. cbn [logged files]. by apply Hrec.
  - assert (cmd_start render cfg (Message true (Some user) text) w
            = (Raise e, logged rl w1)) as Heq.
    { rewrite Hrun.
      by rewrite (bind_raise _ _ _ _ _ (t_raise render uid "welcome" w1 e Hl1)). }
    eexists. unfold result, after. rewrite Heq. cbn [fst snd].
    split; [|split; [split; [reflexivity|split]|]].
    + cbn [logged trace]. rewrite Ht, <- !app_assoc. reflexivity.
    + subst rl. by rewrite !replies_app, Hr1, !replies_read_log.
    + subst rl. by rewrite !delivered_app, Hd1, !delivered_read_log.
    + intros Hok. cbn [logged files]. by apply Hrec.
Qed.

Lemma get_lang_is_supported uid w lang :
  result (get_lang uid) w = Ok lang -> lang = "ru" \/ lang = "tj".
Proof.
  rewrite result_get_lang.
  destruct (let v := get _ "lang" in if truthy v then v else JStr "");
    try discriminate.
  intros [= <-]. apply elem_of_SUPPORTED, coerce_lang_supported.
Qed.

Lemma account_text_eq render uid w lang :
  result (get_lang uid) w = Ok lang ->
  account_text render uid w
  = (Ok (render (Account lang
                   (first_approved (stored_purchases (files w) uid)
                      ["VIP"; "PRO"; "BASIC"])
                   (or_dash (get (stored_record (files w) uid) "username"))
                   (or_dash (get (stored_record (files w) uid) "first_name"))
                   uid)),
     logged (read_log (files w) ++ read_log (files w) ++ read_log (files w)) w).
Proof.
  intros Hr. unfold account_text.
  rewrite (bind_ok _ _ _ _ _ (get_lang_ok uid w lang Hr)).
  rewrite (bind_ok _ _ _ _ _ (get_user_eq uid _)).
  rewrite (bind_ok _ _ _ _ _ (get_approved_plan_eq uid _)).
  cbn [logged files]. unfold ret. by rewrite !logged_logged, <- ?app_assoc.
Qed.

(** The account button shows the profile of the message that pressed it.
    For a sender whose language can be read and whose text is the account
    label of that language (the write going through), the one reply is the
    account page in that language, with the user name and first name of this
    very message (a dash for a missing or empty one) and the approved plan
    of highest precedence, if any; nothing is sent to anybody. *)
Theorem account_button_shows_the_sender render cfg user text w lang :
  disk_ok w = true ->
  result (get_lang (sender_id user)) w = Ok lang ->
  PyStr.strip text = menu_label "menu_account" lang ->
  let m := Message true (Some user) (Some text) in
  exists new,
    result (on_text render cfg m) w = Ok tt
    /\ trace (after (on_text render cfg m) w) = trace w ++ new
    /\ delivered new = []
    /\ replies new
       = [Text (render (Account lang
                          (first_approved (stored_purchases (files w) (sender_id user))
                             ["VIP"; "PRO"; "BASIC"])
                          (or_dash (opt_json (username user)))
                          (or_dash (opt_json (first_name user)))
                          (sender_id user)))].
Proof.
  intros Hok Hlang Htext m. subst m.
  set (uid := sender_id user) in *.
  set (patch := <["last_message" := JStr (PyStr.strip text)]>
                  (<["last_message_ts" := JInt (clock w)]> (profile user)) : dict).
  set (w1 := after (upsert_user uid patch) w).
  pose proof (only_profile_written_upsert uid patch [] w
                (on_text_patch_lookup user _ _)) as (Hk & _ & Hkeep).
  rewrite logged_nil in Hk, Hkeep. fold w1 in Hk, Hkeep.
  destruct (Hkeep uid) as (Hl1 & _). rewrite Hlang in Hl1.
  destruct (upsert_user_trace uid patch w) as (l1 & Ht & Hr1 & Hd1). fold w1 in Ht.
  assert (files w1 = written (users_with (files w) uid
                                (patch ∪ stored_record (files w) uid))) as Hfiles.
  { subst w1. by rewrite files_after_upsert, Hok. }
  assert (read_log (files w1) = []) as Hquiet by (by rewrite Hfiles).
  assert (stored_record (files w1) uid = patch ∪ stored_record (files w) uid) as Hrec.
  { rewrite Hfiles. apply stored_record_written_same. }
  assert (stored_purchases (files w1) uid = stored_purchases (files w) uid) as Hp.
  { unfold stored_purchases, get_or_empty. rewrite Hk; [done|].
    apply (bool_decide_unpack _). vm_compute. exact I. }
  assert (on_text render cfg (Message true (Some user) (Some text)) w
          = reply_with_menu uid (account_text render uid) w1) as Hrun.
  { unfold on_text. cbn [msg_present msg_user msg_text default from_option id].
    fold uid. unfold bind at 1. unfold time_time at 1. cbv iota beta.
    fold patch. rewrite (bind_ok _ _ _ _ _ (upsert_user_run uid patch w)).
    fold w1. rewrite Htext.
    rewrite (bool_decide_eq_false_2 (menu_label "menu_account" lang ∈ lang_shortcuts)).
    2: { destruct (get_lang_is_supported _ _ _ Hlang) as [-> | ->];
           apply (bool_decide_unpack _); vm_compute; exact I. }
    rewrite (bind_ok _ _ _ _ _ (get_lang_ok uid w1 lang Hl1)).
    rewrite Hquiet, logged_nil.
    destruct (get_lang_is_supported _ _ _ Hlang) as [-> | ->]; reflexivity. }
  assert (get (patch ∪ stored_record (files w) uid) "username"
          = opt_json (username user)) as Hun.
  { unfold get. erewrite lookup_union_Some_l; [reflexivity|]. reflexivity. }
  assert (get (patch ∪ stored_record (files w) uid) "first_name"
          = opt_json (first_name user)) as Hfn.
  { unfold get. erewrite lookup_union_Some_l; [reflexivity|]. reflexivity. }
  eexists. unfold result, after. rewrite Hrun. unfold reply_with_menu, main_menu.
  rewrite (bind_ok _ _ _ _ _ (account_text_eq render uid w1 lang Hl1)).
  rewrite Hquiet, logged_nil, Hrec, Hp, Hun, Hfn.
  rewrite (bind_ok _ _ _ _ _ (get_lang_ok uid w1 lang Hl1)).
  rewrite Hquiet, logged_nil. unfold emit. cbn [fst snd with_event trace].
  split; [reflexivity|]. split; [by rewrite Ht, <- app_assoc|].
  split; [by rewrite delivered_app, Hd1|].
  by rewrite replies_app, Hr1.
Qed.

End Bot.

#[global] Existing Instance PyStr.unicode_14_excerpt.

(** * Worked examples

    Each property above that has a premise is applied here to a concrete
    world and input, with the Unicode tables of [PyStr.unicode_14_excerpt];
    the examples that contradict a sentence of the specification are here
    too. *)

Lemma approve_then_plan_witness :
  accepted demo_cfg approve_vip 7 "VIP"
  /\ disk_ok pro_world = true
  /\ exists best,
       result (get_approved_plan 7) (after (cmd_approve demo_cfg approve_vip) pro_world)
       = Ok (Some best)
       /\ (precedence "VIP" <= precedence best)%nat
       /\ (best = "VIP" \/ approved_entry (files pro_world) 7 best)
       /\ forall other, other ∈ PLANS -> approved_entry (files pro_world) 7 other ->
                        (precedence other <= precedence best)%nat.
Proof.
  split; [exact approve_vip_accepted|]. split; [reflexivity|].
  exact (proj1 (approve_then_plan_and_deny_then_access
                  demo_cfg approve_vip pro_world 7 "VIP"
                  approve_vip_accepted eq_refl)).
Defined.

Lemma only_known_object_entries_witness :
  result (user_has_access 7) odd_world = Ok false
  /\ result (get_approved_plan 7) odd_world = Ok None.
Proof.
  apply (only_known_object_entries_count 7 odd_world).
  intros plan p Hin Hp. apply elem_of_PLANS in Hin.
  destruct Hin as [-> | [-> | ->]]; vm_compute in Hp; discriminate Hp.
Defined.

Lemma get_user_witness :
  stored_users (files pro_world) !! PyStr.str 8 = None
  /\ result (get_user 8) pro_world = Ok ∅.
Proof.
  split; [reflexivity|].
  exact (proj2 (proj2 (get_user_reads_without_writing 8 pro_world)) eq_refl).
Defined.

Lemma safe_read_witness :
  faulty (users_file (files list_world))
  /\ result _safe_read_json list_world = Ok ∅.
Proof.
  assert (faulty (users_file (files list_world))) as Hf.
  { apply faulty_non_object. discriminate. }
  split; [exact Hf|].
  exact (proj2 (proj2 (safe_read_tolerates_faults list_world)) Hf).
Defined.


Lemma locale_fallback_witness :
  disk_ok fresh_world = true
  /\ stored_record (files (after (set_lang 7 "xx") fresh_world)) 7 !! "lang"
     = Some (JStr (coerce_lang (PyStr.lower (PyStr.strip "xx"))))
  /\ result (get_lang 7) (after (set_lang 7 "xx") fresh_world)
     = Ok (coerce_lang (PyStr.lower (PyStr.strip "xx")))
  /\ coerce_lang (PyStr.lower (PyStr.strip "xx")) = DEFAULT_LANG.
Proof.
  split; [reflexivity|].
  destruct (locale_is_normalised_then_validated 7 "xx" fresh_world)
    as (_ & _ & _ & _ & _ & Hset & _).
  destruct (Hset eq_refl) as [Hstored Hget].
  split; [exact Hstored|]. split; [exact Hget | reflexivity].
Defined.

(** C6 as stated fails: ["TJ"] is no member of the supported set, yet
    [set_lang] stores ["tj"] for it, not the default. *)
Lemma set_lang_keeps_normalised_input : ~ unsupported_is_defaulted.
Proof.
  intros H. specialize (H 7 "TJ" fresh_world eq_refl).
  assert ("TJ" ∉ SUPPORTED_LANGS) as Hno.
  { rewrite elem_of_SUPPORTED. intros [?|?]; discriminate. }
  specialize (H Hno). vm_compute in H. discriminate H.
Qed.

(** C1 as stated fails: on a fresh store the operator's approve moves the
    status of (7, VIP) from none to approved, which is no edge of the
    specification's graph. *)
Lemma approve_skips_requested : ~ follows_spec_edges demo_cfg demo_repr.
Proof.
  intros H.
  specialize (H (Approve approve_vip) fresh_world 7 "VIP" "none" "approved").
  assert (spec_edge "none" "approved" = true) as Hedge.
  { apply H; [reflexivity | reflexivity | discriminate]. }
  discriminate Hedge.
Qed.

Lemma upsert_user_merges_witness :
  disk_ok named_world = true
  /\ result (get_user 7)
       (after (upsert_user 7 (<["lang" := JStr "ru"]> ∅)) named_world)
     = result (upsert_user 7 (<["lang" := JStr "ru"]> ∅)) named_world.
Proof.
  split; [reflexivity|].
  exact (proj1 (proj2 (upsert_user_merges 7 (<["lang" := JStr "ru"]> ∅)
                         named_world eq_refl))).
Defined.

Lemma upsert_user_replaces_witness :
  disk_ok list_world = true
  /\ faulty (users_file (files list_world))
  /\ files (after (upsert_user 7 (<["lang" := JStr "ru"]> ∅)) list_world)
     = written (<[PyStr.str 7 := JDict (<["lang" := JStr "ru"]> ∅)]> ∅).
Proof.
  assert (faulty (users_file (files list_world))) as Hf.
  { apply faulty_non_object. discriminate. }
  split; [reflexivity|]. split; [exact Hf|].
  exact (proj1 (upsert_user_replaces_what_it_cannot_read
                  7 (<["lang" := JStr "ru"]> ∅) list_world eq_refl) Hf).
Defined.

Lemma failed_write_witness :
  disk_ok replace_raises_world = false
  /\ users_file (files (after (set_purchase_status 7 "VIP" "approved")
                          replace_raises_world))
     = users_file (files replace_raises_world)
  /\ result (get_approved_plan 7)
       (after (set_purchase_status 7 "VIP" "approved") replace_raises_world)
     = Ok None
  /\ tmp_file (files (after (set_purchase_status 7 "VIP" "approved")
                        replace_raises_world))
     <> tmp_file (files replace_raises_world).
Proof.
  split; [reflexivity|].
  destruct (proj2 (proj1 (proj2 (failed_write_is_silent
                                   7 ∅ "VIP" "approved" "ru"
                                   replace_raises_world eq_refl))))
    as (Hu & _).
  split; [exact Hu|]. split; [reflexivity | discriminate].
Defined.

Lemma set_status_then_get_status_witness :
  disk_ok named_world = true
  /\ result (get_purchase_status demo_repr 7 "GOLD")
       (after (set_purchase_status 7 "GOLD" "none") named_world) = Ok "none".
Proof.
  split; [reflexivity|].
  exact (proj1 (set_status_then_get_status demo_repr 7 "GOLD" "none"
                  named_world eq_refl)).
Defined.

Lemma access_needs_approve_witness :
  (forall now op, (now, op) ∈ two_presses -> forced_status op <> "approved")
  /\ result (user_has_access 7) (handle_all demo_cfg two_presses fresh_world)
     = Ok false.
Proof.
  assert (forall now op, (now, op) ∈ two_presses -> forced_status op <> "approved")
    as Hno.
  { intros now op Hin. unfold two_presses in Hin.
    rewrite !elem_of_cons, elem_of_nil in Hin.
    destruct Hin as [[= -> ->]|[[= -> ->]|[]]]; discriminate. }
  split; [exact Hno|].
  exact (proj2 (access_needs_approve demo_cfg two_presses fresh_world 7 Hno) eq_refl).
Defined.

Lemma paid_press_revokes_witness :
  commits demo_cfg (Pressed press_pro) 7 "PRO"
  /\ disk_ok pro_world = true
  /\ approved_entry (files pro_world) 7 "PRO"
  /\ ~ approved_entry (files (after (on_callback demo_cfg press_pro) pro_world)) 7 "PRO".
Proof.
  split; [exact press_pro_commits|]. split; [reflexivity|]. split.
  - apply approved_entry_iff. reflexivity.
  - exact (proj1 (paid_press_revokes demo_cfg press_pro pro_world 7 "PRO"
                    press_pro_commits eq_refl)).
Defined.

Lemma press_writes_only_the_presser_witness :
  cb_user press_pro <> Some 8
  /\ stored_record (files (after (on_callback demo_cfg press_pro) pro_world)) 8
     = stored_record (files pro_world) 8.
Proof.
  assert (cb_user press_pro <> Some 8) as Hne by discriminate.
  split; [exact Hne|].
  exact (proj1 (press_writes_only_the_presser demo_cfg press_pro pro_world) 8 Hne).
Defined.

Lemma unknown_plan_witness :
  (PyStr.upper "gold" ∉ PLANS)
  /\ on_callback demo_cfg (Callback true (Some 7) ("paid:" +:+ "gold")) pro_world
     = (Ok tt, logged [edit_message_text (Text "Ошибка тарифа.")] pro_world).
Proof.
  assert (PyStr.upper "gold" ∉ PLANS) as Hno.
  { rewrite elem_of_PLANS. intros [H|[H|H]]; discriminate H. }
  split; [exact Hno|].
  exact (proj2 (unknown_plan_is_refused demo_cfg 7 "gold" pro_world Hno)).
Defined.

Lemma approve_commits_witness :
  accepted demo_cfg approve_vip 7 "VIP"
  /\ disk_ok unreachable_world = true
  /\ result (cmd_approve demo_cfg approve_vip) unreachable_world = Ok tt
  /\ trace (after (cmd_approve demo_cfg approve_vip) unreachable_world)
     = [reply_text (Text ("✅ Подтверждено: " +:+ PyStr.str 7 +:+ " → " +:+ "VIP"));
        log_warning "Failed to message user"].
Proof.
  split; [exact approve_vip_accepted|]. split; [reflexivity|].
  destruct (approve_commits_then_notifies demo_cfg approve_vip unreachable_world
              7 "VIP" approve_vip_accepted eq_refl)
    as (tail & Htrace & _ & Hres & Htail).
  split; [exact Hres|]. rewrite Htrace, Htail. reflexivity.
Defined.

Lemma deny_commits_witness :
  accepted demo_cfg deny_vip 7 "VIP"
  /\ disk_ok pro_world = true
  /\ result (cmd_deny demo_cfg deny_vip) pro_world = Ok tt
  /\ trace (after (cmd_deny demo_cfg deny_vip) pro_world)
     = [reply_text (Text ("⛔ Отказано: " +:+ PyStr.str 7 +:+ " → " +:+ "VIP"));
        send_message 7 (DeniedNotice "ru")].
Proof.
  split; [exact deny_vip_accepted|]. split; [reflexivity|].
  destruct (deny_commits_then_notifies demo_cfg deny_vip pro_world
              7 "VIP" deny_vip_accepted eq_refl)
    as (tail & Htrace & _ & Hres & Htail).
  split; [exact Hres|]. rewrite Htrace, Htail. reflexivity.
Defined.

Lemma language_confirmed_witness :
  disk_ok unreachable_world = true
  /\ stored_record
       (files (after (on_callback demo_cfg (Callback true (Some 7) ("lang:" +:+ " TJ ")))
                 unreachable_world)) 7 !! "lang"
     = Some (JStr "tj")
  /\ result (on_callback demo_cfg (Callback true (Some 7) ("lang:" +:+ " TJ ")))
       unreachable_world
     = Raise TelegramError.
Proof.
  split; [reflexivity|].
  destruct (language_confirmed_is_language_stored demo_cfg 7 " TJ " unreachable_world
              eq_refl) as (Hs & _ & Hr & _).
  split; [exact Hs | exact Hr].
Defined.

Lemma printed_command_witness :
  operator demo_cfg 42
  /\ "PRO" ∈ PLANS
  /\ Z.abs (-1001234567890) < 10 ^ 4300
  /\ accepted demo_cfg
       (Update true (Some 42) (PyStr.str (-1001234567890) :: "PRO" :: []))
       (-1001234567890) "PRO".
Proof.
  assert (operator demo_cfg 42) as Hop by (right; reflexivity).
  assert ("PRO" ∈ PLANS) as Hplan by (apply elem_of_PLANS; tauto).
  assert (Z.abs (-1001234567890) < 10 ^ 4300) as Hsize.
  { apply Z.lt_le_trans with (10 ^ 13); [reflexivity|].
    apply Z.pow_le_mono_r; lia. }
  split; [exact Hop|]. split; [exact Hplan|]. split; [exact Hsize|].
  exact (proj1 (printed_command_is_accepted demo_cfg demo_repr 42 (-1001234567890)
                  "PRO" [] fresh_world Hop Hplan Hsize)).
Defined.

Lemma broadcast_counts_witness :
  (forall users, keys_of users ≡ₚ keys_of users)
  /\ operator demo_cfg (sender_id the_operator)
  /\ after_space "/broadcast  hello " = Some " hello "
  /\ PyStr.strip " hello " <> ""
  /\ last (trace (after (cmd_broadcast keys_of demo_cfg
                           (Message true (Some the_operator)
                              (Some "/broadcast  hello "))) crowd_world))
     = Some (reply_text (broadcast_report 2 3)).
Proof.
  assert (forall users, keys_of users ≡ₚ keys_of users) as Hperm by reflexivity.
  assert (operator demo_cfg (sender_id the_operator)) as Hop by (by right).
  assert (PyStr.strip " hello " <> "") as Hne by discriminate.
  split; [exact Hperm|]. split; [exact Hop|]. split; [reflexivity|].
  split; [exact Hne|].
  exact (proj1 (proj2 (proj2
    (broadcast_reports_its_counts keys_of demo_cfg the_operator
       "/broadcast  hello " " hello " crowd_world Hperm Hop eq_refl Hne)))).
Defined.

Lemma broadcast_delivers_witness :
  (forall users, keys_of users ≡ₚ keys_of users)
  /\ operator demo_cfg (sender_id the_operator)
  /\ after_space "/broadcast  hello " = Some " hello "
  /\ PyStr.strip " hello " <> ""
  /\ exists new,
       trace (after (cmd_broadcast keys_of demo_cfg
                       (Message true (Some the_operator)
                          (Some "/broadcast  hello "))) crowd_world)
       = trace crowd_world ++ new
       /\ delivered new ≡ₚ [(7, Text "hello"); (7, Text "hello")].
Proof.
  assert (forall users, keys_of users ≡ₚ keys_of users) as Hperm by reflexivity.
  assert (operator demo_cfg (sender_id the_operator)) as Hop by (by right).
  assert (PyStr.strip " hello " <> "") as Hne by discriminate.
  split; [exact Hperm|]. split; [exact Hop|]. split; [reflexivity|].
  split; [exact Hne|].
  exact (broadcast_delivers_once_per_key keys_of demo_cfg the_operator
           "/broadcast  hello " " hello " crowd_world Hperm Hop eq_refl Hne).
Defined.

Lemma broadcast_guarded_witness :
  msg_present (Message true (Some a_stranger) (Some "/broadcast hello")) = true
  /\ cmd_broadcast keys_of demo_cfg
       (Message true (Some a_stranger) (Some "/broadcast hello")) crowd_world
     = (Ok tt, logged [reply_text msg_no_access] crowd_world)
  /\ cmd_broadcast keys_of demo_cfg
       (Message true (Some the_operator) (Some blank_broadcast)) crowd_world
     = (Ok tt, logged [reply_text msg_usage_broadcast] crowd_world).
Proof.
  split; [reflexivity|]. split.
  - apply (proj1 (broadcast_is_guarded keys_of demo_cfg
             (Message true (Some a_stranger) (Some "/broadcast hello")) crowd_world
             eq_refl)).
    intros a [= <-] [H|H]; discriminate H.
  - apply (proj2 (broadcast_is_guarded keys_of demo_cfg
             (Message true (Some the_operator) (Some blank_broadcast)) crowd_world
             eq_refl)).
    + exists the_operator. split; [reflexivity | by right].
    + intros arg [= <-]. reflexivity.
Defined.

Lemma free_text_witness :
  result (get_lang (sender_id the_buyer)) pro_world = Ok "ru"
  /\ (PyStr.strip "📚 Дарсҳо" ∉ lang_shortcuts)
  /\ (forall key, key ∈ menu_keys -> PyStr.strip "📚 Дарсҳо" <> menu_label key "ru")
  /\ exists new key,
       result (on_text demo_render demo_cfg
                 (Message true (Some the_buyer) (Some "📚 Дарсҳо"))) pro_world = Ok tt
       /\ trace (after (on_text demo_render demo_cfg
                          (Message true (Some the_buyer) (Some "📚 Дарсҳо"))) pro_world)
          = trace pro_world ++ new
       /\ replies new = [Text (demo_render (Localized key "ru"))]
       /\ delivered new = []
       /\ (key = "access_active"
           /\ (exists plan, plan ∈ PLANS
                            /\ approved_entry (files pro_world) (sender_id the_buyer) plan)
           \/ key = "no_access"
              /\ (forall plan, plan ∈ PLANS ->
                    ~ approved_entry (files pro_world) (sender_id the_buyer) plan)).
Proof.
  assert (PyStr.strip "📚 Дарсҳо" ∉ lang_shortcuts) as Hshort.
  { apply (bool_decide_unpack _). vm_compute. exact I. }
  assert (forall key, key ∈ menu_keys ->
            PyStr.strip "📚 Дарсҳо" <> menu_label key "ru") as Hmenu.
  { intros key Hin. unfold menu_keys in Hin.
    rewrite !elem_of_cons, elem_of_nil in Hin.
    destruct Hin as [-> | [-> | [-> | [-> | []]]]]; intros H; vm_compute in H;
      discriminate H. }
  split; [reflexivity|]. split; [exact Hshort|]. split; [exact Hmenu|].
  exact (free_text_is_gated demo_render demo_cfg the_buyer "📚 Дарсҳо" pro_world
           "ru" eq_refl Hshort Hmenu).
Defined.

Lemma account_button_witness :
  disk_ok tajik_world = true
  /\ result (get_lang (sender_id the_buyer)) tajik_world = Ok "tj"
  /\ PyStr.strip " 📊 Ҳисоби ман" = menu_label "menu_account" "tj"
  /\ exists new,
       result (on_text demo_render demo_cfg
                 (Message true (Some the_buyer) (Some " 📊 Ҳисоби ман"))) tajik_world
       = Ok tt
       /\ trace (after (on_text demo_render demo_cfg
                          (Message true (Some the_buyer) (Some " 📊 Ҳисоби ман")))
                   tajik_world)
          = trace tajik_world ++ new
       /\ delivered new = []
       /\ replies new
          = [Text (demo_render (Account "tj" None (JStr "—") (JStr "Ann") 7))].
Proof.
  split; [reflexivity|]. split; [reflexivity|]. split; [reflexivity|].
  exact (account_button_shows_the_sender demo_render demo_cfg the_buyer
           " 📊 Ҳисоби ман" tajik_world "tj" eq_refl eq_refl eq_refl).
Defined.

(** C2 does not hold when the write fails.  On a fresh store in a directory
    that cannot be written, the operator's well-formed approve of VIP for
    user 7 is accepted: the failure is logged, the operator gets the receipt
    and the buyer the notice, and [get_approved_plan 7] then returns [None],
    not VIP. *)
Lemma approve_lost_on_failed_write :
  accepted demo_cfg approve_vip 7 "VIP"
  /\ result (cmd_approve demo_cfg approve_vip) unwritable_world = Ok tt
  /\ trace (after (cmd_approve demo_cfg approve_vip) unwritable_world)
     = [log_error "Failed to write JSON";
        reply_text (Text "✅ Подтверждено: 7 → VIP");
        send_message 7 (ApprovedNotice "ru" "VIP")]
  /\ result (get_approved_plan 7)
       (after (cmd_approve demo_cfg approve_vip) unwritable_world)
     = Ok None.
Proof.
  split; [exact approve_vip_accepted|]. repeat split; reflexivity.
Qed.

(** ** Text outside ASCII

    What the builtins make of text outside ASCII, with the tables of
    [PyStr.unicode_14_excerpt]. *)

(** [int] reads the decimal digits of any script, and trims the blanks
    [strip] trims except the four separators U+001C to U+001F. *)
Example int_reads_unicode_digits :
  PyStr.int "٧" = Some 7
  /\ PyStr.int (PyStr.encode [0xA0; 0x37; 0x2003]%N) = Some 7
  /\ PyStr.int (PyStr.encode [0x1C; 0x37]%N) = None
  /\ PyStr.strip (PyStr.encode [0x1C; 0x37]%N) = "7".
Proof. repeat split; reflexivity. Qed.

(** [upper] maps the dotless i and the long s to ASCII letters; [strip] drops
    the no-break space. *)
Example upper_and_strip_outside_ascii :
  PyStr.upper "vıp" = "VIP"
  /\ PyStr.upper "baſic" = "BASIC"
  /\ PyStr.lower (PyStr.strip (PyStr.encode [0xA0; 0x54; 0x4A; 0x3000]%N)) = "tj".
Proof. repeat split; reflexivity. Qed.

(** So the operator's [/approve ٧ vıp] is an accepted approve of VIP for user
    7, and it is written. *)
Example approve_reads_unicode_arguments :
  accepted demo_cfg (Update true (Some 42) ["٧"; "vıp"]) 7 "VIP"
  /\ result (get_approved_plan 7)
       (after (cmd_approve demo_cfg (Update true (Some 42) ["٧"; "vıp"])) fresh_world)
     = Ok (Some "VIP").
Proof.
  split; [|reflexivity].
  split; [reflexivity|]. split.
  - exists 42. split; [reflexivity|]. right. reflexivity.
  - exists "٧", "vıp", []. repeat split. apply elem_of_PLANS. tauto.
Qed.

(** And [set_lang] with a no-break space before [TJ] stores [tj]. *)
Example set_lang_trims_no_break_space :
  result (get_lang 7)
    (after (set_lang 7 (PyStr.encode [0xA0; 0x54; 0x4A]%N)) fresh_world)
  = Ok "tj".
Proof. reflexivity. Qed.
